(** * foodome: the filename heuristics and the per-dataset MS2 selection of
    [ms_filter.py]

    A shallow embedding of [ms_filter.py] and the properties of its filename
    relevance classifier, food-key pattern generator, remote file lister and
    per-dataset orchestrator.

    Conventions of the embedding.
    - A Python [str] is a Rocq [string]; the characters are those of [ascii].
      Case folding and the word class of [\b] are the ASCII ones, which is what
      Python computes on ASCII text.
    - A dataset record (a Python [dict] loaded from JSON) is a
      [gmap string value]; [value] is the JSON value type, with the integers
      for its numbers.  The file descriptors, whose keys are fixed, are
      records.
    - [logging] calls, [os.getpid] and [time.time] only feed log lines and are
      left out.
    - [subprocess.run] is the only way the module reaches the network.  It is
      modelled by an oracle that answers a command given the commands run
      before it, and every command run is appended to a call log.
    - [urllib.parse.urlparse] is a parameter, and so are the Docker probe and
      the msconvert conversion, which sit behind the constant
      [ENABLE_MSCONVERT_PROCESSING = False]. *)

From Stdlib Require Import ZArith Ascii String List Bool Lia.
From stdpp Require Import base gmap strings list sorting.
Import ListNotations.

Set Warnings "-register-all".
Local Open Scope Z_scope.
Local Open Scope nat_scope.

(** ** Python built-ins used by the module *)

Module Py.

Definition chars (s : string) : list ascii := list_ascii_of_string s.
Definition str (l : list ascii) : string := string_of_list_ascii l.

Definition code (c : ascii) : nat := nat_of_ascii c.

Definition is_upper (c : ascii) : bool := (65 <=? code c) && (code c <=? 90).
Definition is_lower (c : ascii) : bool := (97 <=? code c) && (code c <=? 122).
Definition is_digit (c : ascii) : bool := (48 <=? code c) && (code c <=? 57).

(** [str.isspace] on one character: TAB, LF, VT, FF, CR, FS, GS, RS, US and
    the space. *)
Definition is_space (c : ascii) : bool :=
  ((9 <=? code c) && (code c <=? 13)) || ((28 <=? code c) && (code c <=? 32)).

Definition lower_char (c : ascii) : ascii :=
  if is_upper c then ascii_of_nat (code c + 32) else c.

(** [s.lower()] *)
Fixpoint lower (s : string) : string :=
  match s with
  | EmptyString => EmptyString
  | String c r => String (lower_char c) (lower r)
  end.

(** [len(s)] *)
Definition len (s : string) : nat := String.length s.

(** [s.startswith(p)] *)
Definition startswith (s p : string) : bool := String.prefix p s.

(** [s.endswith(p)] *)
Definition endswith (s p : string) : bool :=
  String.prefix (str (rev (chars p))) (str (rev (chars s))).

(** [sub in s] for two strings *)
Fixpoint contains (sub s : string) : bool :=
  String.prefix sub s ||
  match s with
  | EmptyString => false
  | String _ r => contains sub r
  end.

(** [x in l] for a string and a list of strings *)
Definition mem (x : string) (l : list string) : bool :=
  existsb (String.eqb x) l.

(** [s.split(c)] for a one-character separator: never the empty list. *)
Fixpoint split (c : ascii) (s : string) : list string :=
  match s with
  | EmptyString => [EmptyString]
  | String x r =>
      if Ascii.eqb x c then EmptyString :: split c r
      else match split c r with
           | h :: t => String x h :: t
           | [] => [String x EmptyString]
           end
  end.

Fixpoint lstrip_chars (l : list ascii) : list ascii :=
  match l with
  | c :: r => if is_space c then lstrip_chars r else l
  | [] => []
  end.

(** [s.strip()] *)
Definition strip (s : string) : string :=
  str (rev (lstrip_chars (rev (lstrip_chars (chars s))))).

(** [bool(s)] for a string: the empty string is falsy. *)
Definition truthy_str (s : string) : bool :=
  match s with EmptyString => false | _ => true end.

(** The digits of an [int] literal: single underscores are allowed between
    digits. [acc] is the value read so far, [prev_digit] tells whether the
    previous character was a digit. *)
Fixpoint int_digits (l : list ascii) (acc : Z) (prev_digit : bool) : option Z :=
  match l with
  | [] => if prev_digit then Some acc else None
  | c :: r =>
      if is_digit c then int_digits r (10 * acc + Z.of_nat (code c - 48))%Z true
      else if Ascii.eqb c "_" then
        if prev_digit then int_digits r acc false else None
      else None
  end.

(** [int(s)]: [None] stands for [ValueError]. *)
Definition int (s : string) : option Z :=
  match chars (strip s) with
  | "-"%char :: r => Z.opp <$> int_digits r 0%Z false
  | "+"%char :: r => int_digits r 0%Z false
  | l => int_digits l 0%Z false
  end.

(** [os.path.basename] (posixpath): what follows the last slash. *)
Definition basename (p : string) : string :=
  List.last (split "/" p) EmptyString.

(** Index of the last occurrence of [c] in [l], if any. *)
Fixpoint rfind (c : ascii) (l : list ascii) : option nat :=
  match l with
  | [] => None
  | x :: r =>
      match rfind c r with
      | Some i => Some (S i)
      | None => if Ascii.eqb x c then Some 0 else None
      end
  end.

(** [os.path.splitext] (posixpath): the extension starts at the last dot of
    the last path component, unless only dots precede it there. *)
Definition splitext (p : string) : string * string :=
  let l := chars p in
  let start := match rfind "/" l with Some i => S i | None => 0 end in
  match rfind "." l with
  | Some d =>
      if (start <=? d) &&
         existsb (fun c => negb (Ascii.eqb c ".")) (firstn (d - start) (skipn start l))
      then (str (firstn d l), str (skipn d l))
      else (p, EmptyString)
  | None => (p, EmptyString)
  end.

End Py.

(** ** The regular expressions of [re] that the module uses

    The patterns of [ms_filter.py] are built from literal characters, the
    word boundary [\b], escaped punctuation, character sets such as [[sz]]
    and [[-]], non-capturing groups [(?:...)] and alternation.  [compile]
    parses exactly this fragment and answers [None] outside it; every
    pattern is compiled with [re.IGNORECASE]. *)

Module Re.

Inductive regex : Type :=
| Empty                       (* the empty pattern *)
| Char (c : ascii)            (* one literal character *)
| Class (cs : list ascii)     (* a set [...] *)
| WordB                       (* \b *)
| Seq (r1 r2 : regex)
| Alt (r1 r2 : regex).

#[global] Instance regex_eq_dec : EqDecision regex.
Proof. solve_decision. Defined.

(** *** Parsing a pattern *)

(** A group being read: the alternatives already closed and the items of the
    alternative being read, both most recent first. *)
Record frame : Type := Frame { closed : list regex; items : list regex }.

Definition empty_frame : frame := Frame [] [].

Definition push (r : regex) (f : frame) : frame :=
  Frame (closed f) (r :: items f).

Definition seq_of (l : list regex) : regex := fold_right Seq Empty l.

Fixpoint alt_of (r : regex) (l : list regex) : regex :=
  match l with
  | [] => r
  | r' :: l' => Alt r (alt_of r' l')
  end.

Definition next_alt (f : frame) : frame :=
  Frame (seq_of (rev (items f)) :: closed f) [].

Definition close (f : frame) : regex :=
  match rev (seq_of (rev (items f)) :: closed f) with
  | r :: l => alt_of r l
  | [] => Empty
  end.

Definition is_alnum (c : ascii) : bool :=
  Py.is_upper c || Py.is_lower c || Py.is_digit c.

(** Characters with a meaning of their own outside a set. *)
Definition is_meta (c : ascii) : bool :=
  existsb (Ascii.eqb c) (Py.chars ".^$*+?{}[]\|()").

(** [parse s f stack cls]: [f] is the innermost open group, [stack] the
    groups around it, [cls] the characters of the set being read, if one
    is open (most recent first). *)
Fixpoint parse (s : string) (f : frame) (stack : list frame)
         (cls : option (list ascii)) : option regex :=
  match s with
  | EmptyString =>
      match stack, cls with
      | [], None => Some (close f)
      | _, _ => None
      end
  | String c r =>
      match cls with
      | Some cs =>
          if Ascii.eqb c "]" then
            match cs with
            | [] => None
            | _ => parse r (push (Class (rev cs)) f) stack None
            end
          else if Ascii.eqb c "\" then None
          else if Ascii.eqb c "^" then
            match cs with [] => None | _ => parse r f stack (Some (c :: cs)) end
          else if Ascii.eqb c "-" then
            match cs, r with
            | [], _ => parse r f stack (Some [c])
            | _, String "]" _ => parse r f stack (Some (c :: cs))
            | _, _ => None
            end
          else parse r f stack (Some (c :: cs))
      | None =>
          if Ascii.eqb c "\" then
            match r with
            | String d r' =>
                if Ascii.eqb d "b" then parse r' (push WordB f) stack None
                else if is_alnum d then None
                else parse r' (push (Char d) f) stack None
            | EmptyString => None
            end
          else if Ascii.eqb c "[" then parse r f stack (Some [])
          else if Ascii.eqb c "(" then
            match r with
            | String "?" (String ":" r') => parse r' empty_frame (f :: stack) None
            | _ => None
            end
          else if Ascii.eqb c ")" then
            match stack with
            | g :: stack' => parse r (push (close f) g) stack' None
            | [] => None
            end
          else if Ascii.eqb c "|" then parse r (next_alt f) stack None
          else if is_meta c then None
          else parse r (push (Char c) f) stack None
      end
  end.

(** [re.compile(pattern, re.IGNORECASE)]; [None] is outside the fragment. *)
Definition compile (pattern : string) : option regex :=
  parse pattern empty_frame [] None.

(** *** Matching *)

(** [\w] on ASCII text. *)
Definition is_word (c : ascii) : bool :=
  is_alnum c || Ascii.eqb c "_".

(** Equality of characters under [re.IGNORECASE]. *)
Definition ceq (a b : ascii) : bool :=
  Ascii.eqb (Py.lower_char a) (Py.lower_char b).

(** A position in the text: the characters before it, nearest first, and
    the characters from it on. *)
Definition pos : Type := list ascii * list ascii.

Definition word_before (p : pos) : bool :=
  match fst p with c :: _ => is_word c | [] => false end.

Definition word_after (p : pos) : bool :=
  match snd p with c :: _ => is_word c | [] => false end.

Definition advance_if (ok : ascii -> bool) (p : pos) : list pos :=
  match snd p with
  | x :: suf => if ok x then [(x :: fst p, suf)] else []
  | [] => []
  end.

(** The positions at which a match of [r] that starts at [p] can end. *)
Fixpoint ends (r : regex) (p : pos) : list pos :=
  match r with
  | Empty => [p]
  | Char c => advance_if (ceq c) p
  | Class cs => advance_if (fun x => existsb (ceq x) cs) p
  | WordB => if xorb (word_before p) (word_after p) then [p] else []
  | Seq r1 r2 => flat_map (ends r2) (ends r1 p)
  | Alt r1 r2 => ends r1 p ++ ends r2 p
  end.

Definition matches_at (r : regex) (p : pos) : bool :=
  match ends r p with [] => false | _ => true end.

(** Every position of the text, from [p] to the end. *)
Fixpoint positions_from (before after : list ascii) : list pos :=
  (before, after) ::
  match after with
  | [] => []
  | x :: suf => positions_from (x :: before) suf
  end.

(** [rgx.search(text) is not None] *)
Definition search (r : regex) (text : string) : bool :=
  existsb (matches_at r) (positions_from [] (Py.chars text)).

(** [re.escape] *)
Definition is_special (c : ascii) : bool :=
  existsb (Ascii.eqb c)
    (Py.chars "()[]{}?*+-|^$\.&~# " ++
     map ascii_of_nat [9; 10; 13; 11; 12]).

Fixpoint escape (s : string) : string :=
  match s with
  | EmptyString => EmptyString
  | String c r =>
      if is_special c then String "\" (String c (escape r))
      else String c (escape r)
  end.

(** *** Shapes of compiled patterns *)

(** The frame after the literal characters of [l] have been read. *)
Definition push_chars (l : list ascii) (f : frame) : frame :=
  Frame (closed f) (rev (map Char l) ++ items f).

(** What [\b<escaped s>\b] compiles to. *)
Definition word_regex (s : string) : regex :=
  seq_of (WordB :: map Char (Py.chars s) ++ [WordB]).

(** A term that is matched character by character. *)
Definition literal (t : string) : regex := seq_of (map Char (Py.chars t)).

Definition plain (t : string) : bool :=
  forallb (fun c => negb (is_special c)) (Py.chars t).

End Re.

(** ** JSON values and dataset records *)

Inductive value : Type :=
| VNone
| VBool (b : bool)
| VInt (n : Z)
| VStr (s : string)
| VList (l : list value)
| VDict (kv : list (string * value)).

(** [v == s] for a string constant [s]: only a string equals a string. *)
Definition eq_str (v : value) (s : string) : bool :=
  match v with
  | VStr t => String.eqb t s
  | _ => false
  end.

(** [bool(v)] *)
Definition truthy (v : value) : bool :=
  match v with
  | VNone => false
  | VBool b => b
  | VInt n => negb (Z.eqb n 0)
  | VStr s => Py.truthy_str s
  | VList l => match l with [] => false | _ => true end
  | VDict kv => match kv with [] => false | _ => true end
  end.

(** [d.get(k, default)] *)
Definition dict_get (d : gmap string value) (k : string) (default : value) : value :=
  match d !! k with
  | Some v => v
  | None => default
  end.

(** ** Configuration and constants *)

Definition MAX_FILES_FOR_MS2_COUNTING : nat := 10.
Definition ENABLE_MSCONVERT_PROCESSING : bool := false.
Definition SUPPORTED_EXTENSIONS_LOWER : list string :=
  [".mzxml"; ".mgf"; ".mzml"; ".cdf"].
Definition MSCONVERT_SUPPORTED_RAW_EXTENSIONS : list string :=
  [".raw"; ".wiff"; ".d"].
Definition TEXT_BASED_EXTENSIONS : list string :=
  [".mzxml"; ".mgf"; ".mzml"; ".cdf"].

(** ** Keyword tables for the filename heuristics *)

Definition RAW_TERMS : list string :=
  ["\braw\b"; "unprocessed"; "fresh"; "uncooked"; "natural"; "crude"; "whole"].

Definition CONTROL_TERMS : list string :=
  ["control"; "ctrl"; "cntrl"; "ctl"; "uninfected"; "untreated"; "baseline";
   "wild_type"; "wt"; "wildtype"; "parental"; "initial"; "input";
   "t0\b"; "time0"; "day0"; "0h\b"; "0hr\b"; "zerohr"; "0_hr";
   "pre_treatment"; "before_processing"; "pre[-]processing"; "before[-]processing";
   "mock"].

Definition GENERIC_EDIBLE_PART_TERMS : list string :=
  ["grain"; "kernel"; "seed"; "berry"; "endosperm"; "embryo"; "germ"; "cereal";
   "fruit"; "pulp"; "flesh"; "peel"; "skin";
   "vegetable"; "leafy_green"; "root_veg"; "tuber_veg";
   "edible_part"; "sample"].

Definition PROCESSED_TERMS : list string :=
  ["beer"; "ale"; "lager"; "brew"; "wort"; "malt"; "ferment"; "sourdough";
   "bread"; "pasta"; "noodle"; "cake"; "biscuit"; "cookie"; "pastry";
   "syrup"; "starch"; "ethanol"; "biofuel"; "distillate"; "mash"; "slurry";
   "cook"; "bake"; "baked"; "fried"; "toast"; "roast"; "steam"; "boil"; "autoclave";
   "extract"; "digest"; "hydroly[sz](?:ate|ed)"; "supernatant"; "pellet";
   "flour"; "meal"; "grit"; "semolina"; "paste"; "puree"; "juice"; "smoothie";
   "extrude"; "puff"; "flake"; "instant"; "processed"].

Definition NON_EDIBLE_PLANT_PARTS : list string :=
  ["leaf"; "leaves"; "foliage"; "stem"; "stalk"; "shoot"; "stover"; "culm";
   "root"; "rhizome";
   "seedling"; "sprout";
   "husk"; "hull"; "bran"; "chaff"; "glume"; "lemma"; "palea";
   "tassel"; "silk"; "anther"; "pollen"; "flower";
   "callus"; "cell_culture"; "suspension_culture"; "plant_tissue"].

Definition TREATMENT_PATHOGEN_TERMS : list string :=
  ["infect"; "pathogen"; "disease"; "lesion"; "symptom";
   "fungi"; "bacteria"; "virus"; "oomycete"; "nematode";
   "treat"; "treatment"; "stress"; "elicitor"; "induc";
   "pesticide"; "herbicide"; "fungicide"; "insecticide"; "fertilizer";
   "mutant"; "transgenic"; "gmo"; "knockout"; "overexpress"].

Definition NON_SAMPLE_QC_TERMS : list string :=
  ["qc"; "quality_control"; "qa"; "system_suitability"; "sst";
   "blank"; "solvent_blank"; "method_blank"; "instrument_blank"; "reagent_blank";
   "wash"; "equilibration"; "conditioning"; "gradient_test";
   "standard"; "std"; "ref_mat"; "reference_material"; "calib";
   "tune"; "mass_cal"; "msms_check"; "tryptic_digest_std"].

(** [re.compile] raises on a pattern it cannot parse, which would abort the
    import of the module; [tables_compile] below shows that no term of the
    tables is dropped here. *)
Definition compile_regex_list (terms : list string) : list Re.regex :=
  omap Re.compile terms.

Definition COMPILED_RAW := compile_regex_list RAW_TERMS.
Definition COMPILED_CONTROL := compile_regex_list CONTROL_TERMS.
Definition COMPILED_GENERIC_EDIBLE_PART := compile_regex_list GENERIC_EDIBLE_PART_TERMS.
Definition COMPILED_PROCESSED := compile_regex_list PROCESSED_TERMS.
Definition COMPILED_NON_EDIBLE := compile_regex_list NON_EDIBLE_PLANT_PARTS.
Definition COMPILED_TREATMENT := compile_regex_list TREATMENT_PATHOGEN_TERMS.
Definition COMPILED_QC := compile_regex_list NON_SAMPLE_QC_TERMS.

(** ** Filename heuristic filtering *)

(** [any(rgx.search(text) for rgx in rgxs)] *)
Definition any_search (rgxs : list Re.regex) (text : string) : bool :=
  existsb (fun rgx => Re.search rgx text) rgxs.

Definition check_filename_relevance (filename_lower : string)
    (derived_food_name_regex_list : list Re.regex)
    (assessment_type : value) : bool * string :=
  if any_search COMPILED_QC filename_lower then
    (false, "qc_or_blank_file")
  else if eq_str assessment_type "ACCEPTED" then
    (true, "accepted_study_non_qc_file")
  else if eq_str assessment_type "MAYBE" then
    let food_match := any_search derived_food_name_regex_list filename_lower in
    if any_search COMPILED_PROCESSED filename_lower &&
       negb (any_search COMPILED_CONTROL filename_lower ||
             any_search COMPILED_RAW filename_lower)
    then (false, "maybe_processed_product_no_raw_control_signal")
    else if any_search COMPILED_NON_EDIBLE filename_lower &&
            negb (any_search COMPILED_GENERIC_EDIBLE_PART filename_lower ||
                  any_search COMPILED_CONTROL filename_lower)
    then (false, "maybe_non_edible_part_no_edible_control_signal")
    else
      let has_treatment_term := any_search COMPILED_TREATMENT filename_lower in
      let has_control_term := any_search COMPILED_CONTROL filename_lower in
      let has_raw_term := any_search COMPILED_RAW filename_lower in
      let has_generic_edible_term :=
        any_search COMPILED_GENERIC_EDIBLE_PART filename_lower in
      if food_match && (has_raw_term || has_control_term || has_generic_edible_term)
      then (true, "maybe_food_match_with_raw_control_or_edible_term")
      else if has_raw_term || has_control_term then
        if has_treatment_term && negb (has_raw_term || has_control_term)
        then (false, "maybe_treatment_file_no_food_match_lacks_explicit_control_raw")
        else (true, "maybe_no_food_match_but_strong_raw_control_signal")
      else if has_treatment_term &&
              negb (has_control_term || has_raw_term || has_generic_edible_term || food_match)
      then (false, "maybe_treatment_file_lacks_any_positive_signal")
      else (false, "maybe_lacks_sufficient_positive_signal")
  else
    (false, "unknown_assessment_type_or_unmatched_condition_in_heuristic").

(** ** Sorting *)

Module Sorting.

Section ByKey.
Context {A : Type} (key : A -> nat).

(** [x] stood before every element of [l] in the input, so it goes before
    the first element whose key is not smaller. *)
Fixpoint insert (x : A) (l : list A) : list A :=
  match l with
  | [] => [x]
  | y :: l' => if key x <=? key y then x :: l else y :: insert x l'
  end.

(** [sorted(l, key=key)]: Python's sort is stable. *)
Definition sorted_by_key (l : list A) : list A := fold_right insert [] l.

(** The elements that a two-valued key puts in front. *)
Definition first_class (x : A) : bool := key x =? 0.
End ByKey.

Fixpoint insert_str (x : string) (l : list string) : list string :=
  match l with
  | [] => [x]
  | y :: l' => if String.leb x y then x :: l else y :: insert_str x l'
  end.

(** The order of [sorted] on strings. *)
Definition str_le (x y : string) : Prop := String.leb x y = true.

(** [sorted(l)] for a list of strings, in code point order. *)
Definition sorted (l : list string) : list string := fold_right insert_str [] l.

(** [list(set(l))]: the distinct elements of [l]; the order in which Python
    enumerates a set is not specified, and [sorted] forgets it. *)
Definition list_set (l : list string) : list string := remove_dups l.

End Sorting.

(** ** Food-key patterns *)

Definition word_pattern (escaped : string) : string :=
  "\b" +:+ escaped +:+ "\b".

(** [parts]: the escaped tokens of the key longer than two characters. *)
Definition food_key_parts (food_item_key_str : string) : list string :=
  map Re.escape
      (List.filter (fun part => 2 <? Py.len part) (Py.split "_" food_item_key_str)).

(** [regex_strings] as first built: one pattern per part. *)
Definition per_token_regex_strings (food_item_key_str : string) : list string :=
  map word_pattern (food_key_parts food_item_key_str).

(** [regex_strings] once the pattern of the whole key has been appended. *)
Definition regex_strings (food_item_key_str : string) : list string :=
  let full_key_escaped := Re.escape food_item_key_str in
  let regex_strings := per_token_regex_strings food_item_key_str in
  if Py.mem full_key_escaped regex_strings then regex_strings
  else regex_strings ++ [word_pattern full_key_escaped].

Definition unique_regex_strings (food_item_key_str : string) : list string :=
  Sorting.sorted (Sorting.list_set (regex_strings food_item_key_str)).

(** [escaped_patterns_compile] below shows that [re.compile] succeeds on every
    pattern built here, so that [omap] drops none. *)
Definition get_derived_food_name_regex_list (food_item_key_str : string)
  : list Re.regex :=
  if negb (Py.truthy_str food_item_key_str) then []
  else omap Re.compile (unique_regex_strings food_item_key_str).

(** ** Effects: exceptions, the shell and its call log *)

Inductive exn : Type :=
| AttributeError (what : string)
| OtherError (what : string).

Inductive result (A : Type) : Type :=
| Ok (a : A)
| Raise (e : exn).
Arguments Ok {A} a.
Arguments Raise {A} e.

(** What [subprocess.run(cmd, shell=True, capture_output=True, text=True,
    timeout=...)] can do. *)
Inductive run_outcome : Type :=
| Completed (returncode : Z) (stdout stderr : string)
| TimeoutExpired
| RunError (e : exn).

(** The commands run so far, oldest first. *)
Definition call_log : Type := list string.

(** A computation that may run commands and may raise. *)
Definition M (A : Type) : Type := call_log -> result A * call_log.

Definition ret {A} (a : A) : M A := fun log => (Ok a, log).

Definition raise {A} (e : exn) : M A := fun log => (Raise e, log).

Definition bind {A B} (c : M A) (k : A -> M B) : M B :=
  fun log =>
    match c log with
    | (Ok a, log') => k a log'
    | (Raise e, log') => (Raise e, log')
    end.

Definition lift {A} (r : result A) : M A := fun log => (r, log).

Notation "'let*' x := c 'in' k" := (bind c (fun x => k))
  (at level 10, x name, c at level 200, k at level 200).
Notation "'let*' ' p := c 'in' k" := (bind c (fun x => let 'p := x in k))
  (at level 10, p pattern, c at level 200, k at level 200).

(** ** Remote file descriptors *)

Module FileInfo.
Record t : Type := Build
  { ftp_full_path : string; filename : string; file_ext_lower : string }.
End FileInfo.

Module Candidate.
Record t : Type := Build
  { ftp_file_path : string;
    filename : string;
    file_ext_lower : string;
    heuristic_match_reason : string;
    ms2_spectra_in_file : Z }.

Definition set_ms2_spectra_in_file (n : Z) (c : t) : t :=
  Build (ftp_file_path c) (filename c) (file_ext_lower c)
        (heuristic_match_reason c) n.

(** The descriptor as it is stored in the dataset record. *)
Definition to_value (c : t) : value :=
  VDict [("ftp_file_path", VStr (ftp_file_path c));
         ("filename", VStr (filename c));
         ("file_ext_lower", VStr (file_ext_lower c));
         ("heuristic_match_reason", VStr (heuristic_match_reason c));
         ("ms2_spectra_in_file", VInt (ms2_spectra_in_file c))].
End Candidate.

Definition dq : string := String (ascii_of_nat 34) EmptyString.
Definition newline : ascii := ascii_of_nat 10.

(** ** Helper functions: FTP listing and MS2 counting *)

Section Helpers.

(** The world outside: the answer of the shell to a command, given the
    commands run before it. *)
Variable shell : call_log -> string -> run_outcome.

(** [urllib.parse.urlparse], reduced to the two components that are read,
    [netloc] and [path]. *)
Variable urlparse : string -> result (string * string).

(** The Docker probe and the conversion with msconvert, which are only
    reached when [ENABLE_MSCONVERT_PROCESSING] is set. *)
Variable check_docker_availability : M bool.
Variable process_binary_file_with_msconvert : string -> string -> M Z.

Definition subprocess_run (cmd : string) : M run_outcome :=
  fun log => (Ok (shell log cmd), log ++ [cmd]).

Definition parse_ftp_path (ftp_link : string) : M (string * string) :=
  lift (urlparse ftp_link).

(** The body of the loop over the lines of the listing. *)
Definition found_files_step (found_files : list FileInfo.t) (line : string)
  : list FileInfo.t :=
  let full_ftp_path := Py.strip line in
  if negb (Py.truthy_str full_ftp_path) || Py.endswith full_ftp_path "/"
  then found_files
  else
    let filename := Py.basename full_ftp_path in
    let file_ext := snd (Py.splitext filename) in
    if Py.mem (Py.lower file_ext) SUPPORTED_EXTENSIONS_LOWER
    then found_files ++ [FileInfo.Build full_ftp_path filename (Py.lower file_ext)]
    else found_files.

Definition found_files_of_stdout (stdout : string) : list FileInfo.t :=
  fold_left found_files_step (Py.split newline (Py.strip stdout)) [].

Definition list_mass_spec_files_recursively (server base_ftp_path : string)
  : M (list FileInfo.t) :=
  let base_ftp_path :=
    if negb (Py.endswith base_ftp_path "/") then base_ftp_path +:+ "/"
    else base_ftp_path in
  let lftp_cmd :=
    "lftp -e 'set ftp:ssl-allow no; find " +:+ base_ftp_path +:+ "; bye' " +:+ server in
  let* process := subprocess_run lftp_cmd in
  match process with
  | TimeoutExpired => ret []
  | RunError e => raise e
  | Completed returncode stdout stderr =>
      if negb (Z.eqb returncode 0) then ret []
      else ret (found_files_of_stdout stdout)
  end.

Definition count_ms2_spectra_in_text_file_via_ftp
    (server full_ftp_file_path file_ext_lower : string) : M Z :=
  let curl := "curl --ftp-pasv -s 'ftp://" +:+ server +:+ full_ftp_file_path +:+ "' | " in
  let count_cmd :=
    if String.eqb file_ext_lower ".mzxml" then
      Some (curl +:+ "grep -c 'msLevel=" +:+ dq +:+ "2" +:+ dq +:+ "'")
    else if String.eqb file_ext_lower ".mgf" then
      Some (curl +:+ "grep -c 'BEGIN IONS'")
    else if String.eqb file_ext_lower ".mzml" then
      Some (curl +:+ "grep -c 'accession=" +:+ dq +:+ "MS:1000580" +:+ dq +:+ "'")
    else if String.eqb file_ext_lower ".cdf" then
      Some (curl +:+ "strings | grep -Ec 'scan_type=MSMS|msLevel=2'")
    else None in
  match count_cmd with
  | None => ret 0%Z
  | Some count_cmd =>
      let* process := subprocess_run count_cmd in
      match process with
      | TimeoutExpired => ret 0%Z
      | RunError e => raise e
      | Completed returncode stdout stderr =>
          if (1 <? returncode)%Z then ret 0%Z
          else match Py.int (Py.strip stdout) with
               | Some count => ret count
               | None => ret 0%Z
               end
      end
  end.

End Helpers.

(** ** Main dataset processing logic *)

(** [v.lower()]: only a string has the method. *)
Definition value_lower (v : value) : result string :=
  match v with
  | VStr s => Ok (Py.lower s)
  | _ => Raise (AttributeError "lower")
  end.

(** The key of the sort that precedes the truncation to the cap. *)
Definition priority_key (x : Candidate.t) : nat :=
  if Py.contains "control" (Py.lower (Candidate.heuristic_match_reason x)) ||
     Py.contains "raw" (Py.lower (Candidate.heuristic_match_reason x))
  then 0 else 1.

(** The body of the loop over the listed files: the candidates kept so far
    and the number of relevant files skipped because they need msconvert. *)
Definition candidate_step (derived_food_name_regex : list Re.regex)
    (llm_assessment : value) (acc : list Candidate.t * nat)
    (file_info : FileInfo.t) : list Candidate.t * nat :=
  let '(candidate_files_for_ms2, unsupported_skipped_this_study) := acc in
  let filename_lower := Py.lower (FileInfo.filename file_info) in
  let '(is_relevant, reason) :=
    check_filename_relevance filename_lower derived_food_name_regex llm_assessment in
  if is_relevant then
    let is_msconvert_required :=
      Py.mem (FileInfo.file_ext_lower file_info) MSCONVERT_SUPPORTED_RAW_EXTENSIONS in
    if is_msconvert_required && negb ENABLE_MSCONVERT_PROCESSING then
      (candidate_files_for_ms2, unsupported_skipped_this_study + 1)
    else
      (candidate_files_for_ms2 ++
         [Candidate.Build (FileInfo.ftp_full_path file_info)
                          (FileInfo.filename file_info)
                          (FileInfo.file_ext_lower file_info)
                          reason 0%Z],
       unsupported_skipped_this_study)
  else acc.

Definition collect_candidates (derived_food_name_regex : list Re.regex)
    (llm_assessment : value) (all_ftp_files_info : list FileInfo.t)
  : list Candidate.t * nat :=
  fold_left (candidate_step derived_food_name_regex llm_assessment)
            all_ftp_files_info ([], 0).

(** The files whose spectra are counted: all the candidates, or the first
    [MAX_FILES_FOR_MS2_COUNTING] of them once sorted by [priority_key]. *)
Definition files_to_process_for_ms2 (candidate_files_for_ms2 : list Candidate.t)
  : list Candidate.t :=
  if MAX_FILES_FOR_MS2_COUNTING <? length candidate_files_for_ms2 then
    firstn MAX_FILES_FOR_MS2_COUNTING
           (Sorting.sorted_by_key priority_key candidate_files_for_ms2)
  else candidate_files_for_ms2.

Section Orchestrator.

Variable shell : call_log -> string -> run_outcome.
Variable urlparse : string -> result (string * string).
Variable check_docker_availability : M bool.
Variable process_binary_file_with_msconvert : string -> string -> M Z.

(** The count of one selected file, by its extension. *)
Definition count_one (server : string) (selected_file_info : Candidate.t) : M Z :=
  let ftp_path := Candidate.ftp_file_path selected_file_info in
  let file_ext := Candidate.file_ext_lower selected_file_info in
  if Py.mem file_ext TEXT_BASED_EXTENSIONS then
    count_ms2_spectra_in_text_file_via_ftp shell server ftp_path file_ext
  else if Py.mem file_ext MSCONVERT_SUPPORTED_RAW_EXTENSIONS then
    if ENABLE_MSCONVERT_PROCESSING then
      let* available := check_docker_availability in
      if (available : bool) then process_binary_file_with_msconvert server ftp_path
      else ret 0%Z
    else ret 0%Z
  else ret 0%Z.

(** The loop over the selected files: the running total and the descriptors
    processed so far. *)
Fixpoint count_selected (server : string) (files : list Candidate.t)
         (total_ms2_spectra_for_study : Z)
         (processed_file_details : list Candidate.t)
  : M (Z * list Candidate.t) :=
  match files with
  | [] => ret (total_ms2_spectra_for_study, processed_file_details)
  | selected_file_info :: rest =>
      let* ms2_count_this_file := count_one server selected_file_info in
      count_selected server rest
        (total_ms2_spectra_for_study + ms2_count_this_file)%Z
        (processed_file_details ++
           [Candidate.set_ms2_spectra_in_file ms2_count_this_file selected_file_info])
  end.

Definition process_single_dataset (dataset_info_item : gmap string value)
    (food_item_key : string) : M (gmap string value) :=
  let llm_assessment := dict_get dataset_info_item "llm_assessment" (VStr "REJECTED") in
  let dataset_info_item :=
    <["selected_files_for_ms2_analysis" := VList []]> dataset_info_item in
  let dataset_info_item :=
    <["total_ms2_spectra_from_selected_files" := VInt 0]> dataset_info_item in
  let dataset_info_item :=
    <["unsupported_files_skipped_count" := VInt 0]> dataset_info_item in
  if eq_str llm_assessment "REJECTED" then
    ret (<["ms2_count_source_type" := VStr "rejected_by_llm"]> dataset_info_item)
  else
    let ftp_link := dict_get dataset_info_item "ftp_link" (VStr "") in
    if negb (truthy ftp_link) then
      ret (<["ms2_count_source_type" := VStr "no_ftp_link"]> dataset_info_item)
    else
      match ftp_link with
      | VStr ftp_link =>
        if negb (Py.startswith ftp_link "ftp://") then
          ret (<["ms2_count_source_type" := VStr "no_ftp_link"]> dataset_info_item)
        else
          let derived_food_name_regex := get_derived_food_name_regex_list food_item_key in
          let* '(server, base_ftp_path) := parse_ftp_path urlparse ftp_link in
          let* all_ftp_files_info :=
            list_mass_spec_files_recursively shell server base_ftp_path in
          match all_ftp_files_info with
          | [] =>
              let* lowered := lift (value_lower llm_assessment) in
              ret (<["ms2_count_source_type" :=
                       VStr ("ftp_no_files_found_" +:+ lowered)]> dataset_info_item)
          | _ :: _ =>
              let '(candidate_files_for_ms2, unsupported_skipped_this_study) :=
                collect_candidates derived_food_name_regex llm_assessment
                                   all_ftp_files_info in
              let dataset_info_item :=
                <["unsupported_files_skipped_count" :=
                    VInt (Z.of_nat unsupported_skipped_this_study)]> dataset_info_item in
              match candidate_files_for_ms2 with
              | [] =>
                  let* lowered := lift (value_lower llm_assessment) in
                  ret (<["ms2_count_source_type" :=
                           VStr ("no_processable_files_passed_heuristics_" +:+ lowered)]>
                         dataset_info_item)
              | _ :: _ =>
                  let* '(total_ms2_spectra_for_study, processed_file_details) :=
                    count_selected server
                      (files_to_process_for_ms2 candidate_files_for_ms2) 0%Z [] in
                  let dataset_info_item :=
                    <["selected_files_for_ms2_analysis" :=
                        VList (map Candidate.to_value processed_file_details)]>
                      dataset_info_item in
                  let dataset_info_item :=
                    <["total_ms2_spectra_from_selected_files" :=
                        VInt total_ms2_spectra_for_study]> dataset_info_item in
                  let* lowered := lift (value_lower llm_assessment) in
                  ret (<["ms2_count_source_type" :=
                           VStr ("ftp_analysis_" +:+ lowered +:+ "_heuristic_filtered")]>
                         dataset_info_item)
              end
          end
      | _ => raise (AttributeError "startswith")
      end.

End Orchestrator.


(** ** Vocabulary for the properties *)

(** A descriptor whose extension is one the lister accepts. *)
Definition supported (fi : FileInfo.t) : Prop :=
  Py.mem (FileInfo.file_ext_lower fi) SUPPORTED_EXTENSIONS_LOWER = true.

(** [mentions_raw_or_control x]: the reason of [x] mentions "raw" or
    "control". *)
Definition mentions_raw_or_control (x : Candidate.t) : bool :=
  Py.contains "control" (Py.lower (Candidate.heuristic_match_reason x)) ||
  Py.contains "raw" (Py.lower (Candidate.heuristic_match_reason x)).

(** The fields that the orchestrator writes. *)
Definition result_keys : list string :=
  ["ms2_count_source_type"; "selected_files_for_ms2_analysis";
   "total_ms2_spectra_from_selected_files"; "unsupported_files_skipped_count"].

(** The record once its three result fields have been reset. *)
Definition reset_results (d : gmap string value) : gmap string value :=
  <["unsupported_files_skipped_count" := VInt 0]>
    (<["total_ms2_spectra_from_selected_files" := VInt 0]>
       (<["selected_files_for_ms2_analysis" := VList []]> d)).

Section Returns.

Variable shell : call_log -> string -> run_outcome.
Variable urlparse : string -> result (string * string).

(** The five ways in which the orchestrator returns a record. *)
Inductive returns (d : gmap string value) (key : string) (log : call_log)
  : gmap string value -> call_log -> Prop :=
| returns_rejected :
    eq_str (dict_get d "llm_assessment" (VStr "REJECTED")) "REJECTED" = true ->
    returns d key log
      (<["ms2_count_source_type" := VStr "rejected_by_llm"]> (reset_results d)) log
| returns_no_ftp_link :
    eq_str (dict_get d "llm_assessment" (VStr "REJECTED")) "REJECTED" = false ->
    (truthy (dict_get d "ftp_link" (VStr "")) = false \/
     exists s, d !! "ftp_link" = Some (VStr s) /\ Py.startswith s "ftp://" = false) ->
    returns d key log
      (<["ms2_count_source_type" := VStr "no_ftp_link"]> (reset_results d)) log
| returns_no_files server base_ftp_path ftp_link log1 lowered :
    eq_str (dict_get d "llm_assessment" (VStr "REJECTED")) "REJECTED" = false ->
    d !! "ftp_link" = Some (VStr ftp_link) ->
    Py.startswith ftp_link "ftp://" = true ->
    urlparse ftp_link = Ok (server, base_ftp_path) ->
    list_mass_spec_files_recursively shell server base_ftp_path log = (Ok [], log1) ->
    value_lower (dict_get d "llm_assessment" (VStr "REJECTED")) = Ok lowered ->
    returns d key log
      (<["ms2_count_source_type" := VStr ("ftp_no_files_found_" +:+ lowered)]>
         (reset_results d)) log1
| returns_no_candidates server base_ftp_path ftp_link files log1 lowered :
    eq_str (dict_get d "llm_assessment" (VStr "REJECTED")) "REJECTED" = false ->
    d !! "ftp_link" = Some (VStr ftp_link) ->
    Py.startswith ftp_link "ftp://" = true ->
    urlparse ftp_link = Ok (server, base_ftp_path) ->
    list_mass_spec_files_recursively shell server base_ftp_path log = (Ok files, log1) ->
    files <> [] ->
    fst (collect_candidates (get_derived_food_name_regex_list key)
           (dict_get d "llm_assessment" (VStr "REJECTED")) files) = [] ->
    value_lower (dict_get d "llm_assessment" (VStr "REJECTED")) = Ok lowered ->
    returns d key log
      (<["ms2_count_source_type" :=
           VStr ("no_processable_files_passed_heuristics_" +:+ lowered)]>
         (<["unsupported_files_skipped_count" :=
              VInt (Z.of_nat (snd (collect_candidates
                                     (get_derived_food_name_regex_list key)
                                     (dict_get d "llm_assessment" (VStr "REJECTED"))
                                     files)))]>
            (reset_results d))) log1
| returns_analysis server base_ftp_path ftp_link files log1 lowered counts log2 :
    eq_str (dict_get d "llm_assessment" (VStr "REJECTED")) "REJECTED" = false ->
    d !! "ftp_link" = Some (VStr ftp_link) ->
    Py.startswith ftp_link "ftp://" = true ->
    urlparse ftp_link = Ok (server, base_ftp_path) ->
    list_mass_spec_files_recursively shell server base_ftp_path log = (Ok files, log1) ->
    fst (collect_candidates (get_derived_food_name_regex_list key)
           (dict_get d "llm_assessment" (VStr "REJECTED")) files) <> [] ->
    length counts
    = length (files_to_process_for_ms2
                (fst (collect_candidates (get_derived_food_name_regex_list key)
                        (dict_get d "llm_assessment" (VStr "REJECTED")) files))) ->
    value_lower (dict_get d "llm_assessment" (VStr "REJECTED")) = Ok lowered ->
    returns d key log
      (<["ms2_count_source_type" :=
           VStr ("ftp_analysis_" +:+ lowered +:+ "_heuristic_filtered")]>
         (<["total_ms2_spectra_from_selected_files" :=
              VInt (fold_right Z.add 0%Z counts)]>
            (<["selected_files_for_ms2_analysis" :=
                 VList (map Candidate.to_value
                          (zip_with Candidate.set_ms2_spectra_in_file counts
                             (files_to_process_for_ms2
                                (fst (collect_candidates
                                        (get_derived_food_name_regex_list key)
                                        (dict_get d "llm_assessment" (VStr "REJECTED"))
                                        files)))))]>
               (<["unsupported_files_skipped_count" :=
                    VInt (Z.of_nat (snd (collect_candidates
                                           (get_derived_food_name_regex_list key)
                                           (dict_get d "llm_assessment" (VStr "REJECTED"))
                                           files)))]>
                  (reset_results d))))) log2.

End Returns.

(** ** Sample datasets and a sample world *)

Module Sample.

Definition line (s : string) : string := s +:+ String newline EmptyString.

(** A listing with twelve spectrum files, a directory and a vendor file. *)
Definition listing : string :=
  line "/v01/MSV000001/" +:+
  line "/v01/MSV000001/grain_01.mzML" +:+
  line "/v01/MSV000001/grain_02.mzML" +:+
  line "/v01/MSV000001/grain_03.mzML" +:+
  line "/v01/MSV000001/grain_04.mzML" +:+
  line "/v01/MSV000001/grain_05.mzML" +:+
  line "/v01/MSV000001/grain_06.mzXML" +:+
  line "/v01/MSV000001/grain_07.mzXML" +:+
  line "/v01/MSV000001/vendor/grain_07.raw" +:+
  line "/v01/MSV000001/grain_08.mgf" +:+
  line "/v01/MSV000001/grain_09.mgf" +:+
  line "/v01/MSV000001/grain_10.mzML" +:+
  line "/v01/MSV000001/grain_11.mzML" +:+
  line "/v01/MSV000001/grain_12.mzML".

(** The listing command answers [listing]; every count is 3. *)
Definition shell (log : call_log) (cmd : string) : run_outcome :=
  if Py.startswith cmd "lftp" then Completed 0 listing ""
  else Completed 0 (line "3") "".

Definition urlparse (ftp_link : string) : result (string * string) :=
  Ok ("massive.ucsd.edu", "/v01/MSV000001").

Definition check_docker_availability : M bool := ret false.
Definition process_binary_file_with_msconvert (server path : string) : M Z := ret 0%Z.

Definition dataset (assessment ftp_link : value) : gmap string value :=
  <["study_id" := VStr "MSV000001"]>
    (<["llm_assessment" := assessment]>
       (<["ftp_link" := ftp_link]> ∅)).

Definition accepted : gmap string value :=
  dataset (VStr "ACCEPTED") (VStr "ftp://massive.ucsd.edu/v01/MSV000001").
Definition rejected : gmap string value :=
  dataset (VStr "REJECTED") (VStr "ftp://massive.ucsd.edu/v01/MSV000001").
Definition no_link : gmap string value :=
  dataset (VStr "MAYBE") (VStr "").
Definition unassessed : gmap string value :=
  <["study_id" := VStr "MSV000001"]>
    (<["ftp_link" := VStr "ftp://massive.ucsd.edu/v01/MSV000001"]> ∅).

Definition run (d : gmap string value) : result (gmap string value) * call_log :=
  process_single_dataset shell urlparse check_docker_availability
    process_binary_file_with_msconvert d "grain" [].

(** The record of a run that returned one. *)
Definition result_of (r : result (gmap string value) * call_log)
  : gmap string value :=
  match fst r with Ok d => d | Raise _ => ∅ end.

Definition list_files : result (list FileInfo.t) * call_log :=
  list_mass_spec_files_recursively shell "massive.ucsd.edu" "/v01/MSV000001" [].

Definition files_of (r : result (list FileInfo.t) * call_log) : list FileInfo.t :=
  match fst r with Ok l => l | Raise _ => [] end.

(** The candidates kept from [listing] for an ACCEPTED study. *)
Definition kept : list Candidate.t :=
  fst (collect_candidates (get_derived_food_name_regex_list "grain")
         (VStr "ACCEPTED") (files_of list_files)).

Definition candidate (name reason : string) : Candidate.t :=
  Candidate.Build ("/v01/MSV000001/" +:+ name) name ".mzml" reason 0%Z.

(** Twelve candidates, ten of which have a reason that mentions "raw" or
    "control". *)
Definition mixed : list Candidate.t :=
  [candidate "s01.mzML" "maybe_no_food_match_but_strong_raw_control_signal";
   candidate "s02.mzML" "accepted_study_non_qc_file";
   candidate "s03.mzML" "maybe_food_match_with_raw_control_or_edible_term";
   candidate "s04.mzML" "maybe_no_food_match_but_strong_raw_control_signal";
   candidate "s05.mzML" "maybe_no_food_match_but_strong_raw_control_signal";
   candidate "s06.mzML" "maybe_food_match_with_raw_control_or_edible_term";
   candidate "s07.mzML" "accepted_study_non_qc_file";
   candidate "s08.mzML" "maybe_no_food_match_but_strong_raw_control_signal";
   candidate "s09.mzML" "maybe_no_food_match_but_strong_raw_control_signal";
   candidate "s10.mzML" "maybe_food_match_with_raw_control_or_edible_term";
   candidate "s11.mzML" "maybe_no_food_match_but_strong_raw_control_signal";
   candidate "s12.mzML" "maybe_no_food_match_but_strong_raw_control_signal"].

End Sample.

(** ** Conversion of vendor files with msconvert *)

Module Msconvert.

Definition MSCONVERT_DOCKER_IMAGE : string :=
  "chambm/pwiz-skyline-i-agree-to-the-vendor-licenses".

(** [os.path.join(a, b)] (posixpath) *)
Definition path_join (a b : string) : string :=
  if Py.startswith b "/" then b
  else if negb (Py.truthy_str a) || Py.endswith a "/" then a +:+ b
  else a +:+ "/" +:+ b.

(** [subprocess.run(..., check=True)] under [except Exception]: the command
    succeeded when it completed with exit status 0; a timeout, another exit
    status and any other exception all take the handler. *)
Definition succeeded (o : run_outcome) : bool :=
  match o with
  | Completed returncode _ _ => Z.eqb returncode 0
  | _ => false
  end.

Section WithWorld.

Variable shell : call_log -> string -> run_outcome.

(** The directory that [tempfile.TemporaryDirectory(prefix="msconvert_")]
    creates. *)
Variable tmpdir : string.

(** [os.path.exists], asked once the commands of the log have run. *)
Variable path_exists : call_log -> string -> bool.

Definition count_ms2_spectra_in_converted_file (local_mzml_path : string) : M Z :=
  let count_cmd :=
    "grep -c 'accession=" +:+ dq +:+ "MS:1000580" +:+ dq +:+ "' " +:+
    dq +:+ local_mzml_path +:+ dq in
  let* process := subprocess_run shell count_cmd in
  match process with
  | TimeoutExpired => ret 0%Z
  | RunError e => raise e
  | Completed returncode stdout stderr =>
      if (1 <? returncode)%Z then ret 0%Z
      else match Py.int (Py.strip stdout) with
           | Some count => ret count
           | None => ret 0%Z
           end
  end.

(** The probe, with the module-level [DOCKER_AVAILABLE] passed in and out:
    the answer and the new value of the global. *)
Definition check_docker_availability (DOCKER_AVAILABLE : option bool)
  : call_log -> (bool * option bool) * call_log :=
  fun log =>
    match DOCKER_AVAILABLE with
    | Some available => ((available, DOCKER_AVAILABLE), log)
    | None =>
        let log1 := log ++ ["docker --version"] in
        if succeeded (shell log "docker --version") then
          let log2 := log1 ++ ["docker ps -q"] in
          if succeeded (shell log1 "docker ps -q") then ((true, Some true), log2)
          else ((false, Some false), log2)
        else ((false, Some false), log1)
    end.

Definition process_binary_file_with_msconvert (server full_ftp_file_path : string)
  : M Z :=
  let display_file_name := Py.basename full_ftp_file_path in
  let local_raw_path := path_join tmpdir display_file_name in
  let mzml_basename := fst (Py.splitext display_file_name) +:+ ".mzML" in
  let local_mzml_path := path_join tmpdir mzml_basename in
  let download_cmd :=
    "curl --ftp-pasv --create-dirs -o " +:+ dq +:+ local_raw_path +:+ dq +:+
    " 'ftp://" +:+ server +:+ full_ftp_file_path +:+ "'" in
  let* download := subprocess_run shell download_cmd in
  if negb (succeeded download) then ret 0%Z
  else
    let msconvert_filters := "--filter " +:+ dq +:+ "msLevel 2-" +:+ dq in
    let msconvert_args :=
      "msconvert.exe " +:+ dq +:+ "/data/" +:+ display_file_name +:+ dq +:+
      " --mzML --outfile " +:+ dq +:+ "/data/" +:+ mzml_basename +:+ dq +:+
      " -o " +:+ dq +:+ "/data" +:+ dq +:+ " " +:+ msconvert_filters in
    let docker_cmd :=
      "docker run --rm -v " +:+ dq +:+ tmpdir +:+ dq +:+ ":/data " +:+
      MSCONVERT_DOCKER_IMAGE +:+ " wine " +:+ msconvert_args in
    let* conversion := subprocess_run shell docker_cmd in
    if negb (succeeded conversion) then ret 0%Z
    else
      fun log =>
        if path_exists log local_mzml_path
        then count_ms2_spectra_in_converted_file local_mzml_path log
        else ret 0%Z log.

End WithWorld.

End Msconvert.

(** ** The size of the worker pool *)

(** [num_workers] of the script entry point; [num_cpu] is [os.cpu_count()],
    which may be [None]. *)
Definition num_workers (num_cpu : option nat) : nat :=
  Nat.max 1
    (Nat.min (match num_cpu with
              | Some n => if n =? 0 then 1 else n / 2
              | None => 1
              end) 4).

(** [actual_max_workers] of [process_dataset_file], for [n_datasets] records
    in the input file. *)
Definition actual_max_workers (max_workers : Z) (n_datasets : nat) : Z :=
  if 0 <? n_datasets then Z.min max_workers (Z.of_nat n_datasets) else 1%Z.

(** ** What the driver collects for one record *)

Section Collected.

Variable shell : call_log -> string -> run_outcome.
Variable urlparse : string -> result (string * string).
Variable check_docker_availability : M bool.
Variable process_binary_file_with_msconvert : string -> string -> M Z.

(** [str(e)] *)
Variable str_exn : exn -> string.

(** The update of [original_dataset] in the handler of [process_dataset_file].
    The worker ran in another process, on a copy: [original_dataset] is the
    record as it was read from the input file. *)
Definition processing_error (original_dataset : gmap string value) (e : exn)
  : gmap string value :=
  <["processing_error_message" := VStr (str_exn e)]>
    (<["ms2_count_source_type" := VStr "processing_error"]>
       (<["unsupported_files_skipped_count" :=
            dict_get original_dataset "unsupported_files_skipped_count"
              (VStr "Error occurred before count")]>
          (<["total_ms2_spectra_from_selected_files" := VInt 0]>
             (<["selected_files_for_ms2_analysis" := VList []]> original_dataset)))).

(** The body of the loop over the completed futures: what is appended to
    [final_processed_datasets] for one record. *)
Definition collected (dataset_item : gmap string value) (food_item_key : string)
    (log : call_log) : gmap string value * call_log :=
  match process_single_dataset shell urlparse check_docker_availability
          process_binary_file_with_msconvert dataset_item food_item_key log with
  | (Ok processed_dataset, log') => (processed_dataset, log')
  | (Raise e, log') => (processing_error dataset_item e, log')
  end.

End Collected.

(** ** More vocabulary for the properties *)

(** The reasons that go with a kept file. *)
Definition KEEP_REASONS : list string :=
  ["accepted_study_non_qc_file";
   "maybe_food_match_with_raw_control_or_edible_term";
   "maybe_no_food_match_but_strong_raw_control_signal"].

(** The reasons that go with a rejected file. *)
Definition REJECT_REASONS : list string :=
  ["qc_or_blank_file";
   "maybe_processed_product_no_raw_control_signal";
   "maybe_non_edible_part_no_edible_control_signal";
   "maybe_treatment_file_lacks_any_positive_signal";
   "maybe_lacks_sufficient_positive_signal";
   "unknown_assessment_type_or_unmatched_condition_in_heuristic"].

(** A position of a text, lower-cased. *)
Definition lower_pos (p : Re.pos) : Re.pos :=
  (map Py.lower_char (fst p), map Py.lower_char (snd p)).

(** [c] describes the listed file [fi], kept with the reason it carries. *)
Definition candidate_of (rgx : list Re.regex) (a : value) (fi : FileInfo.t)
    (c : Candidate.t) : Prop :=
  Candidate.ftp_file_path c = FileInfo.ftp_full_path fi /\
  Candidate.filename c = FileInfo.filename fi /\
  Candidate.file_ext_lower c = FileInfo.file_ext_lower fi /\
  check_filename_relevance (Py.lower (FileInfo.filename fi)) rgx a
  = (true, Candidate.heuristic_match_reason c).

(** What the lister records for the line [full_ftp_path] of a listing. *)
Definition descriptor_of_line (fi : FileInfo.t) : Prop :=
  FileInfo.ftp_full_path fi <> EmptyString /\
  Py.endswith (FileInfo.ftp_full_path fi) "/" = false /\
  FileInfo.filename fi = Py.basename (FileInfo.ftp_full_path fi) /\
  FileInfo.file_ext_lower fi = Py.lower (snd (Py.splitext (FileInfo.filename fi))) /\
  In (FileInfo.file_ext_lower fi) SUPPORTED_EXTENSIONS_LOWER.

(** What holds of every descriptor that the orchestrator selects: its
    filename matches no QC term and is kept by the classifier with the reason
    recorded, the extension is a supported one, and the filename is the last
    component of the path. *)
Definition well_selected (rgx : list Re.regex) (a : value) (c : Candidate.t) : Prop :=
  any_search COMPILED_QC (Py.lower (Candidate.filename c)) = false /\
  check_filename_relevance (Py.lower (Candidate.filename c)) rgx a
  = (true, Candidate.heuristic_match_reason c) /\
  In (Candidate.heuristic_match_reason c) KEEP_REASONS /\
  In (Candidate.file_ext_lower c) SUPPORTED_EXTENSIONS_LOWER /\
  Candidate.filename c = Py.basename (Candidate.ftp_file_path c).

(** The sum of the counts of a list of descriptors. *)
Definition sum_counts (l : list Candidate.t) : Z :=
  fold_right Z.add 0%Z (map Candidate.ms2_spectra_in_file l).

(** ** A second sample: a MAYBE study with two files *)

Module Scenario.

Definition listing : string :=
  Sample.line "/MSV001/ctrl_raw_grain_01.mzML" +:+
  Sample.line "/MSV001/beer_final_03.mzML" +:+
  Sample.line "/MSV001/peaks/".

(** The listing command answers [listing]; every count is 12. *)
Definition shell (log : call_log) (cmd : string) : run_outcome :=
  if Py.startswith cmd "lftp" then Completed 0 listing ""
  else Completed 0 (Sample.line "12") "".

Definition urlparse (ftp_link : string) : result (string * string) :=
  Ok ("massive.ucsd.edu", "/MSV001").

Definition dataset (assessment : value) : gmap string value :=
  <["study_id" := VStr "MSV001"]>
    (<["llm_assessment" := assessment]>
       (<["ftp_link" := VStr "ftp://massive.ucsd.edu/MSV001"]> ∅)).

Definition run (assessment : value) : result (gmap string value) * call_log :=
  process_single_dataset shell urlparse Sample.check_docker_availability
    Sample.process_binary_file_with_msconvert (dataset assessment) "grain" [].

(** A world for the conversion: every command succeeds, the converted file
    exists and holds 7 spectra. *)
Definition conversion_shell (log : call_log) (cmd : string) : run_outcome :=
  if Py.startswith cmd "grep" then Completed 0 (Sample.line "7") ""
  else Completed 0 "" "".

End Scenario.

(** * Properties *)

(** ** The keyword tables *)

(** Every term of the seven tables is in the fragment that [Re.compile]
    parses: compiling a table drops no term. *)
Lemma tables_compile :
  Forall (fun terms => length (compile_regex_list terms) = length terms)
         [RAW_TERMS; CONTROL_TERMS; GENERIC_EDIBLE_PART_TERMS; PROCESSED_TERMS;
          NON_EDIBLE_PLANT_PARTS; TREATMENT_PATHOGEN_TERMS; NON_SAMPLE_QC_TERMS].
Proof. repeat constructor. Qed.

(** ** The filename relevance classifier *)

Section Classifier.

Variable filename_lower : string.
Variable food_patterns : list Re.regex.

(** The classifier reads the filename only through these booleans. *)
Ltac cases_on_signals :=
  unfold check_filename_relevance;
  destruct (any_search COMPILED_QC filename_lower);
  destruct (any_search COMPILED_PROCESSED filename_lower);
  destruct (any_search COMPILED_CONTROL filename_lower);
  destruct (any_search COMPILED_RAW filename_lower);
  destruct (any_search COMPILED_NON_EDIBLE filename_lower);
  destruct (any_search COMPILED_GENERIC_EDIBLE_PART filename_lower);
  destruct (any_search COMPILED_TREATMENT filename_lower);
  destruct (any_search food_patterns filename_lower).

Lemma qc_rejects (assessment_type : value) :
  any_search COMPILED_QC filename_lower = true ->
  check_filename_relevance filename_lower food_patterns assessment_type
  = (false, "qc_or_blank_file").
Proof. intros H. unfold check_filename_relevance. now rewrite H. Qed.

Lemma accepted_keeps :
  any_search COMPILED_QC filename_lower = false ->
  check_filename_relevance filename_lower food_patterns (VStr "ACCEPTED")
  = (true, "accepted_study_non_qc_file").
Proof. intros H. unfold check_filename_relevance. now rewrite H. Qed.

Lemma maybe_processed_rejects :
  any_search COMPILED_QC filename_lower = false ->
  any_search COMPILED_PROCESSED filename_lower = true ->
  any_search COMPILED_CONTROL filename_lower = false ->
  any_search COMPILED_RAW filename_lower = false ->
  check_filename_relevance filename_lower food_patterns (VStr "MAYBE")
  = (false, "maybe_processed_product_no_raw_control_signal").
Proof.
  intros Hqc Hp Hc Hr. unfold check_filename_relevance.
  now rewrite Hqc, Hp, Hc, Hr.
Qed.

Lemma maybe_control_keeps :
  any_search COMPILED_QC filename_lower = false ->
  any_search COMPILED_CONTROL filename_lower = true ->
  fst (check_filename_relevance filename_lower food_patterns (VStr "MAYBE")) = true.
Proof.
  intros Hqc Hc. revert Hqc Hc. cases_on_signals; intros; try discriminate; reflexivity.
Qed.

Lemma maybe_raw_keeps :
  any_search COMPILED_QC filename_lower = false ->
  any_search COMPILED_RAW filename_lower = true ->
  (any_search COMPILED_NON_EDIBLE filename_lower = true ->
   any_search COMPILED_GENERIC_EDIBLE_PART filename_lower = true) ->
  fst (check_filename_relevance filename_lower food_patterns (VStr "MAYBE")) = true.
Proof.
  intros Hqc Hr Hne. revert Hqc Hr Hne.
  cases_on_signals; intros Hqc Hr Hne; try discriminate; try reflexivity;
    specialize (Hne eq_refl); discriminate.
Qed.

(** The reasons with which a file is kept. *)
Lemma kept_reason (assessment_type : value) (reason : string) :
  check_filename_relevance filename_lower food_patterns assessment_type
  = (true, reason) ->
  (assessment_type = VStr "ACCEPTED" /\ reason = "accepted_study_non_qc_file") \/
  (assessment_type = VStr "MAYBE" /\
   (reason = "maybe_food_match_with_raw_control_or_edible_term" \/
    reason = "maybe_no_food_match_but_strong_raw_control_signal")).
Proof.
  unfold check_filename_relevance.
  destruct (any_search COMPILED_QC filename_lower); [discriminate |].
  destruct assessment_type as [| | |s| |]; unfold eq_str; try discriminate.
  destruct (String.eqb_spec s "ACCEPTED") as [->|_].
  { intros [= <-]. now left. }
  destruct (String.eqb_spec s "MAYBE") as [->|_]; [| discriminate].
  destruct (any_search COMPILED_PROCESSED filename_lower);
  destruct (any_search COMPILED_CONTROL filename_lower);
  destruct (any_search COMPILED_RAW filename_lower);
  destruct (any_search COMPILED_NON_EDIBLE filename_lower);
  destruct (any_search COMPILED_GENERIC_EDIBLE_PART filename_lower);
  destruct (any_search COMPILED_TREATMENT filename_lower);
  destruct (any_search food_patterns filename_lower);
  simpl; intros [= <-]; right; split; auto.
Qed.

End Classifier.

(** C2: a filename that matches a QC/blank/standard term is rejected with the
    reason [qc_or_blank_file], whatever the assessment and whatever the
    food-key patterns: the QC rule comes before every other rule. *)
Theorem C2_qc_rejection_first (filename_lower : string)
    (food_patterns : list Re.regex) (assessment_type : value) :
  any_search COMPILED_QC filename_lower = true ->
  check_filename_relevance filename_lower food_patterns assessment_type
  = (false, "qc_or_blank_file").
Proof. apply qc_rejects. Qed.

Lemma C2_qc_rejection_first_witness :
  any_search COMPILED_QC "ctrl_raw_grain_solvent_blank_02.mzml" = true /\
  check_filename_relevance "ctrl_raw_grain_solvent_blank_02.mzml"
    (get_derived_food_name_regex_list "grain") (VStr "ACCEPTED")
  = (false, "qc_or_blank_file").
Proof.
  split; [vm_compute; reflexivity |].
  apply (C2_qc_rejection_first "ctrl_raw_grain_solvent_blank_02.mzml").
  vm_compute; reflexivity.
Defined.

(** C3: the classifier never answers with the reason
    [maybe_treatment_file_no_food_match_lacks_explicit_control_raw]: the test
    that guards it asks for a treatment term without a raw or control term
    inside a branch that is entered only with a raw or control term. *)
Theorem C3_inner_treatment_branch_dead (filename_lower : string)
    (food_patterns : list Re.regex) (assessment_type : value) :
  snd (check_filename_relevance filename_lower food_patterns assessment_type)
  <> "maybe_treatment_file_no_food_match_lacks_explicit_control_raw".
Proof.
  unfold check_filename_relevance.
  destruct (any_search COMPILED_QC filename_lower); [discriminate |].
  destruct (eq_str assessment_type "ACCEPTED"); [discriminate |].
  destruct (eq_str assessment_type "MAYBE"); [| discriminate].
  destruct (any_search COMPILED_PROCESSED filename_lower);
  destruct (any_search COMPILED_CONTROL filename_lower);
  destruct (any_search COMPILED_RAW filename_lower);
  destruct (any_search COMPILED_NON_EDIBLE filename_lower);
  destruct (any_search COMPILED_GENERIC_EDIBLE_PART filename_lower);
  destruct (any_search COMPILED_TREATMENT filename_lower);
  destruct (any_search food_patterns filename_lower);
  discriminate.
Qed.

(** C1, as stated, fails in four ways.  [beer_blank.mzml] matches a
    PROCESSED term and no CONTROL or RAW term, yet it is rejected as a QC
    file, not as a processed product.  [beer_leaf.mzml] is rejected as a
    processed product, but adding the RAW term [fresh] to it does not make it
    kept: the file then falls to the non-edible rule.  [beer_q.mzml] is
    rejected as a processed product, but adding the CONTROL term [control]
    after [beer_q] spells the QC term [qc], and the file is rejected as a QC
    file.  [beer_01.mzml] is rejected as a processed product, and adding the
    RAW term [raw] after [beer_] leaves it so: between an underscore and a
    digit the word boundaries of [\braw\b] are not met. *)
Lemma C1_counterexample :
  (any_search COMPILED_PROCESSED "beer_blank.mzml" = true /\
   any_search COMPILED_CONTROL "beer_blank.mzml" = false /\
   any_search COMPILED_RAW "beer_blank.mzml" = false /\
   check_filename_relevance "beer_blank.mzml" [] (VStr "MAYBE")
   = (false, "qc_or_blank_file")) /\
  (any_search COMPILED_PROCESSED "beer_leaf.mzml" = true /\
   any_search COMPILED_CONTROL "beer_leaf.mzml" = false /\
   any_search COMPILED_RAW "beer_leaf.mzml" = false /\
   check_filename_relevance "beer_leaf.mzml" [] (VStr "MAYBE")
   = (false, "maybe_processed_product_no_raw_control_signal") /\
   "fresh_beer_leaf.mzml" = "fresh_" +:+ "beer_leaf.mzml" /\
   any_search COMPILED_RAW "fresh_beer_leaf.mzml" = true /\
   check_filename_relevance "fresh_beer_leaf.mzml" [] (VStr "MAYBE")
   = (false, "maybe_non_edible_part_no_edible_control_signal")) /\
  (any_search COMPILED_PROCESSED "beer_q.mzml" = true /\
   any_search COMPILED_CONTROL "beer_q.mzml" = false /\
   any_search COMPILED_RAW "beer_q.mzml" = false /\
   check_filename_relevance "beer_q.mzml" [] (VStr "MAYBE")
   = (false, "maybe_processed_product_no_raw_control_signal") /\
   "beer_qcontrol.mzml" = "beer_q" +:+ "control" +:+ ".mzml" /\
   any_search COMPILED_CONTROL "beer_qcontrol.mzml" = true /\
   check_filename_relevance "beer_qcontrol.mzml" [] (VStr "MAYBE")
   = (false, "qc_or_blank_file")) /\
  (check_filename_relevance "beer_01.mzml" [] (VStr "MAYBE")
   = (false, "maybe_processed_product_no_raw_control_signal") /\
   any_search COMPILED_RAW "raw" = true /\
   "beer_raw01.mzml" = "beer_" +:+ "raw" +:+ "01.mzml" /\
   check_filename_relevance "beer_raw01.mzml" [] (VStr "MAYBE")
   = (false, "maybe_processed_product_no_raw_control_signal")).
Proof. vm_compute. repeat split. Qed.

(** C1, amended: under assessment MAYBE, a filename that matches no QC term,
    some PROCESSED term and neither a CONTROL nor a RAW term is rejected with
    the reason [maybe_processed_product_no_raw_control_signal]; and a filename
    (such as the former with a term added) that matches no QC term is kept as
    soon as it matches a CONTROL term, or matches a RAW term and matches no
    NON_EDIBLE term without a GENERIC_EDIBLE_PART term. *)
Theorem C1_maybe_processed_then_signal (filename with_term : string)
    (food_patterns : list Re.regex) :
  any_search COMPILED_QC filename = false ->
  any_search COMPILED_PROCESSED filename = true ->
  any_search COMPILED_CONTROL filename = false ->
  any_search COMPILED_RAW filename = false ->
  any_search COMPILED_QC with_term = false ->
  (any_search COMPILED_CONTROL with_term = true \/
   (any_search COMPILED_RAW with_term = true /\
    (any_search COMPILED_NON_EDIBLE with_term = true ->
     any_search COMPILED_GENERIC_EDIBLE_PART with_term = true))) ->
  check_filename_relevance filename food_patterns (VStr "MAYBE")
  = (false, "maybe_processed_product_no_raw_control_signal") /\
  fst (check_filename_relevance with_term food_patterns (VStr "MAYBE")) = true.
Proof.
  intros Hqc Hp Hc Hr Hqc' Hsig. split.
  - now apply maybe_processed_rejects.
  - destruct Hsig as [Hc' | [Hr' Hne]].
    + now apply maybe_control_keeps.
    + now apply maybe_raw_keeps.
Qed.

Lemma C1_maybe_processed_then_signal_witness :
  check_filename_relevance "beer_final_03.mzml"
    (get_derived_food_name_regex_list "grain") (VStr "MAYBE")
  = (false, "maybe_processed_product_no_raw_control_signal") /\
  fst (check_filename_relevance "beer_final_03_fresh.mzml"
         (get_derived_food_name_regex_list "grain") (VStr "MAYBE")) = true.
Proof.
  apply (C1_maybe_processed_then_signal "beer_final_03.mzml" "beer_final_03_fresh.mzml");
    try (vm_compute; reflexivity).
  right. split; [vm_compute; reflexivity |].
  vm_compute. discriminate.
Defined.

(** ** Escaped patterns *)

Module ReFacts.
Import Re.

Lemma parse_plain_char (c : ascii) (r : string) (f : frame) (stack : list frame) :
  is_special c = false ->
  parse (String c r) f stack None = parse r (push (Char c) f) stack None.
Proof.
  destruct c as [[] [] [] [] [] [] [] []]; intros H;
    first [ discriminate H | reflexivity ].
Qed.

Lemma parse_escaped_char (c : ascii) (r : string) (f : frame) (stack : list frame) :
  is_special c = true ->
  parse (String "\" (String c r)) f stack None = parse r (push (Char c) f) stack None.
Proof.
  destruct c as [[] [] [] [] [] [] [] []]; intros H;
    first [ discriminate H | reflexivity ].
Qed.

Lemma parse_escape (s rest : string) (f : frame) (stack : list frame) :
  parse (escape s +:+ rest) f stack None
  = parse rest (push_chars (Py.chars s) f) stack None.
Proof.
  revert f. induction s as [| c s IH]; intros f.
  - destruct f; reflexivity.
  - cbn [escape]. destruct (is_special c) eqn:Hc.
    + change (String "\" (String c (escape s)) +:+ rest)
        with (String "\" (String c (escape s +:+ rest))).
      rewrite parse_escaped_char by exact Hc.
      rewrite IH. unfold push_chars, push. cbn [Py.chars list_ascii_of_string map rev closed items].
      now rewrite <- app_assoc.
    + change (String c (escape s) +:+ rest) with (String c (escape s +:+ rest)).
      rewrite parse_plain_char by exact Hc.
      rewrite IH. unfold push_chars, push. cbn [Py.chars list_ascii_of_string map rev closed items].
      now rewrite <- app_assoc.
Qed.

Lemma compile_word_pattern (s : string) :
  compile (word_pattern (escape s)) = Some (word_regex s).
Proof.
  unfold compile, word_pattern.
  change (parse ("\b" +:+ escape s +:+ "\b") empty_frame [] None)
    with (parse (escape s +:+ "\b") (push WordB empty_frame) [] None).
  rewrite parse_escape. cbn [parse]. cbn [Ascii.eqb Bool.eqb]. cbv beta iota.
  unfold close, push_chars, push, empty_frame, word_regex.
  cbn [closed items rev app].
  rewrite !rev_app_distr, rev_involutive. reflexivity.
Qed.

Lemma seq_of_chars_inj (l1 l2 : list ascii) (r1 r2 : list regex) :
  seq_of (map Char l1 ++ WordB :: r1) = seq_of (map Char l2 ++ WordB :: r2) ->
  l1 = l2.
Proof.
  revert l2. induction l1 as [| a l1 IH]; intros [| b l2]; cbn; intros H;
    try discriminate; [reflexivity |].
  injection H as -> H. f_equal. now apply IH.
Qed.

Lemma word_regex_inj (s t : string) : word_regex s = word_regex t -> s = t.
Proof.
  unfold word_regex. cbn [seq_of fold_right]. intros [= H].
  apply seq_of_chars_inj in H.
  rewrite <- (string_of_list_ascii_of_string s), <- (string_of_list_ascii_of_string t).
  unfold Py.chars in H. now rewrite H.
Qed.

Lemma escape_inj (s t : string) : escape s = escape t -> s = t.
Proof.
  intros H.
  apply word_regex_inj.
  assert (Some (word_regex s) = Some (word_regex t)) as E.
  { rewrite <- !compile_word_pattern. now rewrite H. }
  congruence.
Qed.

Lemma word_pattern_inj (e1 e2 : string) : word_pattern e1 = word_pattern e2 -> e1 = e2.
Proof.
  unfold word_pattern. cbn [String.append]. intros [= H].
  revert e2 H. induction e1 as [| a e1 IH]; intros [| b e2]; cbn [String.append]; intros H.
  - reflexivity.
  - exfalso. injection H as <- H. destruct e2 as [| c e2]; cbn in H; [discriminate |].
    injection H as <- H. destruct e2; discriminate.
  - exfalso. injection H as -> H. destruct e1 as [| c e1]; cbn in H; [discriminate |].
    injection H as -> H. destruct e1; discriminate.
  - injection H as -> H. f_equal. now apply IH.
Qed.

(** *** Terms without regular-expression syntax *)

Lemma escape_plain (t : string) : plain t = true -> escape t = t.
Proof.
  unfold plain. induction t as [| c t IH]; cbn; [reflexivity |].
  intros H. apply andb_prop in H as [Hc Ht].
  apply negb_true_iff in Hc. rewrite Hc. f_equal. now apply IH.
Qed.

Lemma append_empty (u : string) : u +:+ "" = u.
Proof.
  induction u as [| c u IH]; [reflexivity |].
  change (String c (u +:+ "") = String c u). now rewrite IH.
Qed.

Lemma compile_plain (t : string) : plain t = true -> compile t = Some (literal t).
Proof.
  intros H. rewrite <- (escape_plain t H) at 1. unfold compile.
  rewrite <- (append_empty (escape t)).
  rewrite parse_escape. cbn [parse]. unfold close, push_chars, empty_frame, literal.
  cbn [closed items rev app]. now rewrite app_nil_r, rev_involutive.
Qed.

Lemma chars_app (a b : string) : Py.chars (a +:+ b) = Py.chars a ++ Py.chars b.
Proof.
  induction a as [| c a IH]; [reflexivity |].
  change (c :: Py.chars (a +:+ b) = c :: (Py.chars a ++ Py.chars b)).
  now rewrite IH.
Qed.

Lemma ceq_refl (c : ascii) : ceq c c = true.
Proof. apply Ascii.eqb_refl. Qed.

Lemma ends_literal (cs before after : list ascii) :
  ends (seq_of (map Char cs)) (before, cs ++ after) = [(rev cs ++ before, after)].
Proof.
  revert before. induction cs as [| c cs IH]; intros before; cbn; [reflexivity |].
  unfold advance_if. cbn [fst snd]. rewrite ceq_refl. cbn [flat_map].
  rewrite IH, app_nil_r. now rewrite <- app_assoc.
Qed.

Lemma positions_from_inner (pre rest before : list ascii) :
  In (rev pre ++ before, rest) (positions_from before (pre ++ rest)).
Proof.
  revert before. induction pre as [| c pre IH]; intros before.
  - destruct rest; now left.
  - right. cbn [app rev]. rewrite <- app_assoc. apply IH.
Qed.

(** A plain term is found in every text that contains it. *)
Lemma search_literal (t pre post : string) :
  search (literal t) (pre +:+ t +:+ post) = true.
Proof.
  unfold search, literal. rewrite !chars_app.
  apply existsb_exists. eexists. split; [apply positions_from_inner |].
  unfold matches_at. now rewrite ends_literal.
Qed.

End ReFacts.

(** A filename to which a plain term of a table is added, anywhere, matches
    that table. *)
Lemma added_term_matches (terms : list string) (t pre post : string) :
  In t terms -> Re.plain t = true ->
  any_search (compile_regex_list terms) (pre +:+ t +:+ post) = true.
Proof.
  intros Hin Hplain. unfold any_search, compile_regex_list.
  apply existsb_exists. exists (Re.literal t). split.
  - apply list_elem_of_In, list_elem_of_omap. exists t.
    split; [now apply list_elem_of_In | now apply ReFacts.compile_plain].
  - apply ReFacts.search_literal.
Qed.

(** Adding a plain CONTROL term anywhere in a filename makes it kept under
    MAYBE, unless the new filename matches a QC term. *)
Lemma adding_control_term_keeps (t pre post : string) (food_patterns : list Re.regex) :
  In t CONTROL_TERMS -> Re.plain t = true ->
  any_search COMPILED_QC (pre +:+ t +:+ post) = false ->
  fst (check_filename_relevance (pre +:+ t +:+ post) food_patterns (VStr "MAYBE")) = true.
Proof.
  intros Hin Hplain Hqc. apply maybe_control_keeps; [exact Hqc |].
  now apply added_term_matches.
Qed.

(** Adding a plain RAW term does the same when the non-edible rule does not
    apply to the new filename. *)
Lemma adding_raw_term_keeps (t pre post : string) (food_patterns : list Re.regex) :
  In t RAW_TERMS -> Re.plain t = true ->
  any_search COMPILED_QC (pre +:+ t +:+ post) = false ->
  (any_search COMPILED_NON_EDIBLE (pre +:+ t +:+ post) = true ->
   any_search COMPILED_GENERIC_EDIBLE_PART (pre +:+ t +:+ post) = true) ->
  fst (check_filename_relevance (pre +:+ t +:+ post) food_patterns (VStr "MAYBE")) = true.
Proof.
  intros Hin Hplain Hqc Hne. apply maybe_raw_keeps; [exact Hqc | | exact Hne].
  now apply added_term_matches.
Qed.

(** ** Sorting facts *)

Module SortingFacts.
Import Sorting.

Lemma compare_le_trans (s1 s2 s3 : string) :
  String.compare s1 s2 <> Gt -> String.compare s2 s3 <> Gt ->
  String.compare s1 s3 <> Gt.
Proof.
  revert s2 s3. induction s1 as [| a s1 IH]; intros [| b s2] [| c s3]; cbn;
    try congruence.
  unfold Ascii.compare.
  destruct (N.compare_spec (N_of_ascii a) (N_of_ascii b)) as [Eab | Lab | Gab];
    destruct (N.compare_spec (N_of_ascii b) (N_of_ascii c)) as [Ebc | Lbc | Gbc];
    destruct (N.compare_spec (N_of_ascii a) (N_of_ascii c)) as [Eac | Lac | Gac];
    try congruence; try lia.
  apply IH.
Qed.

#[global] Instance str_le_trans : Transitive str_le.
Proof.
  intros x y z. unfold str_le, String.leb. intros Hxy Hyz.
  pose proof (compare_le_trans x y z) as H.
  destruct (String.compare x y); try discriminate;
    destruct (String.compare y z); try discriminate;
    destruct (String.compare x z); try reflexivity;
    exfalso; apply H; congruence.
Qed.

#[global] Instance str_le_antisym : AntiSymm (=) str_le.
Proof. intros x y. apply String.leb_antisym. Qed.

Lemma insert_str_perm (x : string) (l : list string) : insert_str x l ≡ₚ x :: l.
Proof.
  induction l as [| y l IH]; cbn; [reflexivity |].
  destruct (String.leb x y); [reflexivity |].
  rewrite IH. apply Permutation_swap.
Qed.

Lemma sorted_perm (l : list string) : sorted l ≡ₚ l.
Proof.
  induction l as [| x l IH]; cbn; [reflexivity |].
  fold (sorted l). now rewrite insert_str_perm, IH.
Qed.

Lemma insert_str_sorted (x : string) (l : list string) :
  Sorted str_le l -> Sorted str_le (insert_str x l).
Proof.
  induction 1 as [| y l Hl IH Hhd]; cbn; [repeat constructor |].
  destruct (String.leb x y) eqn:Hxy.
  - repeat constructor; assumption.
  - assert (str_le y x) as Hyx.
    { destruct (String.leb_total x y) as [H | H]; [congruence | exact H]. }
    constructor; [exact IH |].
    destruct l as [| z l]; cbn; [now constructor |].
    destruct (String.leb x z); constructor; [exact Hyx |].
    now inversion Hhd.
Qed.

Lemma sorted_sorted (l : list string) : Sorted str_le (sorted l).
Proof.
  induction l as [| x l IH]; cbn; [constructor |].
  now apply insert_str_sorted.
Qed.

(** [sorted] forgets the order in which its input is enumerated. *)
Lemma sorted_perm_invariant (l1 l2 : list string) :
  l1 ≡ₚ l2 -> sorted l1 = sorted l2.
Proof.
  intros H. apply (Sorted_unique str_le); try apply sorted_sorted.
  now rewrite !sorted_perm.
Qed.

Section ByKey.
Context {A : Type} (key : A -> nat).

Lemma insert_first (x : A) (l : list A) :
  key x = 0 -> insert key x l = x :: l.
Proof. intros H. destruct l; cbn; [reflexivity |]. now rewrite H. Qed.

Lemma insert_second (x : A) (l0 l1 : list A) :
  key x = 1 ->
  Forall (fun y => key y = 0) l0 -> Forall (fun y => key y = 1) l1 ->
  insert key x (l0 ++ l1) = l0 ++ x :: l1.
Proof.
  intros Hx H0 H1. induction H0 as [| y l0 Hy _ IH]; cbn.
  - destruct H1 as [| z l1 Hz _]; cbn; [reflexivity |]. now rewrite Hx, Hz.
  - now rewrite Hx, Hy, IH.
Qed.

(** A stable sort on a key with two values puts the elements of the first
    class in front, and keeps the input order inside each class. *)
Lemma sorted_by_key_two_classes (l : list A) :
  (forall x, key x = 0 \/ key x = 1) ->
  sorted_by_key key l
  = List.filter (first_class key) l ++ List.filter (fun x => negb (first_class key x)) l.
Proof.
  intros Hkey. induction l as [| x l IH]; cbn; [reflexivity |].
  fold (sorted_by_key key l). rewrite IH.
  destruct (Hkey x) as [Hx | Hx].
  - replace (first_class key x) with true by (unfold first_class; now rewrite Hx).
    now apply insert_first.
  - replace (first_class key x) with false by (unfold first_class; now rewrite Hx).
    apply insert_second; [exact Hx | |].
    + apply List.Forall_forall. intros y Hy. apply List.filter_In in Hy as [_ Hy].
      unfold first_class in Hy. now apply Nat.eqb_eq in Hy.
    + apply List.Forall_forall. intros y Hy. apply List.filter_In in Hy as [_ Hy].
      unfold first_class in Hy. destruct (Hkey y) as [E | E]; [| exact E].
      rewrite E in Hy. discriminate.
Qed.
End ByKey.

End SortingFacts.

(** ** The food-key pattern generator *)

Lemma NoDup_omap_inj {A B : Type} (f : A -> option B) (l : list A) :
  NoDup l ->
  (forall x y b, In x l -> In y l -> f x = Some b -> f y = Some b -> x = y) ->
  NoDup (omap f l).
Proof.
  induction 1 as [| x l Hx Hl IH]; intros Hinj; cbn; [constructor |].
  assert (NoDup (omap f l)) as Hrec.
  { apply IH. intros y z b Hy Hz. apply Hinj; now right. }
  destruct (f x) as [b |] eqn:Hfx; [| exact Hrec].
  constructor; [| exact Hrec].
  intros Hb. apply list_elem_of_omap in Hb as (y & Hy & Hfy).
  apply list_elem_of_In in Hy. apply Hx, list_elem_of_In.
  rewrite (Hinj x y b); auto; [now left | now right].
Qed.

(** Every pattern string built from a key is [\b<escaped t>\b] for some
    string [t]. *)
Lemma regex_strings_shape (key p : string) :
  In p (regex_strings key) -> exists t, p = word_pattern (Re.escape t).
Proof.
  unfold regex_strings, per_token_regex_strings, food_key_parts.
  intros Hp.
  assert (In p (map word_pattern (map Re.escape
            (List.filter (fun part => 2 <? Py.len part) (Py.split "_" key))))
          \/ p = word_pattern (Re.escape key)) as [H | ->].
  { destruct (Py.mem _ _); [now left |].
    apply in_app_or in Hp as [H | [<- | []]]; [now left | now right]. }
  - apply in_map_iff in H as (e & <- & He).
    apply in_map_iff in He as (t & <- & _). now exists t.
  - now exists key.
Qed.

Lemma unique_regex_strings_In (key p : string) :
  In p (unique_regex_strings key) <-> In p (regex_strings key).
Proof.
  unfold unique_regex_strings, Sorting.list_set.
  rewrite <- !list_elem_of_In, SortingFacts.sorted_perm.
  apply elem_of_remove_dups.
Qed.

Lemma unique_regex_strings_NoDup (key : string) : NoDup (unique_regex_strings key).
Proof.
  unfold unique_regex_strings, Sorting.list_set.
  rewrite SortingFacts.sorted_perm. apply NoDup_remove_dups.
Qed.

(** [re.compile] succeeds on every pattern built from a key. *)
Lemma escaped_patterns_compile (key : string) :
  Forall (fun p => is_Some (Re.compile p)) (unique_regex_strings key).
Proof.
  apply List.Forall_forall. intros p Hp.
  apply unique_regex_strings_In, regex_strings_shape in Hp as [t ->].
  rewrite ReFacts.compile_word_pattern. now eexists.
Qed.

Lemma get_derived_food_name_regex_list_NoDup (key : string) :
  NoDup (get_derived_food_name_regex_list key).
Proof.
  unfold get_derived_food_name_regex_list.
  destruct (negb (Py.truthy_str key)); [constructor |].
  apply NoDup_omap_inj; [apply unique_regex_strings_NoDup |].
  intros x y b Hx Hy.
  apply unique_regex_strings_In, regex_strings_shape in Hx as [s ->].
  apply unique_regex_strings_In, regex_strings_shape in Hy as [t ->].
  rewrite !ReFacts.compile_word_pattern. intros Hs Ht.
  assert (Re.word_regex s = Re.word_regex t) as E by congruence.
  now rewrite (ReFacts.word_regex_inj _ _ E).
Qed.

Lemma short_token_excluded (key t : string) :
  Py.len t <= 2 ->
  ~ In (word_pattern (Re.escape t)) (per_token_regex_strings key).
Proof.
  intros Hlen Hin. unfold per_token_regex_strings, food_key_parts in Hin.
  apply in_map_iff in Hin as (e & He & Hin).
  apply in_map_iff in Hin as (t' & <- & Hin).
  apply ReFacts.word_pattern_inj, ReFacts.escape_inj in He as ->.
  apply List.filter_In in Hin as [_ Hlt].
  apply Nat.ltb_lt in Hlt. lia.
Qed.

(** C7: the food-key generator is a function of its input, also across the
    orders in which Python may enumerate the intermediate set: sorting any
    enumeration of the distinct pattern strings gives the same list.  The
    empty key yields no pattern; a token of length 2 or less has no pattern
    among the per-token patterns; and neither the pattern strings nor the
    compiled patterns that are returned contain a duplicate. *)
Theorem C7_food_key_generator (key : string) :
  (forall enumeration,
      enumeration ≡ₚ Sorting.list_set (regex_strings key) ->
      Sorting.sorted enumeration = unique_regex_strings key) /\
  get_derived_food_name_regex_list "" = [] /\
  (forall t, In t (Py.split "_" key) -> Py.len t <= 2 ->
             ~ In (word_pattern (Re.escape t)) (per_token_regex_strings key)) /\
  NoDup (unique_regex_strings key) /\
  NoDup (get_derived_food_name_regex_list key).
Proof.
  repeat split.
  - intros enumeration H. now apply SortingFacts.sorted_perm_invariant.
  - intros t _. apply short_token_excluded.
  - apply unique_regex_strings_NoDup.
  - apply get_derived_food_name_regex_list_NoDup.
Qed.

Lemma C7_food_key_generator_witness :
  Sorting.sorted (rev (Sorting.list_set (regex_strings "sweet_potato_ab")))
  = ["\bpotato\b"; "\bsweet\b"; "\bsweet_potato_ab\b"] /\
  ~ In "\bab\b" (per_token_regex_strings "sweet_potato_ab").
Proof.
  destruct (C7_food_key_generator "sweet_potato_ab") as (Hsort & _ & Hshort & _).
  split.
  - apply (Hsort (rev (Sorting.list_set (regex_strings "sweet_potato_ab")))).
    apply (bool_decide_unpack _). vm_compute. exact I.
  - apply (Hshort "ab"); [vm_compute; tauto | vm_compute; lia].
Defined.

(** ** The remote file lister *)

Lemma found_files_step_supported (found : list FileInfo.t) (line : string) :
  Forall supported found -> Forall supported (found_files_step found line).
Proof.
  intros H. unfold found_files_step.
  destruct (_ || _); [exact H |].
  destruct (Py.mem _ _) eqn:E; [| exact H].
  apply Forall_app. split; [exact H |]. repeat constructor. exact E.
Qed.

Lemma found_files_of_stdout_supported (stdout : string) :
  Forall supported (found_files_of_stdout stdout).
Proof.
  unfold found_files_of_stdout.
  generalize (Py.split newline (Py.strip stdout)) as lines.
  assert (Forall supported []) as H by constructor. revert H.
  generalize (@nil FileInfo.t) as found.
  intros found H lines. revert found H.
  induction lines as [| line lines IH]; intros found H; cbn; [exact H |].
  apply IH. now apply found_files_step_supported.
Qed.

Lemma list_mass_spec_files_recursively_supported
    (shell : call_log -> string -> run_outcome) (server base_ftp_path : string)
    (log log' : call_log) (files : list FileInfo.t) :
  list_mass_spec_files_recursively shell server base_ftp_path log = (Ok files, log') ->
  Forall supported files.
Proof.
  unfold list_mass_spec_files_recursively, bind, subprocess_run.
  destruct (shell log _) as [rc out err | |e]; cbn.
  - destruct (negb (rc =? 0)%Z); intros [= <- _];
      [constructor | apply found_files_of_stdout_supported].
  - intros [= <- _]. constructor.
  - discriminate.
Qed.

(** A supported extension never asks for msconvert. *)
Lemma supported_not_msconvert (ext : string) :
  Py.mem ext SUPPORTED_EXTENSIONS_LOWER = true ->
  Py.mem ext MSCONVERT_SUPPORTED_RAW_EXTENSIONS = false.
Proof.
  unfold Py.mem, SUPPORTED_EXTENSIONS_LOWER. cbn [existsb].
  rewrite !orb_true_iff, !String.eqb_eq.
  intros [-> | [-> | [-> | [-> | H]]]]; try reflexivity; discriminate H.
Qed.

(** ** The loops of the orchestrator *)

Lemma candidate_step_no_skip (rgx : list Re.regex) (a : value)
    (acc : list Candidate.t * nat) (fi : FileInfo.t) :
  supported fi -> snd (candidate_step rgx a acc fi) = snd acc.
Proof.
  intros H. unfold candidate_step. destruct acc as [cands n].
  destruct (check_filename_relevance _ _ _) as [[] reason]; [| reflexivity].
  now rewrite (supported_not_msconvert _ H).
Qed.

Lemma collect_candidates_no_skip (rgx : list Re.regex) (a : value)
    (files : list FileInfo.t) :
  Forall supported files -> snd (collect_candidates rgx a files) = 0.
Proof.
  intros H. unfold collect_candidates.
  change 0 with (snd (@nil Candidate.t, 0)) at 2.
  generalize (@nil Candidate.t, 0).
  induction H as [| fi files Hfi _ IH]; intros acc; cbn; [reflexivity |].
  rewrite IH. now apply candidate_step_no_skip.
Qed.

Lemma files_to_process_for_ms2_length (cands : list Candidate.t) :
  length (files_to_process_for_ms2 cands) <= MAX_FILES_FOR_MS2_COUNTING.
Proof.
  unfold files_to_process_for_ms2.
  destruct (Nat.ltb_spec MAX_FILES_FOR_MS2_COUNTING (length cands)) as [H | H].
  - rewrite length_firstn. lia.
  - exact H.
Qed.

Lemma priority_key_two_classes (x : Candidate.t) :
  priority_key x = 0 \/ priority_key x = 1.
Proof. unfold priority_key. destruct (_ || _); auto. Qed.

Lemma first_class_priority (x : Candidate.t) :
  Sorting.first_class priority_key x = mentions_raw_or_control x.
Proof.
  unfold Sorting.first_class, priority_key, mentions_raw_or_control.
  now destruct (_ || _).
Qed.

Lemma files_to_process_for_ms2_over_cap (cands : list Candidate.t) :
  MAX_FILES_FOR_MS2_COUNTING < length cands ->
  files_to_process_for_ms2 cands
  = firstn MAX_FILES_FOR_MS2_COUNTING
      (List.filter mentions_raw_or_control cands ++
       List.filter (fun x => negb (mentions_raw_or_control x)) cands).
Proof.
  intros H. unfold files_to_process_for_ms2.
  apply Nat.ltb_lt in H. rewrite H.
  rewrite (SortingFacts.sorted_by_key_two_classes priority_key)
    by apply priority_key_two_classes.
  f_equal. f_equal; apply List.filter_ext; intros x; now rewrite first_class_priority.
Qed.

(** ** The reasons of the files that one dataset keeps *)

Lemma candidate_step_reasons (rgx : list Re.regex) (a : value) (P : Candidate.t -> Prop)
    (acc : list Candidate.t * nat) (fi : FileInfo.t) :
  (forall name reason c,
      check_filename_relevance name rgx a = (true, reason) ->
      Candidate.heuristic_match_reason c = reason -> P c) ->
  Forall P (fst acc) -> Forall P (fst (candidate_step rgx a acc fi)).
Proof.
  intros HP Hacc. unfold candidate_step. destruct acc as [cands n].
  destruct (check_filename_relevance _ _ _) as [[] reason] eqn:Hcheck; [| exact Hacc].
  destruct (_ && _); [exact Hacc |].
  cbn [fst] in *. apply Forall_app. split; [exact Hacc |].
  repeat constructor. eapply HP; [exact Hcheck | reflexivity].
Qed.

Lemma collect_candidates_reasons (rgx : list Re.regex) (a : value)
    (P : Candidate.t -> Prop) (files : list FileInfo.t) :
  (forall name reason c,
      check_filename_relevance name rgx a = (true, reason) ->
      Candidate.heuristic_match_reason c = reason -> P c) ->
  Forall P (fst (collect_candidates rgx a files)).
Proof.
  intros HP. unfold collect_candidates.
  assert (Forall P (fst (@nil Candidate.t, 0))) as Hacc by constructor.
  revert Hacc. generalize (@nil Candidate.t, 0).
  induction files as [| fi files IH]; intros acc Hacc; cbn; [exact Hacc |].
  apply IH. now apply candidate_step_reasons.
Qed.

(** Within one dataset the kept files all fall in the same class of the
    sort: none mentions "raw" or "control" under ACCEPTED, all do under
    MAYBE. *)
Lemma kept_files_one_class (rgx : list Re.regex) (a : value) (files : list FileInfo.t) :
  Forall (fun c => mentions_raw_or_control c = false)
         (fst (collect_candidates rgx a files)) \/
  Forall (fun c => mentions_raw_or_control c = true)
         (fst (collect_candidates rgx a files)).
Proof.
  destruct (eq_str a "ACCEPTED") eqn:Ha.
  - left. apply collect_candidates_reasons. intros name reason c Hcheck Hc.
    apply kept_reason in Hcheck as [[_ ->] | [-> _]]; [| discriminate Ha].
    unfold mentions_raw_or_control. now rewrite Hc.
  - right. apply collect_candidates_reasons. intros name reason c Hcheck Hc.
    apply kept_reason in Hcheck as [[-> _] | [_ [-> | ->]]]; [discriminate Ha | |];
      unfold mentions_raw_or_control; now rewrite Hc.
Qed.

Lemma filter_all {A : Type} (f : A -> bool) (l : list A) :
  Forall (fun x => f x = true) l -> List.filter f l = l.
Proof.
  intros H. induction H as [| x l Hx _ IH]; [reflexivity |].
  cbn [List.filter]. rewrite Hx. now f_equal.
Qed.

Lemma filter_none {A : Type} (f : A -> bool) (l : list A) :
  Forall (fun x => f x = false) l -> List.filter f l = [].
Proof.
  intros H. induction H as [| x l Hx _ IH]; [reflexivity |].
  cbn [List.filter]. now rewrite Hx.
Qed.

(** So the sort that precedes the truncation never reorders the files of a
    dataset: the files counted are the first of the listing that are kept. *)
Lemma files_to_process_for_ms2_of_kept (rgx : list Re.regex) (a : value)
    (files : list FileInfo.t) :
  files_to_process_for_ms2 (fst (collect_candidates rgx a files))
  = firstn MAX_FILES_FOR_MS2_COUNTING (fst (collect_candidates rgx a files)).
Proof.
  pose proof (kept_files_one_class rgx a files) as Hclass.
  set (cands := fst (collect_candidates rgx a files)) in *.
  destruct (Nat.ltb_spec MAX_FILES_FOR_MS2_COUNTING (length cands)) as [Hover | Hunder].
  - rewrite files_to_process_for_ms2_over_cap by exact Hover. f_equal.
    destruct Hclass as [H | H].
    + rewrite (filter_none _ _ H), (filter_all (fun x => negb _) cands); [reflexivity |].
      eapply Forall_impl; [exact H |]. cbn. intros c Hc. now rewrite Hc.
    + rewrite (filter_all _ _ H), (filter_none (fun x => negb _) cands);
        [apply app_nil_r |].
      eapply Forall_impl; [exact H |]. cbn. intros c Hc. now rewrite Hc.
  - unfold files_to_process_for_ms2.
    rewrite (proj2 (Nat.ltb_ge _ _) Hunder). now rewrite firstn_all2.
Qed.

(** ** The result fields *)

Lemma reset_results_lookup (d : gmap string value) :
  reset_results d !! "selected_files_for_ms2_analysis" = Some (VList []) /\
  reset_results d !! "total_ms2_spectra_from_selected_files" = Some (VInt 0) /\
  reset_results d !! "unsupported_files_skipped_count" = Some (VInt 0).
Proof. unfold reset_results. repeat split; now simplify_map_eq. Qed.

Lemma reset_results_frame (d : gmap string value) (k : string) :
  k <> "selected_files_for_ms2_analysis" ->
  k <> "total_ms2_spectra_from_selected_files" ->
  k <> "unsupported_files_skipped_count" ->
  reset_results d !! k = d !! k.
Proof. intros. unfold reset_results. now rewrite !lookup_insert_ne by congruence. Qed.

(** ** The paths through the orchestrator *)

Section Paths.

Variable shell : call_log -> string -> run_outcome.
Variable urlparse : string -> result (string * string).
Variable check_docker_availability : M bool.
Variable process_binary_file_with_msconvert : string -> string -> M Z.

Abbreviation count_loop :=
  (count_selected shell check_docker_availability process_binary_file_with_msconvert).
Abbreviation run_dataset :=
  (process_single_dataset shell urlparse check_docker_availability
                          process_binary_file_with_msconvert).

(** The counting loop keeps the files it is given, in order, and only fills
    in their counts. *)
Lemma count_selected_spec (server : string) (files : list Candidate.t) :
  forall (total : Z) (details : list Candidate.t) (log log' : call_log)
         (total' : Z) (details' : list Candidate.t),
    count_loop server files total details log = (Ok (total', details'), log') ->
    exists counts : list Z,
      length counts = length files /\
      details' = details ++ zip_with Candidate.set_ms2_spectra_in_file counts files /\
      total' = (total + fold_right Z.add 0 counts)%Z.
Proof.
  induction files as [| f files IH]; intros total details log log' total' details'.
  - cbn. intros [= <- <- _]. exists []. cbn. rewrite app_nil_r. repeat split; lia.
  - cbn [count_selected]. unfold bind at 1.
    destruct (count_one _ _ _ _ f log) as [[n | e] log1]; [| discriminate].
    intros H. apply IH in H as (counts & Hlen & -> & ->).
    exists (n :: counts). cbn. rewrite <- app_assoc. repeat split; [lia | lia].
Qed.

Lemma process_single_dataset_returns (d : gmap string value) (key : string)
    (log : call_log) (d' : gmap string value) (log' : call_log) :
  run_dataset d key log = (Ok d', log') -> returns shell urlparse d key log d' log'.
Proof.
  unfold process_single_dataset. fold (reset_results d).
  replace (dict_get (reset_results d) "ftp_link" (VStr ""))
    with (dict_get d "ftp_link" (VStr ""))
    by (unfold dict_get; now rewrite reset_results_frame by discriminate).
  set (a := dict_get d "llm_assessment" (VStr "REJECTED")).
  destruct (eq_str a "REJECTED") eqn:Ha.
  { intros [= <- <-]. now constructor. }
  destruct (negb (truthy _)) eqn:Htruthy.
  { intros [= <- <-]. constructor; [exact Ha |]. left. now apply negb_true_iff. }
  destruct (dict_get d "ftp_link" (VStr "")) as [| | |link| |] eqn:Hget;
    try discriminate.
  assert (d !! "ftp_link" = Some (VStr link)) as Hlink.
  { unfold dict_get in Hget. destruct (d !! "ftp_link") as [v |]; [now subst |].
    injection Hget as <-. discriminate Htruthy. }
  destruct (negb (Py.startswith link "ftp://")) eqn:Hftp.
  { intros [= <- <-]. constructor; [exact Ha |]. right. exists link.
    split; [exact Hlink | now apply negb_true_iff]. }
  apply negb_false_iff in Hftp.
  unfold bind at 1. unfold parse_ftp_path, lift.
  destruct (urlparse link) as [[server base] | e] eqn:Hurl; [| discriminate].
  unfold bind at 1.
  destruct (list_mass_spec_files_recursively shell server base log)
    as [[files | e] log1] eqn:Hlist; [| discriminate].
  destruct files as [| fi files].
  { unfold bind, lift, ret.
    destruct (value_lower a) as [lowered | e] eqn:Hlower; [| discriminate].
    intros [= <- <-]. econstructor; eassumption. }
  destruct (collect_candidates _ a (fi :: files)) as [cands unsupported] eqn:Hcoll.
  destruct cands as [| c cands].
  { unfold bind, lift, ret.
    destruct (value_lower a) as [lowered | e] eqn:Hlower; [| discriminate].
    intros [= <- <-].
    replace unsupported with (snd (collect_candidates
      (get_derived_food_name_regex_list key) a (fi :: files))) by now rewrite Hcoll.
    econstructor; try eassumption; [discriminate | exact (f_equal fst Hcoll)]. }
  unfold bind at 1.
  destruct (count_loop server _ 0%Z [] log1) as [[[total details] | e] log2] eqn:Hcount;
    [| discriminate].
  apply count_selected_spec in Hcount as (counts & Hlen & -> & ->).
  unfold bind, lift, ret.
  destruct (value_lower a) as [lowered | e] eqn:Hlower; [| discriminate].
  intros [= <- <-]. cbn [app]. rewrite Z.add_0_l.
  assert (c :: cands
          = fst (collect_candidates (get_derived_food_name_regex_list key) a (fi :: files)))
    as Hfst by exact (eq_sym (f_equal fst Hcoll)).
  replace unsupported with (snd (collect_candidates
    (get_derived_food_name_regex_list key) a (fi :: files))) by now rewrite Hcoll.
  rewrite Hfst in Hlen. rewrite Hfst. subst a.
  econstructor; try eassumption. rewrite <- Hfst. discriminate.
Qed.

End Paths.

(** ** The fast paths *)

Section FastPaths.

Variable shell : call_log -> string -> run_outcome.
Variable urlparse : string -> result (string * string).
Variable check_docker_availability : M bool.
Variable process_binary_file_with_msconvert : string -> string -> M Z.

Abbreviation run_dataset :=
  (process_single_dataset shell urlparse check_docker_availability
                          process_binary_file_with_msconvert).

Lemma rejected_path (d : gmap string value) (key : string) (log : call_log) :
  eq_str (dict_get d "llm_assessment" (VStr "REJECTED")) "REJECTED" = true ->
  run_dataset d key log
  = (Ok (<["ms2_count_source_type" := VStr "rejected_by_llm"]> (reset_results d)), log).
Proof. intros H. unfold process_single_dataset. now rewrite H. Qed.

Lemma no_ftp_link_path (d : gmap string value) (key : string) (log : call_log) :
  eq_str (dict_get d "llm_assessment" (VStr "REJECTED")) "REJECTED" = false ->
  (d !! "ftp_link" = None \/
   exists s, d !! "ftp_link" = Some (VStr s) /\ Py.startswith s "ftp://" = false) ->
  run_dataset d key log
  = (Ok (<["ms2_count_source_type" := VStr "no_ftp_link"]> (reset_results d)), log).
Proof.
  intros Ha Hlink. unfold process_single_dataset. rewrite Ha.
  fold (reset_results d).
  replace (dict_get (reset_results d) "ftp_link" (VStr ""))
    with (dict_get d "ftp_link" (VStr ""))
    by (unfold dict_get; now rewrite reset_results_frame by discriminate).
  unfold dict_get.
  destruct Hlink as [-> | (s & -> & Hs)]; [reflexivity |].
  destruct (negb (truthy (VStr s))); [reflexivity |].
  now rewrite Hs.
Qed.

End FastPaths.

Lemma fast_path_fields (d : gmap string value) (tag : string) :
  let d' := <["ms2_count_source_type" := VStr tag]> (reset_results d) in
  d' !! "ms2_count_source_type" = Some (VStr tag) /\
  d' !! "selected_files_for_ms2_analysis" = Some (VList []) /\
  d' !! "total_ms2_spectra_from_selected_files" = Some (VInt 0) /\
  d' !! "unsupported_files_skipped_count" = Some (VInt 0) /\
  (forall k, ~ In k result_keys -> d' !! k = d !! k).
Proof.
  cbn zeta. destruct (reset_results_lookup d) as (Hs & Ht & Hu).
  repeat split.
  - now rewrite lookup_insert_eq.
  - now rewrite lookup_insert_ne.
  - now rewrite lookup_insert_ne.
  - now rewrite lookup_insert_ne.
  - intros k Hk. unfold result_keys in Hk. cbn [In] in Hk.
    rewrite lookup_insert_ne by (intros <-; tauto).
    apply reset_results_frame; intros ->; tauto.
Qed.

(** ** The orchestrator returns a record *)

Section Totality.

Variable shell : call_log -> string -> run_outcome.
Variable urlparse : string -> result (string * string).
Variable check_docker_availability : M bool.
Variable process_binary_file_with_msconvert : string -> string -> M Z.

(** The shell fails only by timing out or by its exit status. *)
Hypothesis shell_runs : forall log cmd e, shell log cmd <> RunError e.
Hypothesis urlparse_parses : forall ftp_link, exists parts, urlparse ftp_link = Ok parts.

Lemma count_ms2_spectra_in_text_file_via_ftp_returns
    (server path ext : string) (log : call_log) :
  exists n log',
    count_ms2_spectra_in_text_file_via_ftp shell server path ext log = (Ok n, log').
Proof.
  unfold count_ms2_spectra_in_text_file_via_ftp.
  destruct (if String.eqb ext ".mzxml" then _ else _) as [cmd |]; [| now eexists _, _].
  unfold bind, subprocess_run.
  pose proof (shell_runs log cmd) as Hrun.
  destruct (shell log cmd) as [rc out err | | e]; [| now eexists _, _ | now destruct (Hrun e)].
  destruct (1 <? rc)%Z; [now eexists _, _ |].
  destruct (Py.int (Py.strip out)); now eexists _, _.
Qed.

Lemma count_one_returns (server : string) (f : Candidate.t) (log : call_log) :
  exists n log',
    count_one shell check_docker_availability process_binary_file_with_msconvert
      server f log = (Ok n, log').
Proof.
  unfold count_one.
  destruct (Py.mem _ TEXT_BASED_EXTENSIONS);
    [apply count_ms2_spectra_in_text_file_via_ftp_returns |].
  destruct (Py.mem _ MSCONVERT_SUPPORTED_RAW_EXTENSIONS); now eexists _, _.
Qed.

Lemma count_selected_returns (server : string) (files : list Candidate.t) :
  forall total details log,
  exists r log',
    count_selected shell check_docker_availability process_binary_file_with_msconvert
      server files total details log = (Ok r, log').
Proof.
  induction files as [| f files IH]; intros total details log; [now eexists _, _ |].
  cbn [count_selected]. unfold bind at 1.
  destruct (count_one_returns server f log) as (n & log1 & ->). apply IH.
Qed.

Lemma list_mass_spec_files_recursively_returns (server base : string) (log : call_log) :
  exists files log',
    list_mass_spec_files_recursively shell server base log = (Ok files, log').
Proof.
  unfold list_mass_spec_files_recursively, bind, subprocess_run.
  match goal with |- context [shell log ?c] =>
    pose proof (shell_runs log c) as Hrun; destruct (shell log c) as [rc out err | | e]
  end; [| now eexists _, _ | now destruct (Hrun e)].
  destruct (negb (rc =? 0)%Z); now eexists _, _.
Qed.

(** A record whose assessment and remote location, when present, are
    strings is always processed to the end: the orchestrator returns a
    record and raises nothing. *)
Lemma process_single_dataset_returns_record (d : gmap string value) (key : string)
    (log : call_log) :
  (forall a, d !! "llm_assessment" = Some a -> exists s, a = VStr s) ->
  (forall v, d !! "ftp_link" = Some v -> exists s, v = VStr s) ->
  exists d' log',
    process_single_dataset shell urlparse check_docker_availability
      process_binary_file_with_msconvert d key log = (Ok d', log').
Proof.
  intros Ha Hlink. unfold process_single_dataset. fold (reset_results d).
  assert (exists s, dict_get d "llm_assessment" (VStr "REJECTED") = VStr s) as [a ->].
  { unfold dict_get. destruct (d !! "llm_assessment") as [v |]; [now apply Ha | now eexists]. }
  assert (exists s, dict_get (reset_results d) "ftp_link" (VStr "") = VStr s) as [link ->].
  { unfold dict_get. rewrite reset_results_frame by discriminate.
    destruct (d !! "ftp_link") as [v |]; [now apply Hlink | now eexists]. }
  destruct (eq_str _ _); [now eexists _, _ |].
  destruct (negb (truthy _)); [now eexists _, _ |].
  destruct (negb (Py.startswith _ _)); [now eexists _, _ |].
  unfold bind at 1. unfold parse_ftp_path, lift.
  destruct (urlparse_parses link) as [[server base] ->].
  unfold bind at 1.
  destruct (list_mass_spec_files_recursively_returns server base log)
    as (files & log1 & ->).
  destruct files as [| fi files]; [now eexists _, _ |].
  destruct (collect_candidates _ _ _) as [[| c cands] unsupported]; [now eexists _, _ |].
  unfold bind at 1.
  destruct (count_selected_returns server (files_to_process_for_ms2 (c :: cands))
              0%Z [] log1) as ([total details] & log2 & ->).
  now eexists _, _.
Qed.

End Totality.

(** ** The orchestrator on the fast paths *)

(** C6, as stated, fails on its frame: a fourth field, the count of skipped
    unsupported files, is written as well.  The record below has no such
    field before the call and has it, set to 0, after. *)
Lemma C6_counterexample :
  Sample.run Sample.rejected
  = (Ok (<["ms2_count_source_type" := VStr "rejected_by_llm"]>
           (<["unsupported_files_skipped_count" := VInt 0]>
              (<["total_ms2_spectra_from_selected_files" := VInt 0]>
                 (<["selected_files_for_ms2_analysis" := VList []]> Sample.rejected)))),
     []) /\
  Sample.rejected !! "unsupported_files_skipped_count" = None /\
  (<["ms2_count_source_type" := VStr "rejected_by_llm"]>
     (<["unsupported_files_skipped_count" := VInt 0]>
        (<["total_ms2_spectra_from_selected_files" := VInt 0]>
           (<["selected_files_for_ms2_analysis" := VList []]> Sample.rejected))))
    !! "unsupported_files_skipped_count" = Some (VInt 0).
Proof. repeat split. Qed.

(** C6, amended: for a record whose assessment is REJECTED the orchestrator
    runs no command at all (the call log is unchanged and the record returned
    is the same whatever the shell, the URL parser and the converter are); it
    sets the source-type tag to [rejected_by_llm], the selected-file list to
    the empty list, the aggregate spectra count to 0 and the count of skipped
    unsupported files to 0, and leaves every other field of the record as it
    was. *)
Theorem C6_rejected_dataset (d : gmap string value) (key : string) (log : call_log) :
  d !! "llm_assessment" = Some (VStr "REJECTED") ->
  exists d',
    (forall shell urlparse check_docker_availability process_binary_file_with_msconvert,
        process_single_dataset shell urlparse check_docker_availability
          process_binary_file_with_msconvert d key log = (Ok d', log)) /\
    d' !! "ms2_count_source_type" = Some (VStr "rejected_by_llm") /\
    d' !! "selected_files_for_ms2_analysis" = Some (VList []) /\
    d' !! "total_ms2_spectra_from_selected_files" = Some (VInt 0) /\
    d' !! "unsupported_files_skipped_count" = Some (VInt 0) /\
    (forall k, ~ In k result_keys -> d' !! k = d !! k).
Proof.
  intros Ha. eexists. split; [| apply fast_path_fields].
  intros. apply rejected_path. unfold dict_get. now rewrite Ha.
Qed.

Lemma C6_rejected_dataset_witness :
  exists d',
    (forall shell urlparse check_docker_availability process_binary_file_with_msconvert,
        process_single_dataset shell urlparse check_docker_availability
          process_binary_file_with_msconvert Sample.rejected "grain" [] = (Ok d', [])) /\
    d' !! "ms2_count_source_type" = Some (VStr "rejected_by_llm") /\
    d' !! "selected_files_for_ms2_analysis" = Some (VList []) /\
    d' !! "total_ms2_spectra_from_selected_files" = Some (VInt 0) /\
    d' !! "unsupported_files_skipped_count" = Some (VInt 0) /\
    (forall k, ~ In k result_keys -> d' !! k = Sample.rejected !! k).
Proof. apply (C6_rejected_dataset Sample.rejected "grain" []). reflexivity. Defined.

(** C8: for a record that has an assessment other than REJECTED and whose
    remote base location is absent, or is a string that does not start with
    [ftp://], the orchestrator runs no command (the call log is unchanged,
    whatever the shell) and returns the record with an empty selected-file
    list, an aggregate spectra count of 0 and the source-type tag
    [no_ftp_link]. *)
Theorem C8_no_ftp_link (d : gmap string value) (key : string) (log : call_log)
    (assessment : value) :
  d !! "llm_assessment" = Some assessment ->
  assessment <> VStr "REJECTED" ->
  (d !! "ftp_link" = None \/
   exists s, d !! "ftp_link" = Some (VStr s) /\ Py.startswith s "ftp://" = false) ->
  exists d',
    (forall shell urlparse check_docker_availability process_binary_file_with_msconvert,
        process_single_dataset shell urlparse check_docker_availability
          process_binary_file_with_msconvert d key log = (Ok d', log)) /\
    d' !! "ms2_count_source_type" = Some (VStr "no_ftp_link") /\
    d' !! "selected_files_for_ms2_analysis" = Some (VList []) /\
    d' !! "total_ms2_spectra_from_selected_files" = Some (VInt 0).
Proof.
  intros Ha Hne Hlink. eexists. split.
  - intros. apply no_ftp_link_path; [| exact Hlink].
    unfold dict_get. rewrite Ha. destruct assessment as [| | |s| |]; try reflexivity.
    cbn. apply String.eqb_neq. congruence.
  - destruct (fast_path_fields d "no_ftp_link") as (? & ? & ? & _). auto.
Qed.

Lemma C8_no_ftp_link_witness :
  exists d',
    (forall shell urlparse check_docker_availability process_binary_file_with_msconvert,
        process_single_dataset shell urlparse check_docker_availability
          process_binary_file_with_msconvert Sample.no_link "grain" [] = (Ok d', [])) /\
    d' !! "ms2_count_source_type" = Some (VStr "no_ftp_link") /\
    d' !! "selected_files_for_ms2_analysis" = Some (VList []) /\
    d' !! "total_ms2_spectra_from_selected_files" = Some (VInt 0).
Proof.
  apply (C8_no_ftp_link Sample.no_link "grain" [] (VStr "MAYBE")).
  - reflexivity.
  - discriminate.
  - right. exists "". split; reflexivity.
Defined.

(** C10: a record without an assessment field is handled as a REJECTED one:
    no command is run, the source-type tag is [rejected_by_llm], the
    selected-file list is empty and the aggregate spectra count is 0; and the
    record returned is the one returned for the same record with the
    assessment REJECTED filled in, but for that field. *)
Theorem C10_missing_assessment (d : gmap string value) (key : string) (log : call_log) :
  d !! "llm_assessment" = None ->
  exists d',
    (forall shell urlparse check_docker_availability process_binary_file_with_msconvert,
        process_single_dataset shell urlparse check_docker_availability
          process_binary_file_with_msconvert d key log = (Ok d', log) /\
        process_single_dataset shell urlparse check_docker_availability
          process_binary_file_with_msconvert
          (<["llm_assessment" := VStr "REJECTED"]> d) key log
        = (Ok (<["llm_assessment" := VStr "REJECTED"]> d'), log)) /\
    d' !! "ms2_count_source_type" = Some (VStr "rejected_by_llm") /\
    d' !! "selected_files_for_ms2_analysis" = Some (VList []) /\
    d' !! "total_ms2_spectra_from_selected_files" = Some (VInt 0).
Proof.
  intros Ha. eexists. split.
  - intros. split.
    + apply rejected_path. unfold dict_get. now rewrite Ha.
    + rewrite rejected_path
        by (unfold dict_get; now rewrite lookup_insert_eq).
      f_equal. f_equal. unfold reset_results.
      now rewrite !(insert_insert_ne _ "llm_assessment") by done.
  - destruct (fast_path_fields d "rejected_by_llm") as (? & ? & ? & _). auto.
Qed.

Lemma C10_missing_assessment_witness :
  exists d',
    (forall shell urlparse check_docker_availability process_binary_file_with_msconvert,
        process_single_dataset shell urlparse check_docker_availability
          process_binary_file_with_msconvert Sample.unassessed "grain" [] = (Ok d', []) /\
        process_single_dataset shell urlparse check_docker_availability
          process_binary_file_with_msconvert
          (<["llm_assessment" := VStr "REJECTED"]> Sample.unassessed) "grain" []
        = (Ok (<["llm_assessment" := VStr "REJECTED"]> d'), [])) /\
    d' !! "ms2_count_source_type" = Some (VStr "rejected_by_llm") /\
    d' !! "selected_files_for_ms2_analysis" = Some (VList []) /\
    d' !! "total_ms2_spectra_from_selected_files" = Some (VInt 0).
Proof. apply (C10_missing_assessment Sample.unassessed "grain" []). reflexivity. Defined.

(** ** The orchestrator on every path *)

Section EveryPath.

Variable shell : call_log -> string -> run_outcome.
Variable urlparse : string -> result (string * string).
Variable check_docker_availability : M bool.
Variable process_binary_file_with_msconvert : string -> string -> M Z.

Lemma returns_selected (d : gmap string value) (key : string) (log : call_log)
    (d' : gmap string value) (log' : call_log) :
  returns shell urlparse d key log d' log' ->
  exists l, d' !! "selected_files_for_ms2_analysis" = Some (VList l) /\
            length l <= MAX_FILES_FOR_MS2_COUNTING.
Proof.
  destruct 1.
  1-4: exists []; split; [| cbn; lia];
       rewrite ?(lookup_insert_ne _ "ms2_count_source_type") by done;
       rewrite ?(lookup_insert_ne _ "unsupported_files_skipped_count") by done;
       apply reset_results_lookup.
  eexists. split.
  - rewrite !lookup_insert_ne by done. apply lookup_insert_eq.
  - rewrite length_map. rewrite length_zip_with_r_eq by (symmetry; assumption).
    apply files_to_process_for_ms2_length.
Qed.

Lemma returns_unsupported (d : gmap string value) (key : string) (log : call_log)
    (d' : gmap string value) (log' : call_log) :
  returns shell urlparse d key log d' log' ->
  d' !! "unsupported_files_skipped_count" = Some (VInt 0).
Proof.
  destruct 1;
    try match goal with
        | H : list_mass_spec_files_recursively _ _ _ _ = _ |- _ =>
            apply list_mass_spec_files_recursively_supported in H
        end.
  1-3: rewrite lookup_insert_ne by done; apply reset_results_lookup.
  all: rewrite ?(lookup_insert_ne _ "ms2_count_source_type") by done;
       rewrite ?(lookup_insert_ne _ "total_ms2_spectra_from_selected_files") by done;
       rewrite ?(lookup_insert_ne _ "selected_files_for_ms2_analysis") by done;
       rewrite lookup_insert_eq;
       now rewrite collect_candidates_no_skip.
Qed.

End EveryPath.

(** C5: whatever the record, the food key and the answers of the world,
    the list of selected file descriptors that the orchestrator writes into
    the record it returns has at most 10 entries, the value of
    [MAX_FILES_FOR_MS2_COUNTING]. *)
Theorem C5_selected_files_capped
    (shell : call_log -> string -> run_outcome)
    (urlparse : string -> result (string * string))
    (check_docker_availability : M bool)
    (process_binary_file_with_msconvert : string -> string -> M Z)
    (d : gmap string value) (key : string) (log : call_log)
    (d' : gmap string value) (log' : call_log) :
  process_single_dataset shell urlparse check_docker_availability
    process_binary_file_with_msconvert d key log = (Ok d', log') ->
  exists l, d' !! "selected_files_for_ms2_analysis" = Some (VList l) /\
            length l <= 10.
Proof.
  intros H. apply process_single_dataset_returns in H.
  exact (returns_selected _ _ _ _ _ _ _ H).
Qed.

Lemma C5_selected_files_capped_witness :
  exists l,
    Sample.result_of (Sample.run Sample.accepted) !! "selected_files_for_ms2_analysis"
    = Some (VList l) /\
    length l <= 10.
Proof.
  apply (C5_selected_files_capped Sample.shell Sample.urlparse
           Sample.check_docker_availability Sample.process_binary_file_with_msconvert
           Sample.accepted "grain" [] _ (snd (Sample.run Sample.accepted))).
  vm_compute. reflexivity.
Defined.

(** C9: every descriptor that the remote file lister produces carries a
    lowercase extension of [SUPPORTED_EXTENSIONS_LOWER]; no extension of that
    list is in [MSCONVERT_SUPPORTED_RAW_EXTENSIONS]; so the loop over the
    listed files never takes the branch that skips a relevant file because it
    needs msconvert, and the count of skipped unsupported files is 0 in every
    record that the orchestrator returns. *)
Theorem C9_no_file_needs_msconvert
    (shell : call_log -> string -> run_outcome) :
  (forall server base_ftp_path log files log',
      list_mass_spec_files_recursively shell server base_ftp_path log = (Ok files, log') ->
      (forall fi, In fi files ->
         In (FileInfo.file_ext_lower fi) SUPPORTED_EXTENSIONS_LOWER /\
         ~ In (FileInfo.file_ext_lower fi) MSCONVERT_SUPPORTED_RAW_EXTENSIONS) /\
      (forall derived_food_name_regex llm_assessment,
         snd (collect_candidates derived_food_name_regex llm_assessment files) = 0)) /\
  (forall ext, In ext SUPPORTED_EXTENSIONS_LOWER ->
               ~ In ext MSCONVERT_SUPPORTED_RAW_EXTENSIONS) /\
  (forall urlparse check_docker_availability process_binary_file_with_msconvert
          d key log d' log',
      process_single_dataset shell urlparse check_docker_availability
        process_binary_file_with_msconvert d key log = (Ok d', log') ->
      d' !! "unsupported_files_skipped_count" = Some (VInt 0)).
Proof.
  assert (forall ext, In ext SUPPORTED_EXTENSIONS_LOWER ->
                      ~ In ext MSCONVERT_SUPPORTED_RAW_EXTENSIONS) as Hdisjoint.
  { intros ext Hin Hin'. cbn in Hin, Hin'.
    destruct Hin as [<- | [<- | [<- | [<- | []]]]];
      destruct Hin' as [E | [E | [E | []]]]; discriminate E. }
  split; [| split; [exact Hdisjoint |]].
  - intros server base log files log' Hlist.
    apply list_mass_spec_files_recursively_supported in Hlist. split.
    + intros fi Hfi.
      assert (In (FileInfo.file_ext_lower fi) SUPPORTED_EXTENSIONS_LOWER) as Hin.
      { rewrite List.Forall_forall in Hlist. specialize (Hlist fi Hfi).
        unfold supported, Py.mem in Hlist.
        apply existsb_exists in Hlist as (e & He & Heq).
        apply String.eqb_eq in Heq. now subst. }
      split; [exact Hin | now apply Hdisjoint].
    + intros. now apply collect_candidates_no_skip.
  - intros urlparse dk pb d key log d' log' H.
    apply process_single_dataset_returns in H.
    exact (returns_unsupported _ _ _ _ _ _ _ H).
Qed.

Lemma C9_no_file_needs_msconvert_witness :
  (forall fi, In fi (Sample.files_of (Sample.list_files)) ->
     In (FileInfo.file_ext_lower fi) SUPPORTED_EXTENSIONS_LOWER /\
     ~ In (FileInfo.file_ext_lower fi) MSCONVERT_SUPPORTED_RAW_EXTENSIONS) /\
  Sample.result_of (Sample.run Sample.accepted) !! "unsupported_files_skipped_count"
  = Some (VInt 0).
Proof.
  destruct (C9_no_file_needs_msconvert Sample.shell) as (Hlist & _ & Hrun).
  split.
  - apply (Hlist "massive.ucsd.edu" "/v01/MSV000001" [] _ (snd Sample.list_files)).
    vm_compute. reflexivity.
  - apply (Hrun Sample.urlparse Sample.check_docker_availability
             Sample.process_binary_file_with_msconvert
             Sample.accepted "grain" [] _ (snd (Sample.run Sample.accepted))).
    vm_compute. reflexivity.
Defined.

(** ** The selection under the cap *)

Section Analysis.

Variable shell : call_log -> string -> run_outcome.
Variable urlparse : string -> result (string * string).
Variable check_docker_availability : M bool.
Variable process_binary_file_with_msconvert : string -> string -> M Z.

(** On the path that counts spectra, the descriptors written into the record
    are those of [files_to_process_for_ms2], in that order, with their
    counts filled in. *)
Lemma analysis_path (d : gmap string value) (key : string) (log : call_log)
    (ftp_link server base_ftp_path : string) (files : list FileInfo.t)
    (log1 : call_log) (d' : gmap string value) (log' : call_log) :
  eq_str (dict_get d "llm_assessment" (VStr "REJECTED")) "REJECTED" = false ->
  d !! "ftp_link" = Some (VStr ftp_link) ->
  Py.startswith ftp_link "ftp://" = true ->
  urlparse ftp_link = Ok (server, base_ftp_path) ->
  list_mass_spec_files_recursively shell server base_ftp_path log = (Ok files, log1) ->
  fst (collect_candidates (get_derived_food_name_regex_list key)
         (dict_get d "llm_assessment" (VStr "REJECTED")) files) <> [] ->
  process_single_dataset shell urlparse check_docker_availability
    process_binary_file_with_msconvert d key log = (Ok d', log') ->
  exists counts : list Z,
    length counts
    = length (files_to_process_for_ms2
                (fst (collect_candidates (get_derived_food_name_regex_list key)
                        (dict_get d "llm_assessment" (VStr "REJECTED")) files))) /\
    d' !! "selected_files_for_ms2_analysis"
    = Some (VList (map Candidate.to_value
                     (zip_with Candidate.set_ms2_spectra_in_file counts
                        (files_to_process_for_ms2
                           (fst (collect_candidates
                                   (get_derived_food_name_regex_list key)
                                   (dict_get d "llm_assessment" (VStr "REJECTED"))
                                   files)))))).
Proof.
  intros Ha Hlink Hftp Hurl Hlist Hcands.
  unfold process_single_dataset. fold (reset_results d).
  set (a := dict_get d "llm_assessment" (VStr "REJECTED")) in *.
  rewrite Ha.
  replace (dict_get (reset_results d) "ftp_link" (VStr "")) with (VStr ftp_link)
    by (unfold dict_get; now rewrite reset_results_frame, Hlink by discriminate).
  replace (negb (truthy (VStr ftp_link))) with false
    by (destruct ftp_link; [discriminate Hftp | reflexivity]).
  rewrite Hftp. cbn [negb].
  unfold bind at 1. unfold parse_ftp_path, lift. rewrite Hurl.
  unfold bind at 1. rewrite Hlist.
  destruct files as [| fi files]; [now destruct Hcands |].
  destruct (collect_candidates _ a (fi :: files)) as [cands unsupported] eqn:Hcoll.
  cbn [fst] in Hcands |- *.
  destruct cands as [| c cands]; [now destruct Hcands |].
  unfold bind at 1.
  destruct (count_selected _ _ _ server _ 0%Z [] log1)
    as [[[total details] | e] log2] eqn:Hcount; [| discriminate].
  apply count_selected_spec in Hcount as (counts & Hlen & -> & ->).
  unfold bind, lift, ret. destruct (value_lower a) as [lowered | e]; [| discriminate].
  intros [= <- <-]. exists counts. split; [exact Hlen |].
  rewrite !lookup_insert_ne by done. now rewrite lookup_insert_eq.
Qed.

End Analysis.

(** C4: when more candidate files are kept than the cap allows, the files
    whose spectra are counted are the first [MAX_FILES_FOR_MS2_COUNTING] of
    the list that has the candidates whose reason mentions "raw" or "control"
    in front and the others behind, each group in listing order; when exactly
    that many candidates mention "raw" or "control", the files counted are
    exactly those; and the descriptors that the orchestrator writes into the
    record are these files, in this order, with their counts. *)
Theorem C4_priority_then_cap (cands : list Candidate.t) :
  MAX_FILES_FOR_MS2_COUNTING < length cands ->
  files_to_process_for_ms2 cands
  = firstn MAX_FILES_FOR_MS2_COUNTING
      (List.filter mentions_raw_or_control cands ++
       List.filter (fun x => negb (mentions_raw_or_control x)) cands) /\
  (length (List.filter mentions_raw_or_control cands) = MAX_FILES_FOR_MS2_COUNTING ->
   files_to_process_for_ms2 cands = List.filter mentions_raw_or_control cands) /\
  (forall shell urlparse check_docker_availability process_binary_file_with_msconvert
          d key log ftp_link server base_ftp_path files log1 d' log',
      eq_str (dict_get d "llm_assessment" (VStr "REJECTED")) "REJECTED" = false ->
      d !! "ftp_link" = Some (VStr ftp_link) ->
      Py.startswith ftp_link "ftp://" = true ->
      urlparse ftp_link = Ok (server, base_ftp_path) ->
      list_mass_spec_files_recursively shell server base_ftp_path log = (Ok files, log1) ->
      fst (collect_candidates (get_derived_food_name_regex_list key)
             (dict_get d "llm_assessment" (VStr "REJECTED")) files) = cands ->
      process_single_dataset shell urlparse check_docker_availability
        process_binary_file_with_msconvert d key log = (Ok d', log') ->
      exists counts : list Z,
        length counts = MAX_FILES_FOR_MS2_COUNTING /\
        d' !! "selected_files_for_ms2_analysis"
        = Some (VList (map Candidate.to_value
                         (zip_with Candidate.set_ms2_spectra_in_file counts
                            (files_to_process_for_ms2 cands))))).
Proof.
  intros Hover. pose proof (files_to_process_for_ms2_over_cap cands Hover) as Hsel.
  split; [exact Hsel | split].
  - intros Hcap. rewrite Hsel, <- Hcap. now rewrite firstn_app, Nat.sub_diag, firstn_all, firstn_O, app_nil_r.
  - intros shell urlparse dk pb d key log ftp_link server base files log1 d' log'
           Ha Hlink Hftp Hurl Hlist Hcands Hrun.
    destruct (analysis_path shell urlparse dk pb d key log ftp_link server base files
                log1 d' log' Ha Hlink Hftp Hurl Hlist) as (counts & Hlen & Hsel').
    + rewrite Hcands. intros ->. cbn in Hover. lia.
    + exact Hrun.
    + rewrite Hcands in Hlen, Hsel'. exists counts. split; [| exact Hsel'].
      rewrite Hlen, Hsel, length_firstn, List.length_app.
      pose proof (List.filter_length mentions_raw_or_control cands). lia.
Qed.

Lemma C4_priority_then_cap_witness :
  files_to_process_for_ms2 Sample.mixed
  = List.filter mentions_raw_or_control Sample.mixed /\
  exists counts : list Z,
    length counts = MAX_FILES_FOR_MS2_COUNTING /\
    Sample.result_of (Sample.run Sample.accepted) !! "selected_files_for_ms2_analysis"
    = Some (VList (map Candidate.to_value
                     (zip_with Candidate.set_ms2_spectra_in_file counts
                        (files_to_process_for_ms2 Sample.kept)))).
Proof.
  split.
  - destruct (C4_priority_then_cap Sample.mixed) as (_ & Hexact & _).
    + vm_compute. lia.
    + apply Hexact. vm_compute. reflexivity.
  - destruct (C4_priority_then_cap Sample.kept) as (_ & _ & Hrun).
    + vm_compute. lia.
    + apply (Hrun Sample.shell Sample.urlparse Sample.check_docker_availability
               Sample.process_binary_file_with_msconvert Sample.accepted "grain" []
               "ftp://massive.ucsd.edu/v01/MSV000001" "massive.ucsd.edu" "/v01/MSV000001"
               (Sample.files_of Sample.list_files) (snd Sample.list_files)
               _ (snd (Sample.run Sample.accepted)));
        vm_compute; reflexivity.
Defined.

(** * Further properties of [ms_filter.py] *)

(** ** The classifier, rule by rule *)

Lemma eq_str_spec (a : value) (s : string) : eq_str a s = true <-> a = VStr s.
Proof.
  destruct a as [| | |t| |]; cbn; try (split; [discriminate | discriminate]).
  rewrite String.eqb_eq. split; [now intros -> | now intros [= ->]].
Qed.

(** X1: the classifier keeps a file exactly when the filename matches no QC
    term and either the assessment is ACCEPTED, or the assessment is MAYBE,
    a PROCESSED term comes with a CONTROL or RAW term, a NON_EDIBLE term comes
    with a GENERIC_EDIBLE_PART or CONTROL term, and the filename has a RAW
    term, a CONTROL term, or a food-key match together with a
    GENERIC_EDIBLE_PART term. *)
Theorem X1_keep_exactly_when (filename_lower : string)
    (food_patterns : list Re.regex) (assessment_type : value) :
  fst (check_filename_relevance filename_lower food_patterns assessment_type) = true
  <->
  any_search COMPILED_QC filename_lower = false /\
  (assessment_type = VStr "ACCEPTED" \/
   (assessment_type = VStr "MAYBE" /\
    (any_search COMPILED_PROCESSED filename_lower = true ->
     any_search COMPILED_CONTROL filename_lower = true \/
     any_search COMPILED_RAW filename_lower = true) /\
    (any_search COMPILED_NON_EDIBLE filename_lower = true ->
     any_search COMPILED_GENERIC_EDIBLE_PART filename_lower = true \/
     any_search COMPILED_CONTROL filename_lower = true) /\
    (any_search COMPILED_RAW filename_lower = true \/
     any_search COMPILED_CONTROL filename_lower = true \/
     (any_search food_patterns filename_lower = true /\
      any_search COMPILED_GENERIC_EDIBLE_PART filename_lower = true)))).
Proof.
  unfold check_filename_relevance.
  destruct (any_search COMPILED_QC filename_lower).
  { split; [discriminate | now intros [? _]]. }
  destruct (eq_str assessment_type "ACCEPTED") eqn:Ha.
  { apply eq_str_spec in Ha. split; auto. }
  destruct (eq_str assessment_type "MAYBE") eqn:Hm.
  - apply eq_str_spec in Hm. subst assessment_type.
    destruct (any_search COMPILED_PROCESSED filename_lower);
    destruct (any_search COMPILED_CONTROL filename_lower);
    destruct (any_search COMPILED_RAW filename_lower);
    destruct (any_search COMPILED_NON_EDIBLE filename_lower);
    destruct (any_search COMPILED_GENERIC_EDIBLE_PART filename_lower);
    destruct (any_search COMPILED_TREATMENT filename_lower);
    destruct (any_search food_patterns filename_lower);
    cbn; intuition (discriminate || congruence).
  - split; [discriminate |].
    intros [_ [E | [E _]]]; apply eq_str_spec in E; congruence.
Qed.

(** X2: the decision can be read off the reason: a file is kept exactly when
    its reason is one of the three of [KEEP_REASONS], and rejected exactly
    when its reason is one of the six of [REJECT_REASONS]. *)
Theorem X2_reason_tells_decision (filename_lower : string)
    (food_patterns : list Re.regex) (assessment_type : value) :
  (fst (check_filename_relevance filename_lower food_patterns assessment_type) = true
   <-> In (snd (check_filename_relevance filename_lower food_patterns assessment_type))
          KEEP_REASONS) /\
  (fst (check_filename_relevance filename_lower food_patterns assessment_type) = false
   <-> In (snd (check_filename_relevance filename_lower food_patterns assessment_type))
          REJECT_REASONS).
Proof.
  assert (forall k r,
             (In (k, r) (map (pair true) KEEP_REASONS ++ map (pair false) REJECT_REASONS)) ->
             (k = true <-> In r KEEP_REASONS) /\ (k = false <-> In r REJECT_REASONS)) as Hall.
  { intros k r H. cbn in H.
    repeat (destruct H as [[= <- <-] | H];
            [cbn; split; split; intro; try reflexivity; try discriminate;
             intuition discriminate |]).
    destruct H. }
  destruct (check_filename_relevance filename_lower food_patterns assessment_type)
    as [k r] eqn:Hcheck.
  apply Hall. rewrite <- Hcheck. clear Hcheck Hall.
  unfold check_filename_relevance.
  destruct (any_search COMPILED_QC filename_lower); [cbn; tauto |].
  destruct (eq_str assessment_type "ACCEPTED"); [cbn; tauto |].
  destruct (eq_str assessment_type "MAYBE"); [| cbn; tauto].
  destruct (any_search COMPILED_PROCESSED filename_lower);
  destruct (any_search COMPILED_CONTROL filename_lower);
  destruct (any_search COMPILED_RAW filename_lower);
  destruct (any_search COMPILED_NON_EDIBLE filename_lower);
  destruct (any_search COMPILED_GENERIC_EDIBLE_PART filename_lower);
  destruct (any_search COMPILED_TREATMENT filename_lower);
  destruct (any_search food_patterns filename_lower);
  cbn; tauto.
Qed.

(** ** Letter case *)

Module CaseFacts.
Import Re.

Lemma lower_char_idem (c : ascii) : Py.lower_char (Py.lower_char c) = Py.lower_char c.
Proof. destruct c as [[] [] [] [] [] [] [] []]; reflexivity. Qed.

Lemma is_word_lower (c : ascii) : is_word (Py.lower_char c) = is_word c.
Proof. destruct c as [[] [] [] [] [] [] [] []]; reflexivity. Qed.

Lemma ceq_lower_r (a x : ascii) : ceq a (Py.lower_char x) = ceq a x.
Proof. unfold ceq. now rewrite lower_char_idem. Qed.

Lemma ceq_lower_l (x a : ascii) : ceq (Py.lower_char x) a = ceq x a.
Proof. unfold ceq. now rewrite lower_char_idem. Qed.

Lemma chars_lower (s : string) : Py.chars (Py.lower s) = map Py.lower_char (Py.chars s).
Proof. induction s as [| c s IH]; cbn; [reflexivity |]. f_equal. exact IH. Qed.

Lemma advance_if_lower (ok ok' : ascii -> bool) (p : pos) :
  (forall x, ok (Py.lower_char x) = ok' x) ->
  advance_if ok (lower_pos p) = map lower_pos (advance_if ok' p).
Proof.
  intros Hok. destruct p as [pre [| x suf]]; [reflexivity |].
  unfold advance_if, lower_pos. cbn [fst snd map]. rewrite Hok.
  now destruct (ok' x).
Qed.

Lemma word_before_lower (p : pos) : word_before (lower_pos p) = word_before p.
Proof. destruct p as [[| c pre] suf]; [reflexivity |]. apply is_word_lower. Qed.

Lemma word_after_lower (p : pos) : word_after (lower_pos p) = word_after p.
Proof. destruct p as [pre [| c suf]]; [reflexivity |]. apply is_word_lower. Qed.

(** Matching from a position of the lower-cased text goes through the same
    positions as matching from that position of the text. *)
Lemma ends_lower (r : regex) :
  forall p, ends r (lower_pos p) = map lower_pos (ends r p).
Proof.
  induction r as [| c | cs | | r1 IH1 r2 IH2 | r1 IH1 r2 IH2]; intros p; cbn [ends].
  - reflexivity.
  - apply advance_if_lower. intros x. apply ceq_lower_r.
  - apply advance_if_lower. intros x.
    induction cs as [| c cs IH]; cbn; [reflexivity |].
    now rewrite ceq_lower_l, IH.
  - rewrite word_before_lower, word_after_lower. now destruct (xorb _ _).
  - rewrite IH1. generalize (ends r1 p) as l.
    induction l as [| q l IHl]; cbn; [reflexivity |].
    now rewrite IH2, IHl, map_app.
  - now rewrite IH1, IH2, map_app.
Qed.

Lemma matches_at_lower (r : regex) (p : pos) :
  matches_at r (lower_pos p) = matches_at r p.
Proof. unfold matches_at. rewrite ends_lower. now destruct (ends r p). Qed.

Lemma positions_from_lower (before after : list ascii) :
  positions_from (map Py.lower_char before) (map Py.lower_char after)
  = map lower_pos (positions_from before after).
Proof.
  revert before. induction after as [| x after IH]; intros before; [reflexivity |].
  cbn [positions_from map]. f_equal. apply (IH (x :: before)).
Qed.

(** Every pattern is compiled with [re.IGNORECASE]: it finds the same in a
    text and in the text lower-cased. *)
Lemma search_lower (r : regex) (text : string) :
  search r (Py.lower text) = search r text.
Proof.
  unfold search. rewrite chars_lower.
  change (@nil ascii) with (map Py.lower_char []) at 1.
  rewrite positions_from_lower.
  generalize (positions_from [] (Py.chars text)) as l.
  induction l as [| p l IH]; cbn; [reflexivity |].
  now rewrite matches_at_lower, IH.
Qed.

End CaseFacts.

Lemma any_search_lower (rgxs : list Re.regex) (text : string) :
  any_search rgxs (Py.lower text) = any_search rgxs text.
Proof.
  unfold any_search. induction rgxs as [| r rgxs IH]; cbn; [reflexivity |].
  now rewrite CaseFacts.search_lower, IH.
Qed.

(** X3: the classifier does not look at letter case: it answers the same for
    a filename and for the filename lower-cased, whatever the food-key
    patterns and the assessment. *)
Theorem X3_case_blind (filename : string) (food_patterns : list Re.regex)
    (assessment_type : value) :
  check_filename_relevance (Py.lower filename) food_patterns assessment_type
  = check_filename_relevance filename food_patterns assessment_type.
Proof. unfold check_filename_relevance. now rewrite !any_search_lower. Qed.

(** ** The patterns of a food key *)

Lemma escape_not_word_pattern (key e : string) : Re.escape key <> word_pattern e.
Proof.
  change (word_pattern e) with (String "\" (String "b" (e +:+ "\b"))).
  destruct key as [| c key]; [discriminate |].
  cbn [Re.escape]. destruct (Re.is_special c) eqn:Hc.
  - intros [= ->]. discriminate Hc.
  - intros [= -> _]. discriminate Hc.
Qed.

Lemma whole_key_test_fails (key : string) :
  Py.mem (Re.escape key) (per_token_regex_strings key) = false.
Proof.
  apply not_true_is_false. unfold Py.mem, per_token_regex_strings.
  intros H. apply existsb_exists in H as (p & Hp & Heq).
  apply String.eqb_eq in Heq. apply in_map_iff in Hp as (e & <- & _).
  exact (escape_not_word_pattern key e Heq).
Qed.

Lemma regex_strings_whole_key (key : string) :
  regex_strings key = per_token_regex_strings key ++ [word_pattern (Re.escape key)].
Proof. unfold regex_strings. now rewrite whole_key_test_fails. Qed.

Lemma omap_compile_length (l : list string) :
  Forall (fun p => is_Some (Re.compile p)) l -> length (omap Re.compile l) = length l.
Proof.
  induction 1 as [| p l [r Hr] _ IH]; [reflexivity |].
  cbn. rewrite Hr. cbn. now rewrite IH.
Qed.

Lemma remove_dups_length (l : list string) : length (remove_dups l) <= length l.
Proof.
  induction l as [| x l IH]; cbn; [lia |].
  destruct (decide_rel elem_of x l); cbn; lia.
Qed.

Lemma remove_dups_one (x : string) : remove_dups [x] = [x].
Proof. cbn. destruct (decide_rel elem_of x []) as [H | _]; [inversion H | reflexivity]. Qed.

Lemma remove_dups_twice (x : string) : remove_dups [x; x] = remove_dups [x].
Proof.
  cbn [remove_dups].
  destruct (decide_rel elem_of x [x]) as [_ | H]; [reflexivity | destruct H; now left].
Qed.

Lemma split_no_separator (c : ascii) (s : string) :
  forallb (fun x => negb (Ascii.eqb x c)) (Py.chars s) = true -> Py.split c s = [s].
Proof.
  induction s as [| x s IH]; cbn; [reflexivity |].
  intros H. apply andb_prop in H as [Hx Hs].
  apply negb_true_iff in Hx. rewrite Hx. now rewrite (IH Hs).
Qed.

Lemma whole_key_regex_present (key : string) :
  key <> EmptyString ->
  In (Re.word_regex key) (get_derived_food_name_regex_list key).
Proof.
  intros Hkey. unfold get_derived_food_name_regex_list.
  destruct key as [| c key]; [now destruct Hkey |]. cbn [Py.truthy_str negb].
  apply list_elem_of_In, list_elem_of_omap.
  exists (word_pattern (Re.escape (String c key))).
  split; [| apply ReFacts.compile_word_pattern].
  apply list_elem_of_In, unique_regex_strings_In.
  rewrite regex_strings_whole_key. apply in_or_app. right. now left.
Qed.

(** X4: the test made before the pattern of the whole key is appended,
    whether the escaped key is already among the patterns, never succeeds,
    because every pattern starts with [\b] and no escaped key does.  So the
    pattern of the whole key is always appended, and for a non-empty key it
    is always among the patterns returned. *)
Theorem X4_whole_key_pattern_present (key : string) :
  Py.mem (Re.escape key) (per_token_regex_strings key) = false /\
  regex_strings key = per_token_regex_strings key ++ [word_pattern (Re.escape key)] /\
  (key <> EmptyString ->
   In (Re.word_regex key) (get_derived_food_name_regex_list key)).
Proof.
  split; [apply whole_key_test_fails | split; [apply regex_strings_whole_key |]].
  apply whole_key_regex_present.
Qed.

Lemma X4_whole_key_pattern_present_witness :
  In (Re.word_regex "sweet_potato") (get_derived_food_name_regex_list "sweet_potato").
Proof.
  destruct (X4_whole_key_pattern_present "sweet_potato") as (_ & _ & H).
  apply H. discriminate.
Defined.

(** X5: a non-empty key gives at least one pattern and at most one more than
    it has tokens longer than two characters; a non-empty key without an
    underscore gives exactly one pattern, that of the key as a whole word. *)
Theorem X5_pattern_count (key : string) :
  key <> EmptyString ->
  1 <= length (get_derived_food_name_regex_list key) /\
  length (get_derived_food_name_regex_list key)
  <= length (List.filter (fun part => 2 <? Py.len part) (Py.split "_" key)) + 1 /\
  (forallb (fun x => negb (Ascii.eqb x "_")) (Py.chars key) = true ->
   get_derived_food_name_regex_list key = [Re.word_regex key]).
Proof.
  intros Hkey.
  assert (get_derived_food_name_regex_list key
          = omap Re.compile (unique_regex_strings key)) as Hget.
  { unfold get_derived_food_name_regex_list. destruct key; [now destruct Hkey | reflexivity]. }
  assert (length (get_derived_food_name_regex_list key)
          = length (Sorting.list_set (regex_strings key))) as Hlen.
  { rewrite Hget, omap_compile_length by apply escaped_patterns_compile.
    unfold unique_regex_strings. now rewrite SortingFacts.sorted_perm. }
  split; [| split].
  - pose proof (whole_key_regex_present key Hkey) as Hin.
    destruct (get_derived_food_name_regex_list key); [destruct Hin | cbn; lia].
  - rewrite Hlen. unfold Sorting.list_set.
    etransitivity; [apply remove_dups_length |].
    rewrite regex_strings_whole_key, List.length_app. cbn.
    unfold per_token_regex_strings, food_key_parts. now rewrite !List.length_map.
  - intros Hno. rewrite Hget. unfold unique_regex_strings.
    rewrite regex_strings_whole_key.
    unfold per_token_regex_strings, food_key_parts.
    rewrite (split_no_separator _ _ Hno). cbn [List.filter].
    destruct (2 <? Py.len key); cbn [map app]; unfold Sorting.list_set;
      rewrite ?remove_dups_twice, remove_dups_one; cbn;
      now rewrite ReFacts.compile_word_pattern.
Qed.

Lemma X5_pattern_count_witness :
  1 <= length (get_derived_food_name_regex_list "sweet_potato_ab") /\
  length (get_derived_food_name_regex_list "sweet_potato_ab")
  <= length (List.filter (fun part => 2 <? Py.len part) (Py.split "_" "sweet_potato_ab")) + 1 /\
  get_derived_food_name_regex_list "grain" = [Re.word_regex "grain"].
Proof.
  destruct (X5_pattern_count "sweet_potato_ab") as (Hlow & Hhigh & _); [discriminate |].
  destruct (X5_pattern_count "grain") as (_ & _ & Hone); [discriminate |].
  split; [exact Hlow | split; [exact Hhigh | apply Hone; reflexivity]].
Defined.

(** ** The lister and the counter, command by command *)

Lemma endswith_slash_appended (s : string) : Py.endswith (s +:+ "/") "/" = true.
Proof.
  unfold Py.endswith. rewrite ReFacts.chars_app, rev_app_distr. cbn.
  now destruct (string_of_list_ascii _).
Qed.

Lemma found_files_step_descriptor (found : list FileInfo.t) (line : string) :
  Forall descriptor_of_line found -> Forall descriptor_of_line (found_files_step found line).
Proof.
  intros H. unfold found_files_step.
  destruct (negb (Py.truthy_str (Py.strip line))) eqn:Ht; [exact H |].
  destruct (Py.endswith (Py.strip line) "/") eqn:He; [exact H |]. cbn [orb].
  destruct (Py.mem _ _) eqn:Hm; [| exact H].
  apply Forall_app. split; [exact H |]. constructor; [| constructor].
  unfold descriptor_of_line. cbn [FileInfo.ftp_full_path FileInfo.filename
                                  FileInfo.file_ext_lower].
  repeat split; try reflexivity; try assumption.
  - intros E. rewrite E in Ht. discriminate Ht.
  - unfold Py.mem in Hm. apply existsb_exists in Hm as (e & He' & Heq).
    apply String.eqb_eq in Heq. now subst.
Qed.

Lemma found_files_step_order (found : list FileInfo.t) (line : string)
    (seen : list string) :
  sublist (map FileInfo.ftp_full_path found) seen ->
  sublist (map FileInfo.ftp_full_path (found_files_step found line))
          (seen ++ [Py.strip line]).
Proof.
  intros H. unfold found_files_step.
  destruct (_ || _); [now apply sublist_inserts_r |].
  destruct (Py.mem _ _); [| now apply sublist_inserts_r].
  rewrite map_app. now apply sublist_app.
Qed.

Lemma found_files_fold (lines : list string) :
  forall found seen,
    Forall descriptor_of_line found ->
    sublist (map FileInfo.ftp_full_path found) seen ->
    Forall descriptor_of_line (fold_left found_files_step lines found) /\
    sublist (map FileInfo.ftp_full_path (fold_left found_files_step lines found))
            (seen ++ map Py.strip lines).
Proof.
  induction lines as [| line lines IH]; intros found seen HD Hsub; cbn.
  - rewrite app_nil_r. now split.
  - replace (seen ++ Py.strip line :: map Py.strip lines)
      with ((seen ++ [Py.strip line]) ++ map Py.strip lines)
      by now rewrite <- app_assoc.
    apply IH; [now apply found_files_step_descriptor | now apply found_files_step_order].
Qed.

Lemma found_files_of_stdout_descriptors (stdout : string) :
  Forall descriptor_of_line (found_files_of_stdout stdout) /\
  sublist (map FileInfo.ftp_full_path (found_files_of_stdout stdout))
          (map Py.strip (Py.split newline (Py.strip stdout))).
Proof.
  unfold found_files_of_stdout.
  apply (found_files_fold _ [] []); constructor.
Qed.

(** X6: the descriptors that the lister builds from a listing follow the
    order of its lines, at most one per line, and each is read off its line:
    the path is the line stripped, non-empty and not a directory, the
    filename is its last component and the extension is the lower-cased
    extension of the filename, one of the four supported. *)
Theorem X6_descriptors_follow_listing (stdout : string) :
  Forall descriptor_of_line (found_files_of_stdout stdout) /\
  sublist (map FileInfo.ftp_full_path (found_files_of_stdout stdout))
          (map Py.strip (Py.split newline (Py.strip stdout))).
Proof. apply found_files_of_stdout_descriptors. Qed.

(** X7: the lister runs exactly one command, whatever the answer; a timeout
    or a non-zero exit status gives the empty list, not an exception; and a
    trailing slash at the end of the base path changes nothing. *)
Theorem X7_lister_one_command
    (shell : call_log -> string -> run_outcome) (server base_ftp_path : string)
    (log : call_log) :
  exists cmd,
    snd (list_mass_spec_files_recursively shell server base_ftp_path log) = log ++ [cmd] /\
    (shell log cmd = TimeoutExpired ->
     fst (list_mass_spec_files_recursively shell server base_ftp_path log) = Ok []) /\
    (forall returncode stdout stderr,
        shell log cmd = Completed returncode stdout stderr ->
        fst (list_mass_spec_files_recursively shell server base_ftp_path log)
        = Ok (if Z.eqb returncode 0 then found_files_of_stdout stdout else [])) /\
    (Py.endswith base_ftp_path "/" = false ->
     list_mass_spec_files_recursively shell server (base_ftp_path +:+ "/") log
     = list_mass_spec_files_recursively shell server base_ftp_path log).
Proof.
  unfold list_mass_spec_files_recursively, bind, subprocess_run.
  eexists. split; [| split; [| split]].
  - destruct (shell log _) as [rc out err | | e]; [destruct (negb _) | |]; reflexivity.
  - intros ->. reflexivity.
  - intros rc out err ->. now destruct (rc =? 0)%Z.
  - intros Hno. now rewrite endswith_slash_appended, Hno.
Qed.

Lemma X7_lister_one_command_witness :
  exists cmd,
    snd (list_mass_spec_files_recursively (fun _ _ => TimeoutExpired)
           "massive.ucsd.edu" "/v01/MSV000001" []) = [] ++ [cmd] /\
    fst (list_mass_spec_files_recursively (fun _ _ => TimeoutExpired)
           "massive.ucsd.edu" "/v01/MSV000001" []) = Ok [] /\
    list_mass_spec_files_recursively (fun _ _ => TimeoutExpired)
      "massive.ucsd.edu" ("/v01/MSV000001" +:+ "/") []
    = list_mass_spec_files_recursively (fun _ _ => TimeoutExpired)
        "massive.ucsd.edu" "/v01/MSV000001" [].
Proof.
  destruct (X7_lister_one_command (fun _ _ => TimeoutExpired)
              "massive.ucsd.edu" "/v01/MSV000001" []) as (cmd & Hlog & Htime & _ & Hslash).
  exists cmd. split; [exact Hlog | split; [apply Htime; reflexivity | apply Hslash; reflexivity]].
Defined.

Lemma counting_command_outcome
    (shell : call_log -> string -> run_outcome) (cmd : string) (log : call_log) :
  let run :=
    (let* process := subprocess_run shell cmd in
     match process with
     | TimeoutExpired => ret 0%Z
     | RunError e => raise e
     | Completed returncode stdout stderr =>
         if (1 <? returncode)%Z then ret 0%Z
         else match Py.int (Py.strip stdout) with
              | Some count => ret count
              | None => ret 0%Z
              end
     end) log in
  snd run = log ++ [cmd] /\
  fst run = match shell log cmd with
            | TimeoutExpired => Ok 0%Z
            | RunError e => Raise e
            | Completed returncode stdout stderr =>
                if (1 <? returncode)%Z then Ok 0%Z
                else match Py.int (Py.strip stdout) with
                     | Some count => Ok count
                     | None => Ok 0%Z
                     end
            end.
Proof.
  cbn zeta. unfold bind, subprocess_run.
  destruct (shell log cmd) as [rc out err | | e]; cbn; [| now split | now split].
  destruct (1 <? rc)%Z; [now split |]. now destruct (Py.int _).
Qed.

(** X8: the counter has a command for an extension exactly when the
    extension is one of [TEXT_BASED_EXTENSIONS]; for any other it answers 0
    and runs nothing.  Otherwise it runs one command, and answers 0 on a
    timeout, on an exit status above 1 and on an output that is not an
    integer, and the integer printed in the remaining case. *)
Theorem X8_counter_outcomes
    (shell : call_log -> string -> run_outcome)
    (server full_ftp_file_path file_ext_lower : string) (log : call_log) :
  (Py.mem file_ext_lower TEXT_BASED_EXTENSIONS = false ->
   count_ms2_spectra_in_text_file_via_ftp shell server full_ftp_file_path file_ext_lower log
   = (Ok 0%Z, log)) /\
  (Py.mem file_ext_lower TEXT_BASED_EXTENSIONS = true ->
   exists cmd,
     snd (count_ms2_spectra_in_text_file_via_ftp shell server full_ftp_file_path
            file_ext_lower log) = log ++ [cmd] /\
     fst (count_ms2_spectra_in_text_file_via_ftp shell server full_ftp_file_path
            file_ext_lower log)
     = match shell log cmd with
       | TimeoutExpired => Ok 0%Z
       | RunError e => Raise e
       | Completed returncode stdout stderr =>
           if (1 <? returncode)%Z then Ok 0%Z
           else match Py.int (Py.strip stdout) with
                | Some count => Ok count
                | None => Ok 0%Z
                end
       end).
Proof.
  unfold count_ms2_spectra_in_text_file_via_ftp, Py.mem, TEXT_BASED_EXTENSIONS.
  cbn [existsb]. rewrite !orb_false_r.
  destruct (String.eqb file_ext_lower ".mzxml"), (String.eqb file_ext_lower ".mgf"),
    (String.eqb file_ext_lower ".mzml"), (String.eqb file_ext_lower ".cdf");
    cbn [orb]; (split; [intros H; try discriminate H; reflexivity |]);
    intros H; try discriminate H; eexists; apply counting_command_outcome.
Qed.

Lemma X8_counter_outcomes_witness :
  count_ms2_spectra_in_text_file_via_ftp Sample.shell "massive.ucsd.edu"
    "/v01/MSV000001/vendor/grain_07.raw" ".raw" [] = (Ok 0%Z, []) /\
  exists cmd,
    snd (count_ms2_spectra_in_text_file_via_ftp Sample.shell "massive.ucsd.edu"
           "/v01/MSV000001/grain_08.mgf" ".mgf" []) = [] ++ [cmd] /\
    fst (count_ms2_spectra_in_text_file_via_ftp Sample.shell "massive.ucsd.edu"
           "/v01/MSV000001/grain_08.mgf" ".mgf" [])
    = match Sample.shell [] cmd with
      | TimeoutExpired => Ok 0%Z
      | RunError e => Raise e
      | Completed returncode stdout stderr =>
          if (1 <? returncode)%Z then Ok 0%Z
          else match Py.int (Py.strip stdout) with
               | Some count => Ok count
               | None => Ok 0%Z
               end
      end.
Proof.
  split.
  - apply (X8_counter_outcomes Sample.shell "massive.ucsd.edu"
             "/v01/MSV000001/vendor/grain_07.raw" ".raw" []). reflexivity.
  - apply (X8_counter_outcomes Sample.shell "massive.ucsd.edu"
             "/v01/MSV000001/grain_08.mgf" ".mgf" []). reflexivity.
Defined.

(** ** What the orchestrator selects *)

Lemma candidate_step_sources (rgx : list Re.regex) (a : value) (P : Candidate.t -> Prop)
    (acc : list Candidate.t * nat) (fi : FileInfo.t) :
  (forall c, candidate_of rgx a fi c -> P c) ->
  Forall P (fst acc) -> Forall P (fst (candidate_step rgx a acc fi)).
Proof.
  intros HP Hacc. unfold candidate_step. destruct acc as [cands n].
  destruct (check_filename_relevance _ _ _) as [[] reason] eqn:Hcheck; [| exact Hacc].
  destruct (_ && _); [exact Hacc |].
  cbn [fst] in *. apply Forall_app. split; [exact Hacc |].
  constructor; [| constructor]. apply HP. unfold candidate_of. cbn. now rewrite Hcheck.
Qed.

Lemma collect_candidates_sources (rgx : list Re.regex) (a : value)
    (P : Candidate.t -> Prop) (files : list FileInfo.t) :
  (forall fi c, In fi files -> candidate_of rgx a fi c -> P c) ->
  Forall P (fst (collect_candidates rgx a files)).
Proof.
  unfold collect_candidates.
  assert (Forall P (fst (@nil Candidate.t, 0))) as Hacc by constructor.
  revert Hacc. generalize (@nil Candidate.t, 0).
  induction files as [| fi files IH]; intros acc Hacc HP; cbn; [exact Hacc |].
  apply IH.
  - apply candidate_step_sources; [| exact Hacc]. intros c. apply HP. now left.
  - intros fi' c Hin. apply HP. now right.
Qed.

Lemma In_firstn {A : Type} (x : A) (n : nat) (l : list A) :
  In x (firstn n l) -> In x l.
Proof.
  intros H. rewrite <- (firstn_skipn n l). apply in_or_app. now left.
Qed.

Lemma files_to_process_for_ms2_In (cands : list Candidate.t) (c : Candidate.t) :
  In c (files_to_process_for_ms2 cands) -> In c cands.
Proof.
  destruct (Nat.ltb_spec MAX_FILES_FOR_MS2_COUNTING (length cands)) as [Hover | Hunder].
  - rewrite files_to_process_for_ms2_over_cap by exact Hover.
    intros H. apply In_firstn in H.
    apply in_app_or in H as [H | H]; now apply List.filter_In in H.
  - unfold files_to_process_for_ms2.
    now rewrite (proj2 (Nat.ltb_ge _ _) Hunder).
Qed.

Lemma counts_of_zip (counts : list Z) (files : list Candidate.t) :
  length counts = length files ->
  map Candidate.ms2_spectra_in_file
      (zip_with Candidate.set_ms2_spectra_in_file counts files) = counts.
Proof.
  revert files. induction counts as [| n counts IH]; intros [| f files] Hlen;
    cbn in *; try discriminate; [reflexivity |].
  f_equal. apply IH. lia.
Qed.

Lemma zip_with_counts_Forall (P : Candidate.t -> Prop) (counts : list Z)
    (files : list Candidate.t) :
  (forall n c, P c -> P (Candidate.set_ms2_spectra_in_file n c)) ->
  Forall P files ->
  Forall P (zip_with Candidate.set_ms2_spectra_in_file counts files).
Proof.
  intros Hset Hfiles. revert counts.
  induction Hfiles as [| f files Hf _ IH]; intros [| n counts]; cbn; constructor; auto.
Qed.

Lemma list_mass_spec_files_recursively_descriptors
    (shell : call_log -> string -> run_outcome) (server base_ftp_path : string)
    (log log' : call_log) (files : list FileInfo.t) :
  list_mass_spec_files_recursively shell server base_ftp_path log = (Ok files, log') ->
  Forall descriptor_of_line files /\ exists cmd, log' = log ++ [cmd].
Proof.
  unfold list_mass_spec_files_recursively, bind, subprocess_run.
  destruct (shell log _) as [rc out err | | e]; cbn.
  - destruct (negb (rc =? 0)%Z); intros [= <- <-]; (split; [| now eexists]);
      [constructor | apply found_files_of_stdout_descriptors].
  - intros [= <- <-]. split; [constructor | now eexists].
  - discriminate.
Qed.

Lemma kept_not_qc (name : string) (rgx : list Re.regex) (a : value) (reason : string) :
  check_filename_relevance name rgx a = (true, reason) ->
  any_search COMPILED_QC name = false.
Proof.
  unfold check_filename_relevance. now destruct (any_search COMPILED_QC name).
Qed.

Lemma kept_reason_listed (name : string) (rgx : list Re.regex) (a : value)
    (reason : string) :
  check_filename_relevance name rgx a = (true, reason) -> In reason KEEP_REASONS.
Proof.
  intros H. apply kept_reason in H as [[_ ->] | [_ [-> | ->]]]; cbn; tauto.
Qed.

Lemma candidate_well_selected (rgx : list Re.regex) (a : value) (fi : FileInfo.t)
    (c : Candidate.t) :
  descriptor_of_line fi -> candidate_of rgx a fi c -> well_selected rgx a c.
Proof.
  intros (_ & _ & Hname & _ & Hext) (Hpath & Hfile & Hcext & Hcheck).
  unfold well_selected. rewrite Hfile, Hcext, Hpath.
  repeat split; try assumption.
  - eapply kept_not_qc, Hcheck.
  - eapply kept_reason_listed, Hcheck.
Qed.

Section Selection.

Variable shell : call_log -> string -> run_outcome.
Variable urlparse : string -> result (string * string).

(** The descriptors written into a returned record. *)
Lemma returns_shape (d : gmap string value) (key : string) (log : call_log)
    (d' : gmap string value) (log' : call_log) :
  returns shell urlparse d key log d' log' ->
  exists cs : list Candidate.t,
    d' !! "selected_files_for_ms2_analysis" = Some (VList (map Candidate.to_value cs)) /\
    d' !! "total_ms2_spectra_from_selected_files" = Some (VInt (sum_counts cs)) /\
    Forall (well_selected (get_derived_food_name_regex_list key)
              (dict_get d "llm_assessment" (VStr "REJECTED"))) cs.
Proof.
  destruct 1 as [ | | | | server base link files log1 lowered counts log2
                          _ _ _ _ Hlist _ Hlen _ ].
  1-4: exists []; cbn [map sum_counts fold_right];
       rewrite ?(lookup_insert_ne _ "ms2_count_source_type") by done;
       rewrite ?(lookup_insert_ne _ "unsupported_files_skipped_count") by done;
       destruct (reset_results_lookup d) as (? & ? & _); auto.
  eexists. split; [| split].
  - rewrite !lookup_insert_ne by done. apply lookup_insert_eq.
  - rewrite lookup_insert_ne by done. rewrite lookup_insert_eq.
    unfold sum_counts. now rewrite counts_of_zip.
  - apply list_mass_spec_files_recursively_descriptors in Hlist as [Hdesc _].
    apply zip_with_counts_Forall; [now intros n c H |].
    apply List.Forall_forall. intros c Hc. apply files_to_process_for_ms2_In in Hc.
    revert c Hc. apply List.Forall_forall. apply collect_candidates_sources.
    intros fi c Hfi. apply candidate_well_selected.
    rewrite List.Forall_forall in Hdesc. now apply Hdesc.
Qed.

(** Every field outside [result_keys] is as it was, and the four are set. *)
Lemma returns_frame (d : gmap string value) (key : string) (log : call_log)
    (d' : gmap string value) (log' : call_log) :
  returns shell urlparse d key log d' log' ->
  (forall k, ~ In k result_keys -> d' !! k = d !! k) /\
  (forall k, In k result_keys -> is_Some (d' !! k)).
Proof.
  intros H. split.
  - intros k Hk. unfold result_keys in Hk. cbn [In] in Hk.
    destruct H;
      rewrite ?lookup_insert_ne by (intros <-; tauto);
      apply reset_results_frame; intros ->; tauto.
  - intros k Hk. unfold result_keys in Hk. cbn [In] in Hk.
    destruct (reset_results_lookup d) as (Hs & Ht & Hu).
    destruct Hk as [<- | [<- | [<- | [<- | []]]]]; destruct H;
      repeat first [ rewrite lookup_insert_eq | rewrite lookup_insert_ne by done ];
      eauto.
Qed.

(** The source-type tag tells whether files were selected. *)
Lemma returns_tag (d : gmap string value) (key : string) (log : call_log)
    (d' : gmap string value) (log' : call_log) :
  returns shell urlparse d key log d' log' ->
  exists tag l,
    d' !! "ms2_count_source_type" = Some (VStr tag) /\
    d' !! "selected_files_for_ms2_analysis" = Some (VList l) /\
    (l <> [] <-> Py.startswith tag "ftp_analysis_" = true).
Proof.
  destruct 1 as [ | | | | server base link files log1 lowered counts log2
                          _ _ _ _ _ Hcands Hlen _ ].
  1-4: eexists _, []; rewrite lookup_insert_eq;
       rewrite ?(lookup_insert_ne _ "ms2_count_source_type") by done;
       rewrite ?(lookup_insert_ne _ "unsupported_files_skipped_count") by done;
       (split; [reflexivity |]);
       (split; [apply reset_results_lookup |]);
       (split; [congruence | discriminate]).
  eexists _, _. rewrite lookup_insert_eq. split; [reflexivity |].
  split; [rewrite !lookup_insert_ne by done; apply lookup_insert_eq |].
  split; [intros _; now destruct lowered | intros _].
  rewrite files_to_process_for_ms2_of_kept in Hlen |- *.
  destruct (fst (collect_candidates _ _ files)) as [| c cands]; [now destruct Hcands |].
  destruct counts as [| n counts]; [discriminate Hlen | discriminate].
Qed.

End Selection.

(** X9: in every record that the orchestrator returns, the aggregate
    spectra count is the sum of the counts of the selected descriptors. *)
Theorem X9_total_is_sum
    (shell : call_log -> string -> run_outcome)
    (urlparse : string -> result (string * string))
    (check_docker_availability : M bool)
    (process_binary_file_with_msconvert : string -> string -> M Z)
    (d : gmap string value) (key : string) (log : call_log)
    (d' : gmap string value) (log' : call_log) :
  process_single_dataset shell urlparse check_docker_availability
    process_binary_file_with_msconvert d key log = (Ok d', log') ->
  exists cs : list Candidate.t,
    d' !! "selected_files_for_ms2_analysis" = Some (VList (map Candidate.to_value cs)) /\
    d' !! "total_ms2_spectra_from_selected_files" = Some (VInt (sum_counts cs)).
Proof.
  intros H. apply process_single_dataset_returns, returns_shape in H as (cs & ? & ? & _).
  now exists cs.
Qed.

Lemma X9_total_is_sum_witness :
  exists cs : list Candidate.t,
    Sample.result_of (Scenario.run (VStr "MAYBE")) !! "selected_files_for_ms2_analysis"
    = Some (VList (map Candidate.to_value cs)) /\
    Sample.result_of (Scenario.run (VStr "MAYBE")) !! "total_ms2_spectra_from_selected_files"
    = Some (VInt (sum_counts cs)).
Proof.
  apply (X9_total_is_sum Scenario.shell Scenario.urlparse
           Sample.check_docker_availability Sample.process_binary_file_with_msconvert
           (Scenario.dataset (VStr "MAYBE")) "grain" [] _
           (snd (Scenario.run (VStr "MAYBE")))).
  reflexivity.
Defined.

(** X10: in every record that the orchestrator returns, the four result
    fields are set and every other field is as it was in the input. *)
Theorem X10_only_result_fields_written
    (shell : call_log -> string -> run_outcome)
    (urlparse : string -> result (string * string))
    (check_docker_availability : M bool)
    (process_binary_file_with_msconvert : string -> string -> M Z)
    (d : gmap string value) (key : string) (log : call_log)
    (d' : gmap string value) (log' : call_log) :
  process_single_dataset shell urlparse check_docker_availability
    process_binary_file_with_msconvert d key log = (Ok d', log') ->
  (forall k, ~ In k result_keys -> d' !! k = d !! k) /\
  (forall k, In k result_keys -> is_Some (d' !! k)).
Proof.
  intros H. apply process_single_dataset_returns in H.
  exact (returns_frame _ _ _ _ _ _ _ H).
Qed.

Lemma X10_only_result_fields_written_witness :
  (forall k, ~ In k result_keys ->
             Sample.result_of (Scenario.run (VStr "MAYBE")) !! k
             = Scenario.dataset (VStr "MAYBE") !! k) /\
  (forall k, In k result_keys ->
             is_Some (Sample.result_of (Scenario.run (VStr "MAYBE")) !! k)).
Proof.
  apply (X10_only_result_fields_written Scenario.shell Scenario.urlparse
           Sample.check_docker_availability Sample.process_binary_file_with_msconvert
           (Scenario.dataset (VStr "MAYBE")) "grain" [] _
           (snd (Scenario.run (VStr "MAYBE")))).
  reflexivity.
Defined.

(** X11: every descriptor that the orchestrator selects is a file that the
    classifier keeps, with the reason recorded: its filename matches no QC
    term, its reason is one of [KEEP_REASONS], its extension is a supported
    one and its filename is the last component of its path. *)
Theorem X11_selected_files_are_kept_files
    (shell : call_log -> string -> run_outcome)
    (urlparse : string -> result (string * string))
    (check_docker_availability : M bool)
    (process_binary_file_with_msconvert : string -> string -> M Z)
    (d : gmap string value) (key : string) (log : call_log)
    (d' : gmap string value) (log' : call_log) :
  process_single_dataset shell urlparse check_docker_availability
    process_binary_file_with_msconvert d key log = (Ok d', log') ->
  exists cs : list Candidate.t,
    d' !! "selected_files_for_ms2_analysis" = Some (VList (map Candidate.to_value cs)) /\
    Forall (well_selected (get_derived_food_name_regex_list key)
              (dict_get d "llm_assessment" (VStr "REJECTED"))) cs.
Proof.
  intros H. apply process_single_dataset_returns, returns_shape in H as (cs & ? & _ & ?).
  now exists cs.
Qed.

Lemma X11_selected_files_are_kept_files_witness :
  exists cs : list Candidate.t,
    Sample.result_of (Scenario.run (VStr "MAYBE")) !! "selected_files_for_ms2_analysis"
    = Some (VList (map Candidate.to_value cs)) /\
    Forall (well_selected (get_derived_food_name_regex_list "grain")
              (dict_get (Scenario.dataset (VStr "MAYBE")) "llm_assessment"
                        (VStr "REJECTED"))) cs.
Proof.
  apply (X11_selected_files_are_kept_files Scenario.shell Scenario.urlparse
           Sample.check_docker_availability Sample.process_binary_file_with_msconvert
           (Scenario.dataset (VStr "MAYBE")) "grain" [] _
           (snd (Scenario.run (VStr "MAYBE")))).
  reflexivity.
Defined.

(** X12: the candidates of one dataset are never reordered before the
    truncation: all the reasons of a MAYBE study mention "raw" or "control"
    and the reason of an ACCEPTED study does not, so the files counted are
    the first [MAX_FILES_FOR_MS2_COUNTING] kept files in listing order. *)
Theorem X12_priority_sort_keeps_listing_order (rgx : list Re.regex) (a : value)
    (files : list FileInfo.t) :
  (Forall (fun c => mentions_raw_or_control c = false)
          (fst (collect_candidates rgx a files)) \/
   Forall (fun c => mentions_raw_or_control c = true)
          (fst (collect_candidates rgx a files))) /\
  files_to_process_for_ms2 (fst (collect_candidates rgx a files))
  = firstn MAX_FILES_FOR_MS2_COUNTING (fst (collect_candidates rgx a files)).
Proof.
  split; [apply kept_files_one_class | apply files_to_process_for_ms2_of_kept].
Qed.

(** X13: the source-type tag of a returned record tells whether files were
    selected: the selected-file list is non-empty exactly when the tag starts
    with [ftp_analysis_]. *)
Theorem X13_tag_tells_selection
    (shell : call_log -> string -> run_outcome)
    (urlparse : string -> result (string * string))
    (check_docker_availability : M bool)
    (process_binary_file_with_msconvert : string -> string -> M Z)
    (d : gmap string value) (key : string) (log : call_log)
    (d' : gmap string value) (log' : call_log) :
  process_single_dataset shell urlparse check_docker_availability
    process_binary_file_with_msconvert d key log = (Ok d', log') ->
  exists tag l,
    d' !! "ms2_count_source_type" = Some (VStr tag) /\
    d' !! "selected_files_for_ms2_analysis" = Some (VList l) /\
    (l <> [] <-> Py.startswith tag "ftp_analysis_" = true).
Proof.
  intros H. apply process_single_dataset_returns in H.
  exact (returns_tag _ _ _ _ _ _ _ H).
Qed.

Lemma X13_tag_tells_selection_witness :
  exists tag l,
    Sample.result_of (Scenario.run (VStr "MAYBE")) !! "ms2_count_source_type"
    = Some (VStr tag) /\
    Sample.result_of (Scenario.run (VStr "MAYBE")) !! "selected_files_for_ms2_analysis"
    = Some (VList l) /\
    (l <> [] <-> Py.startswith tag "ftp_analysis_" = true).
Proof.
  apply (X13_tag_tells_selection Scenario.shell Scenario.urlparse
           Sample.check_docker_availability Sample.process_binary_file_with_msconvert
           (Scenario.dataset (VStr "MAYBE")) "grain" [] _
           (snd (Scenario.run (VStr "MAYBE")))).
  reflexivity.
Defined.

(** ** The commands that the orchestrator runs *)

Section Commands.

Variable shell : call_log -> string -> run_outcome.
Variable urlparse : string -> result (string * string).
Variable check_docker_availability : M bool.
Variable process_binary_file_with_msconvert : string -> string -> M Z.

Lemma count_ms2_spectra_in_text_file_via_ftp_log
    (server path ext : string) (log : call_log) :
  exists cmds,
    snd (count_ms2_spectra_in_text_file_via_ftp shell server path ext log) = log ++ cmds /\
    length cmds <= 1.
Proof.
  unfold count_ms2_spectra_in_text_file_via_ftp.
  destruct (if String.eqb ext ".mzxml" then _ else _) as [cmd |].
  - exists [cmd]. split; [| cbn; lia]. apply counting_command_outcome.
  - exists []. split; [now rewrite app_nil_r | cbn; lia].
Qed.

(** With [ENABLE_MSCONVERT_PROCESSING] off, counting one file runs at most
    one command, and neither the Docker probe nor the conversion. *)
Lemma count_one_log (server : string) (f : Candidate.t) (log : call_log) :
  exists cmds,
    snd (count_one shell check_docker_availability process_binary_file_with_msconvert
           server f log) = log ++ cmds /\
    length cmds <= 1.
Proof.
  unfold count_one.
  destruct (Py.mem _ TEXT_BASED_EXTENSIONS);
    [apply count_ms2_spectra_in_text_file_via_ftp_log |].
  destruct (Py.mem _ MSCONVERT_SUPPORTED_RAW_EXTENSIONS);
    exists []; (split; [now rewrite app_nil_r | cbn; lia]).
Qed.

Lemma count_selected_log (server : string) (files : list Candidate.t) :
  forall total details log,
  exists cmds,
    snd (count_selected shell check_docker_availability process_binary_file_with_msconvert
           server files total details log) = log ++ cmds /\
    length cmds <= length files.
Proof.
  induction files as [| f files IH]; intros total details log.
  - exists []. split; [now rewrite app_nil_r | cbn; lia].
  - cbn [count_selected]. unfold bind at 1.
    destruct (count_one_log server f log) as (c1 & Hlog1 & Hlen1).
    destruct (count_one _ _ _ server f log) as [[n | e] log1]; cbn [snd] in Hlog1; subst log1.
    + destruct (IH (total + n)%Z
                   (details ++ [Candidate.set_ms2_spectra_in_file n f]) (log ++ c1))
        as (c2 & Hlog2 & Hlen2).
      exists (c1 ++ c2). rewrite Hlog2, <- app_assoc, List.length_app. split; [reflexivity |].
      cbn [length]. lia.
    + exists c1. split; [reflexivity | cbn [length]; lia].
Qed.

Lemma list_mass_spec_files_recursively_log (server base : string) (log : call_log) :
  exists cmd,
    snd (list_mass_spec_files_recursively shell server base log) = log ++ [cmd].
Proof.
  unfold list_mass_spec_files_recursively, bind, subprocess_run. eexists.
  destruct (shell log _) as [rc out err | | e]; [destruct (negb _) | |]; reflexivity.
Qed.

Lemma process_single_dataset_log (d : gmap string value) (key : string)
    (log : call_log) :
  exists cmds,
    snd (process_single_dataset shell urlparse check_docker_availability
           process_binary_file_with_msconvert d key log) = log ++ cmds /\
    length cmds <= 1 + MAX_FILES_FOR_MS2_COUNTING.
Proof.
  assert (exists cmds, log = log ++ cmds /\ length cmds <= 1 + MAX_FILES_FOR_MS2_COUNTING)
    as Hnone by (exists []; split; [now rewrite app_nil_r | cbn; lia]).
  unfold process_single_dataset.
  destruct (eq_str _ _); [exact Hnone |].
  destruct (negb (truthy _)); [exact Hnone |].
  destruct (dict_get _ "ftp_link" _) as [| | |link| |]; try exact Hnone.
  destruct (negb (Py.startswith link "ftp://")); [exact Hnone |].
  unfold bind at 1. unfold parse_ftp_path, lift.
  destruct (urlparse link) as [[server base] | e]; [| exact Hnone].
  unfold bind at 1.
  destruct (list_mass_spec_files_recursively_log server base log) as (cmd & Hcmd).
  destruct (list_mass_spec_files_recursively shell server base log)
    as [[files | e] log1]; cbn [snd] in Hcmd; subst log1.
  2: { exists [cmd]. split; [reflexivity | cbn; lia]. }
  assert (forall r : result (gmap string value),
             exists cmds, snd (r, log ++ [cmd]) = log ++ cmds /\
                          length cmds <= 1 + MAX_FILES_FOR_MS2_COUNTING) as Hone.
  { intros r. exists [cmd]. split; [reflexivity | cbn; lia]. }
  destruct files as [| fi files].
  { unfold bind, lift, ret. destruct (value_lower _); apply Hone. }
  destruct (collect_candidates _ _ (fi :: files)) as [[| c cands] unsupported].
  { unfold bind, lift, ret. destruct (value_lower _); apply Hone. }
  unfold bind at 1.
  destruct (count_selected_log server (files_to_process_for_ms2 (c :: cands))
              0%Z [] (log ++ [cmd])) as (c2 & Hlog2 & Hlen2).
  pose proof (files_to_process_for_ms2_length (c :: cands)) as Hcap.
  destruct (count_selected _ _ _ server _ 0%Z [] (log ++ [cmd]))
    as [[[total details] | e] log2]; cbn [snd] in Hlog2; subst log2.
  - unfold bind, lift, ret.
    destruct (value_lower _); exists (cmd :: c2);
      (split; [cbn [snd]; now rewrite <- app_assoc | cbn [length]; lia]).
  - exists (cmd :: c2). split; [cbn [snd]; now rewrite <- app_assoc | cbn [length]; lia].
Qed.

End Commands.

Lemma count_selected_without_msconvert
    (shell : call_log -> string -> run_outcome)
    (probe probe' : M bool) (convert convert' : string -> string -> M Z)
    (server : string) (files : list Candidate.t) :
  forall total details log,
    count_selected shell probe convert server files total details log
    = count_selected shell probe' convert' server files total details log.
Proof.
  induction files as [| f files IH]; intros total details log; [reflexivity |].
  cbn [count_selected]. unfold bind.
  replace (count_one shell probe convert server f log)
    with (count_one shell probe' convert' server f log)
    by (unfold count_one; now repeat destruct (Py.mem _ _)).
  destruct (count_one shell probe' convert' server f log) as [[n | e] log1];
    [apply IH | reflexivity].
Qed.

Lemma process_single_dataset_without_msconvert
    (shell : call_log -> string -> run_outcome)
    (urlparse : string -> result (string * string))
    (probe probe' : M bool) (convert convert' : string -> string -> M Z)
    (d : gmap string value) (key : string) (log : call_log) :
  process_single_dataset shell urlparse probe convert d key log
  = process_single_dataset shell urlparse probe' convert' d key log.
Proof.
  unfold process_single_dataset.
  destruct (eq_str _ _); [reflexivity |].
  destruct (negb (truthy _)); [reflexivity |].
  destruct (dict_get _ "ftp_link" _) as [| | |link| |]; reflexivity.
Qed.

(** X14: whatever it returns or raises, the orchestrator runs at most eleven
    commands, one listing and at most ten counts; and with
    [ENABLE_MSCONVERT_PROCESSING] off it never calls the Docker probe or the
    conversion: its outcome is the same whatever these two are. *)
Theorem X14_command_budget
    (shell : call_log -> string -> run_outcome)
    (urlparse : string -> result (string * string))
    (check_docker_availability : M bool)
    (process_binary_file_with_msconvert : string -> string -> M Z)
    (d : gmap string value) (key : string) (log : call_log) :
  (exists cmds,
      snd (process_single_dataset shell urlparse check_docker_availability
             process_binary_file_with_msconvert d key log) = log ++ cmds /\
      length cmds <= 11) /\
  (forall probe convert,
      process_single_dataset shell urlparse probe convert d key log
      = process_single_dataset shell urlparse check_docker_availability
          process_binary_file_with_msconvert d key log).
Proof.
  split; [apply process_single_dataset_log |].
  intros. apply process_single_dataset_without_msconvert.
Qed.

Lemma collect_candidates_none_kept (rgx : list Re.regex) (a : value)
    (files : list FileInfo.t) :
  a <> VStr "ACCEPTED" -> a <> VStr "MAYBE" ->
  fst (collect_candidates rgx a files) = [].
Proof.
  intros Hacc Hmaybe.
  assert (Forall (fun _ => False) (fst (collect_candidates rgx a files))) as H.
  { apply collect_candidates_reasons. intros name reason c Hcheck _.
    apply kept_reason in Hcheck as [[E _] | [E _]]; congruence. }
  destruct (fst (collect_candidates rgx a files)); [reflexivity | now inversion H].
Qed.

(** X15: for a record whose assessment is anything but ACCEPTED or MAYBE, a
    returned record has no selected file and an aggregate count of 0, and at
    most the listing command has run: no file is ever counted. *)
Theorem X15_other_assessments_select_nothing
    (shell : call_log -> string -> run_outcome)
    (urlparse : string -> result (string * string))
    (check_docker_availability : M bool)
    (process_binary_file_with_msconvert : string -> string -> M Z)
    (d : gmap string value) (key : string) (log : call_log)
    (assessment : value) (d' : gmap string value) (log' : call_log) :
  d !! "llm_assessment" = Some assessment ->
  assessment <> VStr "ACCEPTED" -> assessment <> VStr "MAYBE" ->
  process_single_dataset shell urlparse check_docker_availability
    process_binary_file_with_msconvert d key log = (Ok d', log') ->
  d' !! "selected_files_for_ms2_analysis" = Some (VList []) /\
  d' !! "total_ms2_spectra_from_selected_files" = Some (VInt 0) /\
  exists cmds, log' = log ++ cmds /\ length cmds <= 1.
Proof.
  intros Ha Hacc Hmaybe H. apply process_single_dataset_returns in H.
  assert (dict_get d "llm_assessment" (VStr "REJECTED") = assessment) as Hget
      by (unfold dict_get; now rewrite Ha).
  destruct (reset_results_lookup d) as (Hs & Ht & _).
  assert (exists cmds, log = log ++ cmds /\ length cmds <= 1) as Hnone
      by (exists []; split; [now rewrite app_nil_r | cbn; lia]).
  destruct H as [ | | ? ? ? ? ? _ _ _ _ Hlist _ | ? ? ? ? ? ? _ _ _ _ Hlist _ _ _
                | ? ? ? files ? ? ? ? _ _ _ _ _ Hcands _ _ ].
  - rewrite !lookup_insert_ne by done. auto.
  - rewrite !lookup_insert_ne by done. auto.
  - rewrite !lookup_insert_ne by done. repeat split; auto.
    apply list_mass_spec_files_recursively_descriptors in Hlist as [_ [cmd ->]].
    exists [cmd]. split; [reflexivity | cbn; lia].
  - rewrite !lookup_insert_ne by done. repeat split; auto.
    apply list_mass_spec_files_recursively_descriptors in Hlist as [_ [cmd ->]].
    exists [cmd]. split; [reflexivity | cbn; lia].
  - exfalso. apply Hcands. rewrite Hget. now apply collect_candidates_none_kept.
Qed.

Lemma X15_other_assessments_select_nothing_witness :
  Sample.result_of (Scenario.run (VStr "UNSURE")) !! "selected_files_for_ms2_analysis"
  = Some (VList []) /\
  Sample.result_of (Scenario.run (VStr "UNSURE")) !! "total_ms2_spectra_from_selected_files"
  = Some (VInt 0) /\
  exists cmds, snd (Scenario.run (VStr "UNSURE")) = [] ++ cmds /\ length cmds <= 1.
Proof.
  apply (X15_other_assessments_select_nothing Scenario.shell Scenario.urlparse
           Sample.check_docker_availability Sample.process_binary_file_with_msconvert
           (Scenario.dataset (VStr "UNSURE")) "grain" [] (VStr "UNSURE")).
  - reflexivity.
  - discriminate.
  - discriminate.
  - reflexivity.
Defined.

(** X16: a record whose assessment is present but is not a string (a JSON
    null, a number) and whose remote location is an [ftp://] link makes the
    orchestrator raise [AttributeError], and only after the listing command
    has run. *)
Theorem X16_non_string_assessment_raises
    (shell : call_log -> string -> run_outcome)
    (urlparse : string -> result (string * string))
    (check_docker_availability : M bool)
    (process_binary_file_with_msconvert : string -> string -> M Z)
    (d : gmap string value) (key : string) (log : call_log)
    (assessment : value) (ftp_link server base_ftp_path : string) :
  d !! "llm_assessment" = Some assessment ->
  (forall s, assessment <> VStr s) ->
  d !! "ftp_link" = Some (VStr ftp_link) ->
  Py.startswith ftp_link "ftp://" = true ->
  urlparse ftp_link = Ok (server, base_ftp_path) ->
  (forall cmd e, shell log cmd <> RunError e) ->
  exists cmd,
    process_single_dataset shell urlparse check_docker_availability
      process_binary_file_with_msconvert d key log
    = (Raise (AttributeError "lower"), log ++ [cmd]).
Proof.
  intros Ha Hns Hlink Hftp Hurl Hshell.
  assert (dict_get d "llm_assessment" (VStr "REJECTED") = assessment) as Hget
      by (unfold dict_get; now rewrite Ha).
  assert (value_lower assessment = Raise (AttributeError "lower")) as Hlower
      by (destruct assessment; try reflexivity; now destruct (Hns s)).
  assert (eq_str assessment "REJECTED" = false) as Hrej
      by (destruct assessment; try reflexivity; now destruct (Hns s)).
  unfold process_single_dataset. fold (reset_results d). rewrite Hget, Hrej.
  replace (dict_get (reset_results d) "ftp_link" (VStr "")) with (VStr ftp_link)
    by (unfold dict_get; now rewrite reset_results_frame, Hlink by discriminate).
  replace (negb (truthy (VStr ftp_link))) with false
    by (destruct ftp_link; [discriminate Hftp | reflexivity]).
  rewrite Hftp. cbn [negb].
  unfold bind at 1. unfold parse_ftp_path, lift. rewrite Hurl.
  unfold bind at 1.
  destruct (list_mass_spec_files_recursively_log shell server base_ftp_path log)
    as (cmd & Hcmd).
  exists cmd.
  destruct (list_mass_spec_files_recursively shell server base_ftp_path log)
    as [[files | e] log1] eqn:Hlist; cbn [snd] in Hcmd; subst log1.
  - destruct files as [| fi files].
    + unfold bind, lift. now rewrite Hlower.
    + pose proof (collect_candidates_none_kept
                    (get_derived_food_name_regex_list key) assessment (fi :: files)) as Hnone.
      destruct (collect_candidates _ assessment (fi :: files)) as [cands unsupported].
      cbn [fst] in Hnone. rewrite Hnone by apply Hns.
      unfold bind, lift. now rewrite Hlower.
  - exfalso. revert Hlist.
    unfold list_mass_spec_files_recursively, bind, subprocess_run.
    match goal with |- context [shell log ?c] =>
      pose proof (Hshell c) as Hc; destruct (shell log c) as [rc out err | | e']
    end; [destruct (negb _) | | now destruct (Hc e')]; discriminate.
Qed.

Lemma X16_non_string_assessment_raises_witness :
  exists cmd, Scenario.run VNone = (Raise (AttributeError "lower"), [] ++ [cmd]).
Proof.
  apply (X16_non_string_assessment_raises Scenario.shell Scenario.urlparse
           Sample.check_docker_availability Sample.process_binary_file_with_msconvert
           (Scenario.dataset VNone) "grain" [] VNone
           "ftp://massive.ucsd.edu/MSV001" "massive.ucsd.edu" "/MSV001").
  - reflexivity.
  - discriminate.
  - reflexivity.
  - reflexivity.
  - reflexivity.
  - intros cmd e. unfold Scenario.shell. destruct (Py.startswith cmd "lftp"); discriminate.
Defined.

(** X17: a record whose assessment and remote location, when present, are
    strings never makes the orchestrator raise, provided the shell itself
    raises nothing and the link parses: timeouts, failed commands and
    unreadable counts all end in a returned record. *)
Theorem X17_returns_a_record
    (shell : call_log -> string -> run_outcome)
    (urlparse : string -> result (string * string))
    (check_docker_availability : M bool)
    (process_binary_file_with_msconvert : string -> string -> M Z)
    (d : gmap string value) (key : string) (log : call_log) :
  (forall log cmd e, shell log cmd <> RunError e) ->
  (forall ftp_link, exists parts, urlparse ftp_link = Ok parts) ->
  (forall a, d !! "llm_assessment" = Some a -> exists s, a = VStr s) ->
  (forall v, d !! "ftp_link" = Some v -> exists s, v = VStr s) ->
  exists d' log',
    process_single_dataset shell urlparse check_docker_availability
      process_binary_file_with_msconvert d key log = (Ok d', log').
Proof. intros. now apply process_single_dataset_returns_record. Qed.

Lemma X17_returns_a_record_witness :
  exists d' log',
    process_single_dataset (fun _ _ => TimeoutExpired) Scenario.urlparse
      Sample.check_docker_availability Sample.process_binary_file_with_msconvert
      (Scenario.dataset (VStr "MAYBE")) "grain" [] = (Ok d', log').
Proof.
  apply (X17_returns_a_record (fun _ _ => TimeoutExpired) Scenario.urlparse).
  - discriminate.
  - intros link. eexists. reflexivity.
  - intros a H. change (Some (VStr "MAYBE") = Some a) in H. injection H as <-. now eexists.
  - intros v H. change (Some (VStr "ftp://massive.ucsd.edu/MSV001") = Some v) in H.
    injection H as <-. now eexists.
Defined.

(** ** The conversion path *)

(** X18: the Docker probe answers from its memo when it has one and runs
    nothing; without one it runs [docker --version], then [docker ps -q] only
    if the first succeeded, answers whether both succeeded and stores that
    answer; so a second call always repeats the first answer without running
    a command. *)
Theorem X18_docker_probe_memo
    (shell : call_log -> string -> run_outcome) (memo : option bool)
    (log : call_log) :
  let probe := Msconvert.check_docker_availability shell in
  let answer := fst (fst (probe memo log)) in
  let memo' := snd (fst (probe memo log)) in
  let log' := snd (probe memo log) in
  memo' = Some answer /\
  probe memo' log' = ((answer, memo'), log') /\
  match memo with
  | Some available => answer = available /\ log' = log
  | None =>
      answer = Msconvert.succeeded (shell log "docker --version") &&
               Msconvert.succeeded (shell (log ++ ["docker --version"]) "docker ps -q") /\
      log' = log ++ (if Msconvert.succeeded (shell log "docker --version")
                     then ["docker --version"; "docker ps -q"]
                     else ["docker --version"])
  end.
Proof.
  cbn zeta. unfold Msconvert.check_docker_availability.
  destruct memo as [available |]; [now repeat split |].
  destruct (Msconvert.succeeded (shell log "docker --version")); cbn [andb].
  - destruct (Msconvert.succeeded (shell _ "docker ps -q")); cbn [fst snd];
      rewrite <- app_assoc; now repeat split.
  - now repeat split.
Qed.

(** X19: the conversion answers a count other than 0 only when the download
    and the Docker run both completed with exit status 0, the converted
    [.mzML] file exists in the temporary directory and the [grep] over it
    exited with status at most 1 and printed that count; it has then run
    exactly these three commands, in this order. *)
Theorem X19_conversion_count
    (shell : call_log -> string -> run_outcome) (tmpdir : string)
    (path_exists : call_log -> string -> bool)
    (server full_ftp_file_path : string) (log : call_log) (count : Z) :
  fst (Msconvert.process_binary_file_with_msconvert shell tmpdir path_exists
         server full_ftp_file_path log) = Ok count ->
  count <> 0%Z ->
  exists download_cmd docker_cmd returncode stdout stderr,
    let local_mzml_path :=
      Msconvert.path_join tmpdir
        (fst (Py.splitext (Py.basename full_ftp_file_path)) +:+ ".mzML") in
    let count_cmd :=
      "grep -c 'accession=" +:+ dq +:+ "MS:1000580" +:+ dq +:+ "' " +:+
      dq +:+ local_mzml_path +:+ dq in
    snd (Msconvert.process_binary_file_with_msconvert shell tmpdir path_exists
           server full_ftp_file_path log)
    = log ++ [download_cmd; docker_cmd; count_cmd] /\
    Msconvert.succeeded (shell log download_cmd) = true /\
    Msconvert.succeeded (shell (log ++ [download_cmd]) docker_cmd) = true /\
    path_exists (log ++ [download_cmd; docker_cmd]) local_mzml_path = true /\
    shell (log ++ [download_cmd; docker_cmd]) count_cmd
    = Completed returncode stdout stderr /\
    (returncode <= 1)%Z /\
    Py.int (Py.strip stdout) = Some count.
Proof.
  intros Hrun Hcount.
  destruct (Msconvert.process_binary_file_with_msconvert shell tmpdir path_exists
              server full_ftp_file_path log) as [answer log'] eqn:Hrun'.
  cbn [fst snd] in *. subst answer. revert Hrun'.
  unfold Msconvert.process_binary_file_with_msconvert,
    Msconvert.count_ms2_spectra_in_converted_file.
  cbn zeta. unfold bind at 1. unfold subprocess_run at 1.
  match goal with |- context [shell log ?c] => set (download_cmd := c) end.
  destruct (Msconvert.succeeded (shell log download_cmd)) eqn:Hdownload; cbn [negb];
    [| intros [= E]; now destruct Hcount].
  unfold bind at 1. unfold subprocess_run at 1.
  match goal with |- context [shell (log ++ [download_cmd]) ?c] => set (docker_cmd := c) end.
  destruct (Msconvert.succeeded (shell (log ++ [download_cmd]) docker_cmd)) eqn:Hdocker;
    cbn [negb]; [| intros [= E]; now destruct Hcount].
  replace ((log ++ [download_cmd]) ++ [docker_cmd]) with (log ++ [download_cmd; docker_cmd])
    by now rewrite <- app_assoc.
  destruct (path_exists _ _) eqn:Hexists; [| intros [= E]; now destruct Hcount].
  unfold bind, subprocess_run.
  match goal with |- context [shell (log ++ [download_cmd; docker_cmd]) ?c] =>
    set (count_cmd := c) end.
  destruct (shell (log ++ [download_cmd; docker_cmd]) count_cmd)
    as [returncode stdout stderr | | e] eqn:Hgrep;
    [| intros [= E]; now destruct Hcount | discriminate].
  destruct (1 <? returncode)%Z eqn:Hrc; [intros [= E]; now destruct Hcount |].
  destruct (Py.int (Py.strip stdout)) as [n |] eqn:Hint;
    [| intros [= E]; now destruct Hcount].
  intros [= -> <-]. exists download_cmd, docker_cmd, returncode, stdout, stderr.
  repeat split; try assumption.
  - now rewrite <- app_assoc.
  - now apply Z.ltb_ge.
Qed.

Lemma X19_conversion_count_witness :
  exists download_cmd docker_cmd returncode stdout stderr,
    snd (Msconvert.process_binary_file_with_msconvert Scenario.conversion_shell
           "/tmp/msconvert_x" (fun _ _ => true) "massive.ucsd.edu" "/MSV001/grain_02.raw" [])
    = [] ++ [download_cmd; docker_cmd;
             "grep -c 'accession=" +:+ dq +:+ "MS:1000580" +:+ dq +:+ "' " +:+
             dq +:+ "/tmp/msconvert_x/grain_02.mzML" +:+ dq] /\
    Msconvert.succeeded (Scenario.conversion_shell [] download_cmd) = true /\
    Msconvert.succeeded (Scenario.conversion_shell ([] ++ [download_cmd]) docker_cmd) = true /\
    true = true /\
    Scenario.conversion_shell ([] ++ [download_cmd; docker_cmd])
      ("grep -c 'accession=" +:+ dq +:+ "MS:1000580" +:+ dq +:+ "' " +:+
       dq +:+ "/tmp/msconvert_x/grain_02.mzML" +:+ dq)
    = Completed returncode stdout stderr /\
    (returncode <= 1)%Z /\
    Py.int (Py.strip stdout) = Some 7%Z.
Proof.
  apply (X19_conversion_count Scenario.conversion_shell "/tmp/msconvert_x"
           (fun _ _ => true) "massive.ucsd.edu" "/MSV001/grain_02.raw" [] 7%Z).
  - reflexivity.
  - discriminate.
Defined.

(** ** The worker pool *)

(** X20: whatever [os.cpu_count()] answers, the entry point asks for between 1
    and 4 workers, and the pool that the driver then creates has at least one
    worker, at most that many, and no more workers than there are records
    when there is any. *)
Theorem X20_pool_size (num_cpu : option nat) (n_datasets : nat) :
  1 <= num_workers num_cpu <= 4 /\
  (1 <= actual_max_workers (Z.of_nat (num_workers num_cpu)) n_datasets
   <= Z.of_nat (num_workers num_cpu))%Z /\
  (0 < n_datasets ->
   (actual_max_workers (Z.of_nat (num_workers num_cpu)) n_datasets
    <= Z.of_nat n_datasets)%Z).
Proof.
  assert (1 <= num_workers num_cpu <= 4) as Hworkers by (unfold num_workers; lia).
  split; [exact Hworkers |]. unfold actual_max_workers.
  destruct (0 <? n_datasets) eqn:Hn.
  - apply Nat.ltb_lt in Hn. lia.
  - apply Nat.ltb_ge in Hn. lia.
Qed.

Lemma X20_pool_size_witness :
  (1 <= num_workers (Some 16%nat) <= 4)%nat /\
  (1 <= actual_max_workers (Z.of_nat (num_workers (Some 16%nat))) 3%nat
   <= Z.of_nat (num_workers (Some 16%nat)))%Z /\
  (actual_max_workers (Z.of_nat (num_workers (Some 16%nat))) 3%nat <= 3)%Z.
Proof.
  destruct (X20_pool_size (Some 16%nat) 3%nat) as (Hworkers & Hpool & Hrecords).
  split; [exact Hworkers |]. split; [exact Hpool |]. apply Hrecords. lia.
Defined.

(** ** The records that the driver collects *)

Lemma returns_tag_not_error
    (shell : call_log -> string -> run_outcome)
    (urlparse : string -> result (string * string))
    (d : gmap string value) (key : string) (log : call_log)
    (d' : gmap string value) (log' : call_log) :
  returns shell urlparse d key log d' log' ->
  d' !! "ms2_count_source_type" <> Some (VStr "processing_error").
Proof.
  destruct 1; rewrite lookup_insert_eq; intros [= E]; try discriminate E;
    vm_compute in E; discriminate E.
Qed.

(** X21: whether the worker returned or raised, the record that the driver
    collects has the four result fields set and, apart from these and the
    error message, the fields of the input record unchanged; its source-type
    tag is [processing_error] exactly when the worker raised, and it then has
    no selected file and an aggregate count of 0. *)
Theorem X21_collected_record
    (shell : call_log -> string -> run_outcome)
    (urlparse : string -> result (string * string))
    (check_docker_availability : M bool)
    (process_binary_file_with_msconvert : string -> string -> M Z)
    (str_exn : exn -> string)
    (d : gmap string value) (key : string) (log : call_log) :
  let record :=
    fst (collected shell urlparse check_docker_availability
           process_binary_file_with_msconvert str_exn d key log) in
  (forall k, In k result_keys -> is_Some (record !! k)) /\
  (forall k, ~ In k result_keys -> k <> "processing_error_message" ->
             record !! k = d !! k) /\
  (record !! "ms2_count_source_type" = Some (VStr "processing_error")
   <-> exists e,
       fst (process_single_dataset shell urlparse check_docker_availability
              process_binary_file_with_msconvert d key log) = Raise e) /\
  (record !! "ms2_count_source_type" = Some (VStr "processing_error") ->
   record !! "selected_files_for_ms2_analysis" = Some (VList []) /\
   record !! "total_ms2_spectra_from_selected_files" = Some (VInt 0)).
Proof.
  cbn zeta. unfold collected.
  destruct (process_single_dataset shell urlparse check_docker_availability
              process_binary_file_with_msconvert d key log) as [[d' | e] log'] eqn:Hrun;
    cbn [fst].
  - apply process_single_dataset_returns in Hrun.
    pose proof (returns_tag_not_error _ _ _ _ _ _ _ Hrun) as Htag.
    destruct (returns_frame _ _ _ _ _ _ _ Hrun) as [Hframe Hset].
    split; [exact Hset |]. split; [intros k Hk _; now apply Hframe |].
    split; [| intros E; now destruct Htag].
    split; [intros E; now destruct Htag | intros [e' [=]]].
  - unfold processing_error, result_keys. cbn [In].
    split; [| split; [| split]].
    + intros k [<- | [<- | [<- | [<- | []]]]]; now simplify_map_eq.
    + intros k Hk Hmsg. rewrite !lookup_insert_ne by (intros <-; tauto). reflexivity.
    + split; [intros _; now exists e | intros _; now simplify_map_eq].
    + intros _. split; now simplify_map_eq.
Qed.
